(** * valtor: composable validation schemas and their JSON-Schema adapter

    A shallow embedding of the Go package [github.com/dstotijn/valtor] and of
    its companion package [valtorjsonschema].

    - Go values of interface type [any] are a tagged union ([Go.any]).
    - Go [error] values keep the format string and the operands they were
      built from ([Go.fmt_Errorf]); [Go.Error] renders the message and
      [Go.Unwrap] follows the [%w] operand.
    - A validator is a Go closure: it may read and update program state, so
      it is a state-passing function over an arbitrary state type [St].
    - Functions of the Go standard library that the package only calls
      (regular expressions, number parsing, JSON marshalling, rounding) are
      fields of the interface [Go.Lib]. *)

From Stdlib Require Import ZArith String Ascii List Floats DecimalString Lia.
From stdpp Require Import base option list gmap strings.
Import ListNotations.

Set Warnings "-register-all".

(* ===================================================================== *)
(** * Go runtime values                                                   *)
(* ===================================================================== *)

Module Go.

(** The predeclared integer types; [int] and [uint] are 64 bits wide. *)
Inductive IntKind : Type :=
| Int | Int8 | Int16 | Int32 | Int64
| Uint | Uint8 | Uint16 | Uint32 | Uint64.

Definition bits (k : IntKind) : Z :=
  match k with
  | Int8 | Uint8 => 8
  | Int16 | Uint16 => 16
  | Int32 | Uint32 => 32
  | Int | Int64 | Uint | Uint64 => 64
  end.

Definition signed (k : IntKind) : bool :=
  match k with
  | Int | Int8 | Int16 | Int32 | Int64 => true
  | Uint | Uint8 | Uint16 | Uint32 | Uint64 => false
  end.

Definition minInt (k : IntKind) : Z :=
  if signed k then - 2 ^ (bits k - 1) else 0.

Definition maxInt (k : IntKind) : Z :=
  if signed k then 2 ^ (bits k - 1) - 1 else 2 ^ bits k - 1.

Definition inRange (k : IntKind) (z : Z) : Prop :=
  (minInt k <= z <= maxInt k)%Z.

(** Arithmetic on a [k]-typed integer wraps around. *)
Definition wrap (k : IntKind) (z : Z) : Z :=
  if signed k
  then ((z + 2 ^ (bits k - 1)) mod 2 ^ bits k - 2 ^ (bits k - 1))%Z
  else (z mod 2 ^ bits k)%Z.

(** A slice is [nil] or holds elements; a non-nil slice may be empty. *)
Definition slice (T : Type) : Type := option (list T).

Definition elems {T : Type} (arr : slice T) : list T :=
  match arr with
  | Some l => l
  | None => []
  end.

Definition len {T : Type} (arr : slice T) : Z := Z.of_nat (length (elems arr)).

(** Values of interface type [any].  [anyNil] is the nil interface; a nil
    slice or a nil map stored in an interface is not the nil interface.
    [anyOther] stands for a value of any other concrete type and keeps the
    name of that type. *)
Inductive any : Type :=
| anyNil
| anyBool (b : bool)
| anyString (s : string)
| anyInt (k : IntKind) (z : Z)
| anyFloat64 (f : float)
| anySlice (l : option (list any))
| anyMap (m : option (gmap string any))
| anyOther (typeName : string).

(** [values[key]] on a [map[string]any]: the zero value [nil] when the key
    is absent or the map is nil. *)
Definition index (values : option (gmap string any)) (key : string) : any :=
  match values with
  | Some m => default anyNil (m !! key)
  | None => anyNil
  end.

Definition intName (k : IntKind) : string :=
  match k with
  | Int => "int" | Int8 => "int8" | Int16 => "int16"
  | Int32 => "int32" | Int64 => "int64"
  | Uint => "uint" | Uint8 => "uint8" | Uint16 => "uint16"
  | Uint32 => "uint32" | Uint64 => "uint64"
  end.

(** What the verb [%T] prints. *)
Definition typeName (a : any) : string :=
  match a with
  | anyNil => "<nil>"
  | anyBool _ => "bool"
  | anyString _ => "string"
  | anyInt k _ => intName k
  | anyFloat64 _ => "float64"
  | anySlice _ => "[]interface {}"
  | anyMap _ => "map[string]interface {}"
  | anyOther n => n
  end.

(** Operands of a formatting call, and errors.  [ErrValueRequired] and
    [ErrInvalidType] are the two package-level sentinels; every other
    [errors.New] value is an [errors_New]. *)
Inductive operand (E : Type) : Type :=
| ArgInt (z : Z)
| ArgFloat (f : float)
| ArgString (s : string)
| ArgAny (a : any)
| ArgError (e : E).

Arguments ArgInt {E} z.
Arguments ArgFloat {E} f.
Arguments ArgString {E} s.
Arguments ArgAny {E} a.
Arguments ArgError {E} e.

Inductive error : Type :=
| ErrValueRequired
| ErrInvalidType
| errors_New (text : string)
| fmt_Errorf (format : string) (a : list (operand error)).

(** ** Rendering: [strconv.Quote] on ASCII, [fmt.Sprintf] on the verbs used *)

Definition dquote : ascii := "034"%char.
Definition backslash : ascii := "092"%char.

Definition hexDigit (n : N) : ascii :=
  match String.get (N.to_nat n) "0123456789abcdef" with
  | Some c => c
  | None => "0"%char
  end.

(** One byte of a quoted string; [None] above ASCII, where the result
    depends on UTF-8 decoding and on the Unicode tables. *)
Definition quoteByte (c : ascii) : option string :=
  let n := N_of_ascii c in
  let esc (x : ascii) := Some (String backslash (String x EmptyString)) in
  if (n =? 34)%N || (n =? 92)%N then esc c
  else if (32 <=? n)%N && (n <? 127)%N then Some (String c EmptyString)
  else if (n =? 7)%N then esc "a"%char
  else if (n =? 8)%N then esc "b"%char
  else if (n =? 12)%N then esc "f"%char
  else if (n =? 10)%N then esc "n"%char
  else if (n =? 13)%N then esc "r"%char
  else if (n =? 9)%N then esc "t"%char
  else if (n =? 11)%N then esc "v"%char
  else if (n <? 128)%N
       then Some (String backslash (String "x"
              (String (hexDigit (n / 16)) (String (hexDigit (n mod 16)) EmptyString))))
  else None.

Fixpoint quoteBytes (s : string) : option string :=
  match s with
  | EmptyString => Some EmptyString
  | String c rest =>
      match quoteByte c, quoteBytes rest with
      | Some q, Some r => Some (q +:+ r)
      | _, _ => None
      end
  end.

Definition Quote (s : string) : option string :=
  match quoteBytes s with
  | Some q => Some (String dquote q +:+ String dquote EmptyString)
  | None => None
  end.

Definition decimal (z : Z) : string := NilZero.string_of_int (Z.to_int z).

(** [Sprintf format a]: each operand is given as the function from the verb
    applied to it to the text it prints ([None]: a pairing of verb and
    operand that this model does not print). *)
Fixpoint Sprintf (format : string) (a : list (ascii -> option string)) : option string :=
  match format with
  | EmptyString =>
      match a with
      | [] => Some EmptyString
      | _ :: _ => None
      end
  | String c rest =>
      if Ascii.eqb c "%"%char then
        match rest, a with
        | String verb rest', o :: a' =>
            match o verb, Sprintf rest' a' with
            | Some x, Some y => Some (x +:+ y)
            | _, _ => None
            end
        | _, _ => None
        end
      else
        match Sprintf rest a with
        | Some y => Some (String c y)
        | None => None
        end
  end.

Definition isVerb (verb : ascii) (vs : string) : bool :=
  existsb (Ascii.eqb verb) (list_ascii_of_string vs).

Fixpoint Error (e : error) : option string :=
  match e with
  | ErrValueRequired => Some "value is required"
  | ErrInvalidType => Some "invalid type"
  | errors_New text => Some text
  | fmt_Errorf format a =>
      Sprintf format
        (map (fun (o : operand error) (verb : ascii) =>
                match o with
                | ArgInt z => if isVerb verb "dv" then Some (decimal z) else None
                | ArgFloat _ => None
                | ArgString s =>
                    if isVerb verb "q" then Quote s
                    else if isVerb verb "sv" then Some s else None
                | ArgAny x => if isVerb verb "T" then Some (typeName x) else None
                | ArgError e' => if isVerb verb "wvs" then Error e' else None
                end) a)
  end.

(** The verbs of a format string, in order. *)
Fixpoint verbs (format : string) : list ascii :=
  match format with
  | EmptyString => []
  | String c rest =>
      if Ascii.eqb c "%"%char then
        match rest with
        | String verb rest' => verb :: verbs rest'
        | EmptyString => []
        end
      else verbs rest
  end.

Fixpoint wrapped (vs : list ascii) (a : list (operand error)) : option error :=
  match vs, a with
  | verb :: vs', o :: a' =>
      match o with
      | ArgError e => if Ascii.eqb verb "w"%char then Some e else wrapped vs' a'
      | _ => wrapped vs' a'
      end
  | _, _ => None
  end.

(** [errors.Unwrap]: the operand of [%w]. *)
Definition Unwrap (e : error) : option error :=
  match e with
  | fmt_Errorf format a => wrapped (verbs format) a
  | _ => None
  end.

(** [errors.Is]: [target] occurs in the chain of [err]. *)
Inductive Is : error -> error -> Prop :=
| Is_here (err : error) : Is err err
| Is_unwrap (err inner target : error) :
    Unwrap err = Some inner -> Is inner target -> Is err target.

(** Functions of the standard library that the packages call.
    [regexp.Compile] yields a compiled expression or an error;
    [json.Number.Float64] yields a number and possibly an error. *)
Class Lib : Type := {
  Regexp : Type;
  regexp_Compile : string -> Regexp + error;
  MatchString : Regexp -> string -> bool;
  Regexp_String : Regexp -> string;
  Number_Float64 : string -> float * option error;
  math_Ceil : float -> float;
  math_Floor : float -> float;
  math_Trunc : float -> float;
  int64_of_float : float -> Z;
  float_of_int : Z -> float;
  json_Marshal_any : any -> string * option error
}.

(** A Go type [T] as seen through an interface: its zero value, the
    conversion [any(value)] and the assertion [value.(T)], which fails on
    the nil interface whatever [T] is. *)
Class Type_ (T : Type) : Type := {
  zero : T;
  toAny : T -> any;
  assert : any -> option T;
  assert_nil : assert anyNil = None
}.

#[global] Instance any_Type : Type_ any := {
  zero := anyNil;
  toAny := fun value => value;
  assert := fun value => match value with anyNil => None | _ => Some value end;
  assert_nil := eq_refl
}.

#[global] Instance map_Type : Type_ (option (gmap string any)) := {
  zero := None;
  toAny := anyMap;
  assert := fun value => match value with anyMap m => Some m | _ => None end;
  assert_nil := eq_refl
}.

#[global] Instance string_Type : Type_ string := {
  zero := EmptyString;
  toAny := anyString;
  assert := fun value => match value with anyString s => Some s | _ => None end;
  assert_nil := eq_refl
}.

End Go.

(* ===================================================================== *)
(** * validator.go: the base schema                                       *)
(* ===================================================================== *)

Module Schema.
Section WithState.
Context {St : Type}.

(** [Schema[T]]: the attached validators, in attachment order. *)
Record t (T : Type) : Type := mk {
  validators : list (T -> St -> option Go.error * St)
}.
Arguments mk {T} _.
Arguments validators {T} _.

Definition New (T : Type) : t T := {| validators := [] |}.

(** The loop [for _, validator := range s.validators]. *)
Fixpoint range {T : Type} (vs : list (T -> St -> option Go.error * St))
    (value : T) (st : St) : option Go.error * St :=
  match vs with
  | [] => (None, st)
  | validator :: rest =>
      match validator value st with
      | (Some err, st') => (Some err, st')
      | (None, st') => range rest value st'
      end
  end.

Definition Validate {T : Type} (s : t T) (value : T) (st : St)
    : option Go.error * St :=
  range (validators s) value st.

(** [s.validators = append(s.validators, fn)]. *)
Definition append {T : Type} (s : t T) (fn : T -> St -> option Go.error * St) : t T :=
  {| validators := validators s ++ [fn] |}.

Definition Custom {T : Type} (s : t T) (fn : T -> St -> option Go.error * St) : t T :=
  append s fn.

(** A closure that touches no state. *)
Definition check {T : Type} (p : T -> option Go.error)
    : T -> St -> option Go.error * St :=
  fun v st => (p v, st).
End WithState.
Arguments t : clear implicits.
Arguments mk {St T} _.
Arguments validators {St T} _.
Arguments New : clear implicits.
End Schema.

(* ===================================================================== *)
(** * string.go                                                           *)
(* ===================================================================== *)

Module StringSchema.
Section WithState.
Context {St : Type} `{Go.Lib}.

Record t : Type := mk {
  Schema : Schema.t St string;
  required : bool
}.

Definition Required (s : t) : t :=
  {| Schema := Schema s; required := true |}.

Definition Min (s : t) (min : Z) : t :=
  {| Schema := Schema.append (Schema s) (Schema.check (fun v =>
       if (Z.of_nat (String.length v) <? min)%Z
       then Some (Go.fmt_Errorf "length must be at least %d" [Go.ArgInt min])
       else None));
     required := required s |}.

Definition Max (s : t) (max : Z) : t :=
  {| Schema := Schema.append (Schema s) (Schema.check (fun v =>
       if (max <? Z.of_nat (String.length v))%Z
       then Some (Go.fmt_Errorf "length must be at most %d" [Go.ArgInt max])
       else None));
     required := required s |}.

Definition Length (s : t) (length : Z) : t :=
  {| Schema := Schema.append (Schema s) (Schema.check (fun v =>
       if negb (Z.of_nat (String.length v) =? length)%Z
       then Some (Go.fmt_Errorf "length must be exactly %d" [Go.ArgInt length])
       else None));
     required := required s |}.

Definition Regexp (s : t) (re : Go.Regexp) : t :=
  {| Schema := Schema.append (Schema s) (Schema.check (fun v =>
       if negb (Go.MatchString re v)
       then Some (Go.fmt_Errorf "string must match pattern %q"
                    [Go.ArgString (Go.Regexp_String re)])
       else None));
     required := required s |}.

Definition Validate (s : t) (value : string) (st : St) : option Go.error * St :=
  if String.eqb value EmptyString && required s
  then (Some Go.ErrValueRequired, st)
  else Schema.Validate (Schema s) value st.

Definition String : t :=
  {| Schema := Schema.New St string; required := false |}.
End WithState.
Arguments t : clear implicits.
End StringSchema.

(* ===================================================================== *)
(** * number.go                                                           *)
(* ===================================================================== *)

(** The type constraint of [NumberSchema]: the comparisons of the
    representation, its zero value, and the operand it is printed from. *)
Class Numeric (T : Type) : Type := {
  num_zero : T;
  num_eqb : T -> T -> bool;
  num_ltb : T -> T -> bool;
  num_operand : T -> Go.operand Go.error
}.

(** Every integer type: a value is its mathematical integer. *)
#[global] Instance Numeric_int : Numeric Z := {
  num_zero := 0%Z;
  num_eqb := Z.eqb;
  num_ltb := Z.ltb;
  num_operand := Go.ArgInt
}.

(** [float64]: IEEE 754 binary64 comparisons. *)
#[global] Instance Numeric_float64 : Numeric float := {
  num_zero := 0%float;
  num_eqb := PrimFloat.eqb;
  num_ltb := PrimFloat.ltb;
  num_operand := Go.ArgFloat
}.

Module NumberSchema.
Section WithState.
Context {St : Type} {T : Type} `{Numeric T}.

Record t : Type := mk {
  Schema : Schema.t St T;
  required : bool
}.

Definition Number : t :=
  {| Schema := Schema.New St T; required := false |}.

Definition Required (s : t) : t :=
  {| Schema := Schema s; required := true |}.

Definition Validate (s : t) (value : T) (st : St) : option Go.error * St :=
  if num_eqb value num_zero && required s
  then (Some Go.ErrValueRequired, st)
  else Schema.Validate (Schema s) value st.

Definition Min (s : t) (min : T) : t :=
  {| Schema := Schema.append (Schema s) (Schema.check (fun v =>
       if num_ltb v min
       then Some (Go.fmt_Errorf "value must be at least %v" [num_operand min])
       else None));
     required := required s |}.

Definition Max (s : t) (max : T) : t :=
  {| Schema := Schema.append (Schema s) (Schema.check (fun v =>
       if num_ltb max v
       then Some (Go.fmt_Errorf "value must be at most %v" [num_operand max])
       else None));
     required := required s |}.
End WithState.
Arguments t : clear implicits.
End NumberSchema.

(* ===================================================================== *)
(** * bool.go                                                             *)
(* ===================================================================== *)

Module BoolSchema.
Section WithState.
Context {St : Type}.

Record t : Type := mk { Schema : Schema.t St bool }.

Definition Bool : t := {| Schema := Schema.New St bool |}.

Definition Validate (s : t) (value : bool) (st : St) : option Go.error * St :=
  Schema.Validate (Schema s) value st.

Definition MustBeTrue (s : t) : t :=
  {| Schema := Schema.append (Schema s) (Schema.check (fun v =>
       if negb v
       then Some (Go.fmt_Errorf "bool value must be true" [])
       else None)) |}.

Definition MustBeFalse (s : t) : t :=
  {| Schema := Schema.append (Schema s) (Schema.check (fun v : bool =>
       if v
       then Some (Go.fmt_Errorf "bool value must be false" [])
       else None)) |}.
End WithState.
Arguments t : clear implicits.
End BoolSchema.

(* ===================================================================== *)
(** * null.go                                                             *)
(* ===================================================================== *)

Module NullSchema.
Section WithState.
Context {St : Type}.

Record t : Type := mk { Schema : Schema.t St Go.any }.

Definition Null : t := {| Schema := Schema.New St Go.any |}.

Definition Validate (s : t) (value : Go.any) (st : St) : option Go.error * St :=
  match value with
  | Go.anyNil => Schema.Validate (Schema s) value st
  | _ => (Some (Go.fmt_Errorf "expected null value, got %T" [Go.ArgAny value]), st)
  end.
End WithState.
Arguments t : clear implicits.
End NullSchema.

(* ===================================================================== *)
(** * pointer.go                                                          *)
(* ===================================================================== *)

Module PointerSchema.
Section WithState.
Context {St : Type} {T : Type}.

(** A [*T] is [nil] or points to a value. *)
Record t : Type := mk {
  Schema : Schema.t St (option T);
  required : bool
}.

Definition Pointer : t :=
  {| Schema := Schema.New St (option T); required := false |}.

Definition Required (s : t) : t :=
  {| Schema := Schema s; required := true |}.

Definition NotNil (s : t) : t := Required s.

Definition Custom (s : t) (fn : option T -> St -> option Go.error * St) : t :=
  {| Schema := Schema.Custom (Schema s) fn; required := required s |}.

Definition Validate (s : t) (value : option T) (st : St) : option Go.error * St :=
  match value, required s with
  | None, true => (Some Go.ErrValueRequired, st)
  | _, _ => Schema.Validate (Schema s) value st
  end.

(** [Ptr(schema)]; the [Validator[T]] is given by its [Validate] method. *)
Definition Ptr (schema_Validate : T -> St -> option Go.error * St) : t :=
  Custom Pointer (fun value st =>
    match value with
    | None => (None, st)
    | Some v => schema_Validate v st
    end).
End WithState.
Arguments t : clear implicits.
End PointerSchema.

(* ===================================================================== *)
(** * array.go                                                            *)
(* ===================================================================== *)

(** [json.Marshal] at the item type of an array schema. *)
Class Marshal (T : Type) : Type :=
  json_Marshal : T -> string * option Go.error.

Module ArraySchema.
Section WithState.
Context {St : Type} {T : Type}.

Record t : Type := mk {
  Schema : Schema.t St (Go.slice T);
  itemValidator : option (T -> St -> option Go.error * St)
}.

Definition Array : t :=
  {| Schema := Schema.New St (Go.slice T); itemValidator := None |}.

(** [for i, item := range arr] of [Items], from index [i] on. *)
Fixpoint rangeItems (validator : T -> St -> option Go.error * St)
    (i : Z) (items : list T) (st : St) : option Go.error * St :=
  match items with
  | [] => (None, st)
  | item :: rest =>
      match validator item st with
      | (Some err, st') =>
          (Some (Go.fmt_Errorf "invalid item at index %d: %w"
                   [Go.ArgInt i; Go.ArgError err]), st')
      | (None, st') => rangeItems validator (i + 1) rest st'
      end
  end.

Definition Items (s : t) (validator : T -> St -> option Go.error * St) : t :=
  {| Schema := Schema.append (Schema s)
       (fun arr st => rangeItems validator 0 (Go.elems arr) st);
     itemValidator := Some validator |}.

Definition Min (s : t) (min : Z) : t :=
  {| Schema := Schema.append (Schema s) (Schema.check (fun arr =>
       if (Go.len arr <? min)%Z
       then Some (Go.fmt_Errorf "array length must be at least %d" [Go.ArgInt min])
       else None));
     itemValidator := itemValidator s |}.

Definition Max (s : t) (max : Z) : t :=
  {| Schema := Schema.append (Schema s) (Schema.check (fun arr =>
       if (max <? Go.len arr)%Z
       then Some (Go.fmt_Errorf "array length must be at most %d" [Go.ArgInt max])
       else None));
     itemValidator := itemValidator s |}.

Definition Length (s : t) (length : Z) : t :=
  {| Schema := Schema.append (Schema s) (Schema.check (fun arr =>
       if negb (Go.len arr =? length)%Z
       then Some (Go.fmt_Errorf "array length must be exactly %d" [Go.ArgInt length])
       else None));
     itemValidator := itemValidator s |}.

(** [for i, item := range arr] of [UniqueItems], from index [i] on, with
    the keys [seen] so far. *)
Fixpoint rangeUnique `{Marshal T} (i : Z) (items : list T) (seen : gset string)
    : option Go.error :=
  match items with
  | [] => None
  | item :: rest =>
      match json_Marshal item with
      | (_, Some err) =>
          Some (Go.fmt_Errorf
                  "failed to marshal array item for uniqueness check at index %d: %w"
                  [Go.ArgInt i; Go.ArgError err])
      | (keyStr, None) =>
          if decide (keyStr ∈ seen)
          then Some (Go.fmt_Errorf
                       "array items must be unique (duplicate found at index %d)"
                       [Go.ArgInt i])
          else rangeUnique (i + 1) rest ({[ keyStr ]} ∪ seen)
      end
  end.

Definition UniqueItems `{Marshal T} (s : t) : t :=
  {| Schema := Schema.append (Schema s) (Schema.check (fun arr =>
       rangeUnique 0 (Go.elems arr) ∅));
     itemValidator := itemValidator s |}.

Definition Validate (s : t) (value : Go.slice T) (st : St) : option Go.error * St :=
  match value with
  | None => Schema.range (Schema.validators (Schema s)) (Some []) st
  | Some _ => Schema.Validate (Schema s) value st
  end.
End WithState.
Arguments t : clear implicits.
End ArraySchema.

(* ===================================================================== *)
(** * object.go                                                           *)
(* ===================================================================== *)

Module ObjectSchema.
Section WithState.
Context {St : Type} {T : Type} `{Go.Type_ T}.

(** The interface value handed to a field closure: [Validate] converts
    the carried [T], [ValidateMap] passes an entry of the map. *)
Inductive boxed : Type :=
| ofT (value : T)
| ofAny (value : Go.any).

(** [typedValue, _ := value.(T)]: the zero value when the assertion
    fails. *)
Definition typeAssert (value : boxed) : T :=
  match value with
  | ofT v => v
  | ofAny a => default Go.zero (Go.assert a)
  end.

Record t : Type := mk {
  Schema : Schema.t St T;
  fieldValidators : gmap string (boxed -> St -> option Go.error * St)
}.

Definition Object : t :=
  {| Schema := Schema.New St T; fieldValidators := ∅ |}.

(** The closure that [Field] stores under [fieldName]. *)
Definition fieldClosure (fieldName : string)
    (validateFn : T -> St -> option Go.error * St)
    : boxed -> St -> option Go.error * St :=
  fun value st =>
    let typedValue := typeAssert value in
    match validateFn typedValue st with
    | (Some err, st') =>
        (Some (Go.fmt_Errorf "validation failed for field %q: %w"
                 [Go.ArgString fieldName; Go.ArgError err]), st')
    | (None, st') => (None, st')
    end.

Definition Field (s : t) (fieldName : string)
    (validateFn : T -> St -> option Go.error * St) : t :=
  {| Schema := Schema s;
     fieldValidators := <[ fieldName := fieldClosure fieldName validateFn ]> (fieldValidators s) |}.

(** [ValidateField(getter, schema)]; the [Validator[F]] is given by its
    [Validate] method. *)
Definition ValidateField {F : Type} (getter : T -> F)
    (schema_Validate : F -> St -> option Go.error * St)
    : T -> St -> option Go.error * St :=
  fun value st => schema_Validate (getter value) st.

(** [Map]: one [Field] call per entry. *)
Definition Map (s : t) (fvs : gmap string (T -> St -> option Go.error * St)) : t :=
  map_fold (fun fieldName validateFn s' => Field s' fieldName validateFn) s fvs.

(** A [range] over [s.fieldValidators] visits the entries in an order the
    runtime chooses; [arg] is the value each closure is called with. *)
Fixpoint rangeFields (entries : list (string * (boxed -> St -> option Go.error * St)))
    (arg : string -> boxed) (st : St) : option Go.error * St :=
  match entries with
  | [] => (None, st)
  | (fieldName, validator) :: rest =>
      match validator (arg fieldName) st with
      | (Some err, st') => (Some err, st')
      | (None, st') => rangeFields rest arg st'
      end
  end.

Definition MapOrder : Type :=
  list (string * (boxed -> St -> option Go.error * St)) ->
  list (string * (boxed -> St -> option Go.error * St)).

Definition ValidateMap (order : MapOrder) (s : t)
    (values : option (gmap string Go.any)) (st : St) : option Go.error * St :=
  rangeFields (order (map_to_list (fieldValidators s)))
    (fun fieldName => ofAny (Go.index values fieldName)) st.

Definition Validate (order : MapOrder) (s : t) (value : T) (st : St)
    : option Go.error * St :=
  match Go.toAny value with
  | Go.anyMap mapValue => ValidateMap order s mapValue st
  | _ => rangeFields (order (map_to_list (fieldValidators s)))
           (fun _ => ofT value) st
  end.
End WithState.
Arguments t : clear implicits.
Arguments boxed : clear implicits.
Arguments MapOrder : clear implicits.

(** The iteration order of a Go map is some permutation of its entries. *)
Definition permutes {St T : Type} (order : MapOrder St T) : Prop :=
  forall l, order l ≡ₚ l.
End ObjectSchema.

(* ===================================================================== *)
(** * valtorjsonschema/jsonschema.go                                      *)
(* ===================================================================== *)

(** The adapter as it handles all seven node types (["null"], ["boolean"],
    ["array"], ["string"], ["integer"], ["number"], ["object"]).  The call
    [log.Printf] in the default branch of the integer closure writes to the
    process log and is left out. *)

Module valtorjsonschema.

(** The fields of [jsonschema.Schema] that the adapter reads.  Optional
    counts are pointers to [uint64]; [Minimum] and [Maximum] are
    [json.Number] strings; [Properties] is an ordered map, given by its
    pairs from the oldest on (none when the map is nil), whose values may
    be nil. *)
Inductive JSONSchema : Type := mkJSONSchema {
  Type_ : string;
  MinLength : option Z;
  MaxLength : option Z;
  Pattern : string;
  Minimum : string;
  Maximum : string;
  Items : option JSONSchema;
  MinItems : option Z;
  MaxItems : option Z;
  UniqueItems : bool;
  Properties : list (string * option JSONSchema);
  Required : list string
}.

(** [slices.Contains]. *)
Definition Contains (names : list string) (name : string) : bool :=
  existsb (String.eqb name) names.

Section WithState.
Context {St : Type} `{Go.Lib}.

#[local] Instance Marshal_any : Marshal Go.any := Go.json_Marshal_any.

(** The method value [schema.Validate] of a [*valtor.Schema[T]].  A nil
    pointer is dereferenced only when the method runs; [parseJSONSchema]
    never yields one together with a nil error. *)
Definition Validate {T : Type} (schema : option (Schema.t St T))
    : T -> St -> option Go.error * St :=
  fun value st =>
    match schema with
    | Some s => Schema.Validate s value st
    | None => (Some (Go.errors_New "invalid memory address or nil pointer dereference"), st)
    end.

(** The optional length constraints of the ["array"] case. *)
Definition arrayBounds (schema : JSONSchema) (arrSchema : ArraySchema.t St Go.any)
    : ArraySchema.t St Go.any :=
  let arrSchema :=
    match MinItems schema with
    | Some n => ArraySchema.Min arrSchema (Go.wrap Go.Int n)
    | None => arrSchema
    end in
  let arrSchema :=
    match MaxItems schema with
    | Some n => ArraySchema.Max arrSchema (Go.wrap Go.Int n)
    | None => arrSchema
    end in
  if UniqueItems schema then ArraySchema.UniqueItems arrSchema else arrSchema.

Definition arrayClosure {T : Type} `{Go.Type_ T} (schema : JSONSchema) (required : bool)
    (arrSchema : ArraySchema.t St Go.any) : T -> St -> option Go.error * St :=
  fun value st =>
    match Go.toAny value with
    | Go.anySlice v => ArraySchema.Validate arrSchema v st
    | Go.anyNil =>
        if required && match MinItems schema with
                       | Some n => (0 <? n)%Z
                       | None => false
                       end
        then (Some Go.ErrValueRequired, st)
        else (None, st)
    | v => (Some (Go.fmt_Errorf "expected array value, got %T" [Go.ArgAny v]), st)
    end.

Definition stringClosure {T : Type} `{Go.Type_ T} (strSchema : StringSchema.t St)
    : T -> St -> option Go.error * St :=
  fun value st =>
    match Go.toAny value with
    | Go.anyString typedValue => StringSchema.Validate strSchema typedValue st
    | Go.anyNil => StringSchema.Validate strSchema EmptyString st
    | v => (Some (Go.fmt_Errorf "expected string value, got %T" [Go.ArgAny v]), st)
    end.

Definition integerClosure {T : Type} `{Go.Type_ T} (numSchema : NumberSchema.t St Z)
    : T -> St -> option Go.error * St :=
  fun value st =>
    match Go.toAny value with
    | Go.anyInt Go.Uint64 typedValue =>
        if (Go.maxInt Go.Int64 <? typedValue)%Z
        then (Some (Go.fmt_Errorf "uint64 value %d exceeds maximum int64"
                      [Go.ArgInt typedValue]), st)
        else NumberSchema.Validate numSchema typedValue st
    | Go.anyInt Go.Uint typedValue =>
        if (Go.maxInt Go.Int64 <? typedValue)%Z
        then (Some (Go.fmt_Errorf "uint value %d exceeds maximum int64"
                      [Go.ArgInt typedValue]), st)
        else NumberSchema.Validate numSchema typedValue st
    | Go.anyInt _ typedValue => NumberSchema.Validate numSchema typedValue st
    | Go.anyFloat64 typedValue =>
        if negb (PrimFloat.eqb typedValue (Go.math_Trunc typedValue))
        then (Some (Go.fmt_Errorf
                      "expected integer value, got float with fractional part: %v"
                      [Go.ArgFloat typedValue]), st)
        else if PrimFloat.ltb (Go.float_of_int (Go.maxInt Go.Int64)) typedValue
                || PrimFloat.ltb typedValue (Go.float_of_int (Go.minInt Go.Int64))
        then (Some (Go.fmt_Errorf "float value %v exceeds int64 range"
                      [Go.ArgFloat typedValue]), st)
        else NumberSchema.Validate numSchema (Go.int64_of_float typedValue) st
    | Go.anyNil => NumberSchema.Validate numSchema 0%Z st
    | v => (Some (Go.fmt_Errorf "expected integer value, got %T" [Go.ArgAny v]), st)
    end.

Definition numberClosure {T : Type} `{Go.Type_ T} (numSchema : NumberSchema.t St float)
    : T -> St -> option Go.error * St :=
  fun value st =>
    match Go.toAny value with
    | Go.anyFloat64 typedValue => NumberSchema.Validate numSchema typedValue st
    | Go.anyInt _ typedValue =>
        NumberSchema.Validate numSchema (Go.float_of_int typedValue) st
    | Go.anyNil => NumberSchema.Validate numSchema 0%float st
    | v => (Some (Go.fmt_Errorf "expected numeric value, got %T" [Go.ArgAny v]), st)
    end.

(** The loop [for pair := schema.Properties.Oldest(); pair != nil; pair =
    pair.Next()] of the ["object"] case, over the pairs still to visit;
    [parse] is the recursive call [parseJSONSchema[any]]. *)
Fixpoint rangeProperties
    (parse : JSONSchema -> bool -> option (Schema.t St Go.any) * option Go.error)
    (required : list string) (pairs : list (string * option JSONSchema))
    (objSchema : ObjectSchema.t St Go.any) : ObjectSchema.t St Go.any + Go.error :=
  match pairs with
  | [] => inl objSchema
  | (key, None) :: rest => rangeProperties parse required rest objSchema
  | (key, Some value) :: rest =>
      let fieldRequired := Contains required key in
      match parse value fieldRequired with
      | (_, Some err) =>
          inr (Go.fmt_Errorf "invalid schema for property %q: %w"
                 [Go.ArgString key; Go.ArgError err])
      | (fieldSchema, None) =>
          rangeProperties parse required rest
            (ObjectSchema.Field objSchema key (Validate fieldSchema))
      end
  end.

(** [parseJSONSchema[T](schema, required)]; [order] is the order in which
    the object schemas it builds range over their fields. *)
Fixpoint parseJSONSchema (order : ObjectSchema.MapOrder St Go.any)
    (T : Type) `{Go.Type_ T} (schema : JSONSchema) (required : bool) {struct schema}
    : option (Schema.t St T) * option Go.error :=
  let type := Type_ schema in
  if String.eqb type "null" then
    let nullSchema := NullSchema.Null in
    (Some (Schema.Custom (Schema.New St T) (fun value st =>
       NullSchema.Validate nullSchema (Go.toAny value) st)), None)
  else if String.eqb type "boolean" then
    let boolSchema := BoolSchema.Bool in
    (Some (Schema.Custom (Schema.New St T) (fun value st =>
       match Go.toAny value with
       | Go.anyBool v => BoolSchema.Validate boolSchema v st
       | Go.anyNil => if required then (Some Go.ErrValueRequired, st) else (None, st)
       | v => (Some (Go.fmt_Errorf "expected boolean value, got %T" [Go.ArgAny v]), st)
       end)), None)
  else if String.eqb type "array" then
    match Items schema with
    | None =>
        let arrSchema := arrayBounds schema ArraySchema.Array in
        (Some (Schema.Custom (Schema.New St T) (arrayClosure schema required arrSchema)),
         None)
    | Some items =>
        match parseJSONSchema order Go.any items false with
        | (_, Some err) =>
            (None, Some (Go.fmt_Errorf "invalid item schema: %w" [Go.ArgError err]))
        | (itemSchema, None) =>
            let arrSchema :=
              arrayBounds schema (ArraySchema.Items ArraySchema.Array (Validate itemSchema)) in
            (Some (Schema.Custom (Schema.New St T) (arrayClosure schema required arrSchema)),
             None)
        end
    end
  else if String.eqb type "string" then
    let strSchema := StringSchema.String in
    let strSchema :=
      match MinLength schema with
      | Some n => StringSchema.Min strSchema (Go.wrap Go.Int n)
      | None => strSchema
      end in
    let strSchema :=
      match MaxLength schema with
      | Some n => StringSchema.Max strSchema (Go.wrap Go.Int n)
      | None => strSchema
      end in
    let compiled :=
      if negb (String.eqb (Pattern schema) EmptyString) then
        match Go.regexp_Compile (Pattern schema) with
        | inr err =>
            inr (Go.fmt_Errorf "invalid pattern %q: %w"
                   [Go.ArgString (Pattern schema); Go.ArgError err])
        | inl re => inl (StringSchema.Regexp strSchema re)
        end
      else inl strSchema in
    match compiled with
    | inr err => (None, Some err)
    | inl strSchema =>
        let strSchema := if required then StringSchema.Required strSchema else strSchema in
        (Some (Schema.Custom (Schema.New St T) (stringClosure strSchema)), None)
    end
  else if String.eqb type "integer" then
    let numSchema := NumberSchema.Number in
    let withMin :=
      let min := Minimum schema in
      if negb (String.eqb min EmptyString) then
        match Go.Number_Float64 min with
        | (_, Some _) =>
            inr (Go.fmt_Errorf "invalid `minimum` value %q" [Go.ArgString min])
        | (minFloat, None) =>
            let minInt := Go.int64_of_float (Go.math_Ceil minFloat) in
            inl (NumberSchema.Min numSchema minInt)
        end
      else inl numSchema in
    match withMin with
    | inr err => (None, Some err)
    | inl numSchema =>
        let withMax :=
          let max := Maximum schema in
          if negb (String.eqb max EmptyString) then
            match Go.Number_Float64 max with
            | (_, Some _) =>
                inr (Go.fmt_Errorf "invalid `maximum` value %q" [Go.ArgString max])
            | (maxFloat, None) =>
                let maxInt := Go.int64_of_float (Go.math_Floor maxFloat) in
                inl (NumberSchema.Max numSchema maxInt)
            end
          else inl numSchema in
        match withMax with
        | inr err => (None, Some err)
        | inl numSchema =>
            let numSchema :=
              if required then NumberSchema.Required numSchema else numSchema in
            (Some (Schema.Custom (Schema.New St T) (integerClosure numSchema)), None)
        end
    end
  else if String.eqb type "number" then
    let numSchema := NumberSchema.Number in
    let withMin :=
      let min := Minimum schema in
      if negb (String.eqb min EmptyString) then
        match Go.Number_Float64 min with
        | (_, Some err) =>
            inr (Go.fmt_Errorf "invalid `minimum` %q: %w"
                   [Go.ArgString min; Go.ArgError err])
        | (minFloat, None) => inl (NumberSchema.Min numSchema minFloat)
        end
      else inl numSchema in
    match withMin with
    | inr err => (None, Some err)
    | inl numSchema =>
        let withMax :=
          let max := Maximum schema in
          if negb (String.eqb max EmptyString) then
            match Go.Number_Float64 max with
            | (_, Some err) =>
                inr (Go.fmt_Errorf "invalid `maximum` %q: %w"
                       [Go.ArgString max; Go.ArgError err])
            | (maxFloat, None) => inl (NumberSchema.Max numSchema maxFloat)
            end
          else inl numSchema in
        match withMax with
        | inr err => (None, Some err)
        | inl numSchema =>
            let numSchema :=
              if required then NumberSchema.Required numSchema else numSchema in
            (Some (Schema.Custom (Schema.New St T) (numberClosure numSchema)), None)
        end
    end
  else if String.eqb type "object" then
    let properties :=
      rangeProperties (parseJSONSchema order Go.any) (Required schema)
        (Properties schema) ObjectSchema.Object in
    match properties with
    | inr err => (None, Some err)
    | inl objSchema =>
        (Some (Schema.Custom (Schema.New St T) (fun value st =>
           ObjectSchema.Validate order objSchema (Go.toAny value) st)), None)
    end
  else (None, Some Go.ErrInvalidType).

Definition ParseJSONSchema (order : ObjectSchema.MapOrder St Go.any)
    (T : Type) `{Go.Type_ T} (schema : JSONSchema)
    : option (Schema.t St T) * option Go.error :=
  parseJSONSchema order T schema false.
End WithState.
End valtorjsonschema.

(* ===================================================================== *)
(** * Vocabulary of the specification                                     *)
(* ===================================================================== *)

(** [passes value fs st st']: run in order from state [st], every validator
    of [fs] accepts [value], and the state is then [st']. *)
Inductive passes {St T : Type} (value : T)
    : list (T -> St -> option Go.error * St) -> St -> St -> Prop :=
| passes_nil (st : St) : passes value [] st st
| passes_cons f fs (st st1 st2 : St) :
    f value st = (None, st1) ->
    passes value fs st1 st2 ->
    passes value (f :: fs) st st2.

(** A base schema after the calls [Custom(fns[0])], [Custom(fns[1])], ... *)
Definition attachAll {St T : Type} (fns : list (T -> St -> option Go.error * St))
    : Schema.t St T :=
  fold_left Schema.Custom fns (Schema.New St T).

(** ** Concrete closures used to exercise the theorems *)

(** A closure that counts its calls in the state and accepts. *)
Definition countAndPass {T : Type} : T -> nat -> option Go.error * nat :=
  fun _ n => (None, S n).

(** A closure that counts its calls in the state and rejects with [err]. *)
Definition countAndFail {T : Type} (err : Go.error) : T -> nat -> option Go.error * nat :=
  fun _ n => (Some err, S n).

(** ** Array schemas built from the constraint builders *)

(** One call of a builder of [ArraySchema]. *)
Inductive ArrayCall (St T : Type) : Type :=
| CallMin (min : Z)
| CallMax (max : Z)
| CallLength (length : Z)
| CallUniqueItems
| CallItems (validator : T -> St -> option Go.error * St).

Arguments CallMin {St T} min.
Arguments CallMax {St T} max.
Arguments CallLength {St T} length.
Arguments CallUniqueItems {St T}.
Arguments CallItems {St T} validator.

Definition applyCall {St T : Type} `{Marshal T}
    (s : ArraySchema.t St T) (c : ArrayCall St T) : ArraySchema.t St T :=
  match c with
  | CallMin min => ArraySchema.Min s min
  | CallMax max => ArraySchema.Max s max
  | CallLength length => ArraySchema.Length s length
  | CallUniqueItems => ArraySchema.UniqueItems s
  | CallItems validator => ArraySchema.Items s validator
  end.

(** [Array()] followed by the calls, in order. *)
Definition arrayOf {St T : Type} `{Marshal T} (calls : list (ArrayCall St T))
    : ArraySchema.t St T :=
  fold_left applyCall calls ArraySchema.Array.

(** The call puts no positive floor under the length: it is not a [Min] or
    a [Length] with a bound above zero. *)
Definition noPositiveFloor {St T : Type} (c : ArrayCall St T) : bool :=
  match c with
  | CallMin min => (min <=? 0)%Z
  | CallLength length => (length <=? 0)%Z
  | _ => true
  end.

(** The call puts no negative ceiling over the length: it is not a [Max] or
    a [Length] with a bound below zero. *)
Definition noNegativeCeiling {St T : Type} (c : ArrayCall St T) : bool :=
  match c with
  | CallMax max => (0 <=? max)%Z
  | CallLength length => (0 <=? length)%Z
  | _ => true
  end.

(** [json.Marshal] of an integer is its decimal numeral. *)
#[global] Instance Marshal_int : Marshal Z := fun z => (Go.decimal z, None).

(** ** Object schemas built from [Field] calls *)

(** [Object[T]()] followed by the calls [Field(name, validateFn)], in
    order. *)
Definition objectOf {St T : Type} `{Go.Type_ T}
    (regs : list (string * (T -> St -> option Go.error * St))) : ObjectSchema.t St T :=
  fold_left (fun s reg => ObjectSchema.Field s (fst reg) (snd reg)) regs ObjectSchema.Object.

(** The validator that these calls leave registered under each name (a
    later call replaces an earlier one of the same name). *)
Definition fieldsOf {St T : Type}
    (regs : list (string * (T -> St -> option Go.error * St)))
    : gmap string (T -> St -> option Go.error * St) :=
  fold_left (fun m reg => <[ fst reg := snd reg ]> m) regs ∅.

(** The interface value that [Validate] hands to the closure of the field
    [fieldName]: the entry of the map on the per-key path, the carried
    value otherwise. *)
Definition fieldArg {T : Type} `{Go.Type_ T} (value : T) (fieldName : string)
    : ObjectSchema.boxed T :=
  match Go.toAny value with
  | Go.anyMap mapValue => ObjectSchema.ofAny (Go.index mapValue fieldName)
  | _ => ObjectSchema.ofT value
  end.

(** The typed value that the validator of the field then receives. *)
Definition fieldInput {T : Type} `{Go.Type_ T} (value : T) (fieldName : string) : T :=
  ObjectSchema.typeAssert (fieldArg value fieldName).

(** The error a field closure makes of the error of its validator. *)
Definition fieldError (fieldName : string) (err : Go.error) : Go.error :=
  Go.fmt_Errorf "validation failed for field %q: %w"
    [Go.ArgString fieldName; Go.ArgError err].

(** The registered validators of the fields called one after the other,
    each with the input of its own field, up to the first that rejects; its
    error comes back wrapped with the name of the field. *)
Fixpoint callEach {St T : Type} (fields : list (string * (T -> St -> option Go.error * St)))
    (input : string -> T) (st : St) : option Go.error * St :=
  match fields with
  | [] => (None, st)
  | (fieldName, validateFn) :: rest =>
      match validateFn (input fieldName) st with
      | (Some err, st') => (Some (fieldError fieldName err), st')
      | (None, st') => callEach rest input st'
      end
  end.

(** The struct types [Baz] and [Foo] of the package's example for [Map],
    and how they look through an interface.  ([Go.anyOther] keeps no
    payload, so an assertion to a struct type has no value to give back; an
    object schema over a struct never asserts on an entry of a map, because
    its carried value is never a map.) *)
Record Baz : Type := mkBaz { Quo : string }.

Record Foo : Type := mkFoo { Bar : string; Baz_ : Baz }.

#[global] Instance Baz_Type : Go.Type_ Baz := {
  zero := mkBaz EmptyString;
  toAny := fun _ => Go.anyOther "main.Baz";
  assert := fun _ => None;
  assert_nil := eq_refl
}.

#[global] Instance Foo_Type : Go.Type_ Foo := {
  zero := mkFoo EmptyString (mkBaz EmptyString);
  toAny := fun _ => Go.anyOther "main.Foo";
  assert := fun _ => None;
  assert_nil := eq_refl
}.

(** [String().Max(5)]. *)
Definition atMost5 : string -> unit -> option Go.error * unit :=
  StringSchema.Validate (StringSchema.Max StringSchema.String 5).

(** The fields of the inner schema, [Object[Baz]()] with ["quo"], and of the
    outer schema, [Object[Foo]()] with ["bar"] and ["baz"], the latter
    checked by the inner schema. *)
Definition bazFields : list (string * (Baz -> unit -> option Go.error * unit)) :=
  [ ("quo", ObjectSchema.ValidateField Quo atMost5) ].

Definition fooFields : list (string * (Foo -> unit -> option Go.error * unit)) :=
  [ ("bar", ObjectSchema.ValidateField Bar atMost5);
    ("baz", ObjectSchema.ValidateField Baz_
              (ObjectSchema.Validate (fun l => l) (objectOf bazFields))) ].

(** The same two schemas, built with [Map] as the example does. *)
Definition bazSchema : ObjectSchema.t unit Baz :=
  ObjectSchema.Map ObjectSchema.Object
    {[ "quo" := ObjectSchema.ValidateField Quo atMost5 ]}.

Definition fooSchema : ObjectSchema.t unit Foo :=
  ObjectSchema.Map ObjectSchema.Object
    {[ "bar" := ObjectSchema.ValidateField Bar atMost5;
       "baz" := ObjectSchema.ValidateField Baz_
                  (ObjectSchema.Validate (fun l => l) bazSchema) ]}.

(** A string between double quotes. *)
Definition quoted (s : string) : string :=
  String Go.dquote (s +:+ String Go.dquote EmptyString).

(** [Object[any]()] with the field ["name"] checked by a closure that
    rejects everything but the nil interface. *)
Definition nameMustBeNil : list (string * (Go.any -> unit -> option Go.error * unit)) :=
  [ ("name", NullSchema.Validate NullSchema.Null) ].

(** ** The adapter: the types it knows and the nodes it visits *)

Definition knownTypes : list string :=
  ["null"; "boolean"; "array"; "string"; "integer"; "number"; "object"].

(** [calls order s child flag]: translating the node [s],
    [parseJSONSchema] calls itself on [child] with the required flag
    [flag]: on the item schema of an array node, and on a property of an
    object node once every property before it has been translated. *)
Inductive calls {St : Type} `{Go.Lib} (order : ObjectSchema.MapOrder St Go.any)
    : valtorjsonschema.JSONSchema -> valtorjsonschema.JSONSchema -> bool -> Prop :=
| calls_items s items :
    valtorjsonschema.Type_ s = "array" ->
    valtorjsonschema.Items s = Some items ->
    calls order s items false
| calls_property s pre key child post :
    valtorjsonschema.Type_ s = "object" ->
    valtorjsonschema.Properties s = pre ++ (key, Some child) :: post ->
    (forall k c, In (k, Some c) pre ->
       snd (valtorjsonschema.parseJSONSchema order Go.any c
              (valtorjsonschema.Contains (valtorjsonschema.Required s) k)) = None) ->
    calls order s child
      (valtorjsonschema.Contains (valtorjsonschema.Required s) key).

(** [reaches order root required node flag]: the translation of [root]
    gets to translate [node], with the required flag [flag]. *)
Inductive reaches {St : Type} `{Go.Lib} (order : ObjectSchema.MapOrder St Go.any)
    : valtorjsonschema.JSONSchema -> bool -> valtorjsonschema.JSONSchema -> bool -> Prop :=
| reaches_here root required : reaches order root required root required
| reaches_step root required child flag node flag' :
    calls order root child flag ->
    reaches order child flag node flag' ->
    reaches order root required node flag'.

(** A node with nothing declared but its type. *)
Definition node (type : string) : valtorjsonschema.JSONSchema :=
  {| valtorjsonschema.Type_ := type;
     valtorjsonschema.MinLength := None;
     valtorjsonschema.MaxLength := None;
     valtorjsonschema.Pattern := EmptyString;
     valtorjsonschema.Minimum := EmptyString;
     valtorjsonschema.Maximum := EmptyString;
     valtorjsonschema.Items := None;
     valtorjsonschema.MinItems := None;
     valtorjsonschema.MaxItems := None;
     valtorjsonschema.UniqueItems := false;
     valtorjsonschema.Properties := [];
     valtorjsonschema.Required := [] |}.

(** An object node with the given properties, none of them required. *)
Definition objectNode (properties : list (string * option valtorjsonschema.JSONSchema))
    : valtorjsonschema.JSONSchema :=
  {| valtorjsonschema.Type_ := "object";
     valtorjsonschema.MinLength := None;
     valtorjsonschema.MaxLength := None;
     valtorjsonschema.Pattern := EmptyString;
     valtorjsonschema.Minimum := EmptyString;
     valtorjsonschema.Maximum := EmptyString;
     valtorjsonschema.Items := None;
     valtorjsonschema.MinItems := None;
     valtorjsonschema.MaxItems := None;
     valtorjsonschema.UniqueItems := false;
     valtorjsonschema.Properties := properties;
     valtorjsonschema.Required := [] |}.

(** A stand-in for the standard library, enough to run examples: the only
    pattern that fails to compile is ["("], matching is equality with the
    pattern, and the only numerals read are ["0"] and ["1"]. *)
Definition exampleLib : Go.Lib :=
  {| Go.Regexp := string;
     Go.regexp_Compile := fun pattern =>
       if String.eqb pattern "("
       then inr (Go.errors_New "error parsing regexp: missing closing ): `(`")
       else inl pattern;
     Go.MatchString := fun re s => String.eqb re s;
     Go.Regexp_String := fun re => re;
     Go.Number_Float64 := fun s =>
       if String.eqb s "0" then (0%float, None)
       else if String.eqb s "1" then (1%float, None)
       else (0%float, Some (Go.errors_New "strconv.ParseFloat: invalid syntax"));
     Go.math_Ceil := fun f => f;
     Go.math_Floor := fun f => f;
     Go.math_Trunc := fun f => f;
     Go.int64_of_float := fun f => if PrimFloat.eqb f 1 then 1%Z else 0%Z;
     Go.float_of_int := fun z => if (z =? 1)%Z then 1%float else 0%float;
     Go.json_Marshal_any := fun a => (Go.typeName a, None) |}.

(** ** String and number schemas built from the constraint builders *)

Inductive StringCall `{Go.Lib} : Type :=
| SMin (min : Z)
| SMax (max : Z)
| SLength (length : Z)
| SRegexp (re : Go.Regexp)
| SRequired.

Definition applyStringCall {St : Type} `{Go.Lib}
    (s : StringSchema.t St) (c : StringCall) : StringSchema.t St :=
  match c with
  | SMin min => StringSchema.Min s min
  | SMax max => StringSchema.Max s max
  | SLength length => StringSchema.Length s length
  | SRegexp re => StringSchema.Regexp s re
  | SRequired => StringSchema.Required s
  end.

(** [String()] followed by the calls, in order. *)
Definition stringOf {St : Type} `{Go.Lib} (cs : list StringCall) : StringSchema.t St :=
  fold_left applyStringCall cs StringSchema.String.

Inductive NumberCall (T : Type) : Type :=
| NMin (min : T)
| NMax (max : T)
| NRequired.

Arguments NMin {T} min.
Arguments NMax {T} max.
Arguments NRequired {T}.

Definition applyNumberCall {St T : Type} `{Numeric T}
    (s : NumberSchema.t St T) (c : NumberCall T) : NumberSchema.t St T :=
  match c with
  | NMin min => NumberSchema.Min s min
  | NMax max => NumberSchema.Max s max
  | NRequired => NumberSchema.Required s
  end.

(** [Number[T]()] followed by the calls, in order. *)
Definition numberOf {St T : Type} `{Numeric T} (cs : list (NumberCall T))
    : NumberSchema.t St T :=
  fold_left applyNumberCall cs NumberSchema.Number.

(** The validator never returns the sentinel [ErrValueRequired]. *)
Definition neverRequired {St T : Type} (v : T -> St -> option Go.error * St) : Prop :=
  forall value st err st', v value st = (Some err, st') -> err <> Go.ErrValueRequired.

(** ** What each constraint call asks of a value *)

Definition admitsString `{Go.Lib} (c : StringCall) (v : string) : Prop :=
  match c with
  | SMin min => (min <= Z.of_nat (String.length v))%Z
  | SMax max => (Z.of_nat (String.length v) <= max)%Z
  | SLength length => Z.of_nat (String.length v) = length
  | SRegexp re => Go.MatchString re v = true
  | SRequired => v <> EmptyString
  end.

(** The bounds are read with the comparison of the representation, so that
    the reading is also right for NaN. *)
Definition admitsNumber {T : Type} `{Numeric T} (c : NumberCall T) (v : T) : Prop :=
  match c with
  | NMin min => num_ltb v min = false
  | NMax max => num_ltb max v = false
  | NRequired => num_eqb v num_zero = false
  end.

Inductive BoolCall : Type :=
| BMustBeTrue
| BMustBeFalse.

Definition applyBoolCall {St : Type} (s : BoolSchema.t St) (c : BoolCall) : BoolSchema.t St :=
  match c with
  | BMustBeTrue => BoolSchema.MustBeTrue s
  | BMustBeFalse => BoolSchema.MustBeFalse s
  end.

(** [Bool()] followed by the calls, in order. *)
Definition boolOf {St : Type} (cs : list BoolCall) : BoolSchema.t St :=
  fold_left applyBoolCall cs BoolSchema.Bool.

Definition admitsBool (c : BoolCall) (v : bool) : Prop :=
  match c with
  | BMustBeTrue => v = true
  | BMustBeFalse => v = false
  end.

(** The validators touch no state: run from any state, they leave it as it
    was. *)
Definition stateless {St T : Type} (fs : list (T -> St -> option Go.error * St)) : Prop :=
  forall value st, exists r, Schema.range fs value st = (r, st).

(** ** Items of an array *)

(** [passesItems validator items st st']: called on the items in order from
    state [st], the validator accepts each, and the state is then [st']. *)
Inductive passesItems {St T : Type} (validator : T -> St -> option Go.error * St)
    : list T -> St -> St -> Prop :=
| passesItems_nil (st : St) : passesItems validator [] st st
| passesItems_cons item items (st st1 st2 : St) :
    validator item st = (None, st1) ->
    passesItems validator items st1 st2 ->
    passesItems validator (item :: items) st st2.

(** The keys under which [UniqueItems] remembers the items. *)
Definition keysOf {T : Type} `{Marshal T} (items : list T) : list string :=
  map (fun item => fst (json_Marshal item)) items.

(** [json.Marshal] succeeds on each of the items. *)
Definition marshals {T : Type} `{Marshal T} (items : list T) : Prop :=
  forall item, In item items -> snd (json_Marshal item) = None.

(** A length call and the lengths it admits. *)
Definition isLengthCall {St T : Type} (c : ArrayCall St T) : bool :=
  match c with
  | CallMin _ | CallMax _ | CallLength _ => true
  | _ => false
  end.

Definition admitsLength {St T : Type} (c : ArrayCall St T) (n : Z) : Prop :=
  match c with
  | CallMin min => (min <= n)%Z
  | CallMax max => (n <= max)%Z
  | CallLength length => n = length
  | _ => True
  end.

(** ** The adapter: nodes that can be translated *)

(** A bound that is not declared, or that [json.Number.Float64] reads. *)
Definition readable `{Go.Lib} (bound : string) : Prop :=
  bound = EmptyString \/ snd (Go.Number_Float64 bound) = None.

(** [translatable schema]: the type of the node is known; the pattern of a
    string node, if declared, compiles; the bounds of an integer or number
    node, if declared, can be read; the item schema of an array node, if
    declared, is translatable; every property of an object node that has a
    schema has a translatable one. *)
Inductive translatable `{Go.Lib} : valtorjsonschema.JSONSchema -> Prop :=
| translatable_null s :
    valtorjsonschema.Type_ s = "null" -> translatable s
| translatable_boolean s :
    valtorjsonschema.Type_ s = "boolean" -> translatable s
| translatable_array s :
    valtorjsonschema.Type_ s = "array" ->
    (forall items, valtorjsonschema.Items s = Some items -> translatable items) ->
    translatable s
| translatable_string s :
    valtorjsonschema.Type_ s = "string" ->
    (valtorjsonschema.Pattern s = EmptyString \/
     exists re, Go.regexp_Compile (valtorjsonschema.Pattern s) = inl re) ->
    translatable s
| translatable_integer s :
    valtorjsonschema.Type_ s = "integer" ->
    readable (valtorjsonschema.Minimum s) ->
    readable (valtorjsonschema.Maximum s) ->
    translatable s
| translatable_number s :
    valtorjsonschema.Type_ s = "number" ->
    readable (valtorjsonschema.Minimum s) ->
    readable (valtorjsonschema.Maximum s) ->
    translatable s
| translatable_object s :
    valtorjsonschema.Type_ s = "object" ->
    (forall key child, In (key, Some child) (valtorjsonschema.Properties s) ->
       translatable child) ->
    translatable s.

(** ** The adapter: what a translated node asks of a value *)

(** What a string node asks of a string: not empty when the node is
    required, a length within the declared bounds, and a match of the
    declared pattern. *)
Definition admitsStringNode `{Go.Lib} (schema : valtorjsonschema.JSONSchema)
    (required : bool) (v : string) : Prop :=
  (required = true -> v <> EmptyString) /\
  (forall n, valtorjsonschema.MinLength schema = Some n ->
     (n <= Z.of_nat (String.length v))%Z) /\
  (forall n, valtorjsonschema.MaxLength schema = Some n ->
     (Z.of_nat (String.length v) <= n)%Z) /\
  (forall re, valtorjsonschema.Pattern schema <> EmptyString ->
     Go.regexp_Compile (valtorjsonschema.Pattern schema) = inl re ->
     Go.MatchString re v = true).

(** A string node with the given length bounds and pattern. *)
Definition stringNode (minLength maxLength : option Z) (pattern : string)
    : valtorjsonschema.JSONSchema :=
  {| valtorjsonschema.Type_ := "string";
     valtorjsonschema.MinLength := minLength;
     valtorjsonschema.MaxLength := maxLength;
     valtorjsonschema.Pattern := pattern;
     valtorjsonschema.Minimum := EmptyString;
     valtorjsonschema.Maximum := EmptyString;
     valtorjsonschema.Items := None;
     valtorjsonschema.MinItems := None;
     valtorjsonschema.MaxItems := None;
     valtorjsonschema.UniqueItems := false;
     valtorjsonschema.Properties := [];
     valtorjsonschema.Required := [] |}.

(** An integer or number node with the given bounds. *)
Definition numericNode (type minimum maximum : string) : valtorjsonschema.JSONSchema :=
  {| valtorjsonschema.Type_ := type;
     valtorjsonschema.MinLength := None;
     valtorjsonschema.MaxLength := None;
     valtorjsonschema.Pattern := EmptyString;
     valtorjsonschema.Minimum := minimum;
     valtorjsonschema.Maximum := maximum;
     valtorjsonschema.Items := None;
     valtorjsonschema.MinItems := None;
     valtorjsonschema.MaxItems := None;
     valtorjsonschema.UniqueItems := false;
     valtorjsonschema.Properties := [];
     valtorjsonschema.Required := [] |}.

(** The bounds an integer node compares with: [int64(math.Ceil(min))] and
    [int64(math.Floor(max))] of the declared minimum and maximum as
    [Float64] reads them.  They are the rounded bounds only as far as the
    conversion to [int64] keeps them: what it gives for a rounded bound
    outside the range of [int64] is the bound the node compares with. *)
Definition integerMinimum `{Go.Lib} (schema : valtorjsonschema.JSONSchema) : Z :=
  Go.int64_of_float (Go.math_Ceil (fst (Go.Number_Float64 (valtorjsonschema.Minimum schema)))).

Definition integerMaximum `{Go.Lib} (schema : valtorjsonschema.JSONSchema) : Z :=
  Go.int64_of_float (Go.math_Floor (fst (Go.Number_Float64 (valtorjsonschema.Maximum schema)))).

(** What an integer node asks of an [int64]: not zero when the node is
    required, and within the bounds it compares with. *)
Definition admitsIntegerNode `{Go.Lib} (schema : valtorjsonschema.JSONSchema)
    (required : bool) (z : Z) : Prop :=
  (required = true -> z <> 0%Z) /\
  (valtorjsonschema.Minimum schema <> EmptyString -> (integerMinimum schema <= z)%Z) /\
  (valtorjsonschema.Maximum schema <> EmptyString -> (z <= integerMaximum schema)%Z).

(** What a number node asks of a [float64], with the comparisons of
    [float64]: not equal to zero when the node is required, not below the
    declared minimum and not above the declared maximum. *)
Definition admitsNumberNode `{Go.Lib} (schema : valtorjsonschema.JSONSchema)
    (required : bool) (f : float) : Prop :=
  (required = true -> PrimFloat.eqb f 0 = false) /\
  (valtorjsonschema.Minimum schema <> EmptyString ->
   PrimFloat.ltb f (fst (Go.Number_Float64 (valtorjsonschema.Minimum schema))) = false) /\
  (valtorjsonschema.Maximum schema <> EmptyString ->
   PrimFloat.ltb (fst (Go.Number_Float64 (valtorjsonschema.Maximum schema))) f = false).

(** An array node with the given item schema and length bounds. *)
Definition arrayNode (items : option valtorjsonschema.JSONSchema)
    (minItems maxItems : option Z) : valtorjsonschema.JSONSchema :=
  {| valtorjsonschema.Type_ := "array";
     valtorjsonschema.MinLength := None;
     valtorjsonschema.MaxLength := None;
     valtorjsonschema.Pattern := EmptyString;
     valtorjsonschema.Minimum := EmptyString;
     valtorjsonschema.Maximum := EmptyString;
     valtorjsonschema.Items := items;
     valtorjsonschema.MinItems := minItems;
     valtorjsonschema.MaxItems := maxItems;
     valtorjsonschema.UniqueItems := false;
     valtorjsonschema.Properties := [];
     valtorjsonschema.Required := [] |}.

(** The [Field] calls that the translation of an object node makes: one for
    each property that has a schema, in the order of the properties, with
    the [Validate] method of the translation of that schema. *)
Fixpoint propertyFields {St : Type} `{Go.Lib} (order : ObjectSchema.MapOrder St Go.any)
    (required : list string) (pairs : list (string * option valtorjsonschema.JSONSchema))
    : list (string * (Go.any -> St -> option Go.error * St)) :=
  match pairs with
  | [] => []
  | (key, None) :: rest => propertyFields order required rest
  | (key, Some child) :: rest =>
      (key, valtorjsonschema.Validate
              (fst (valtorjsonschema.parseJSONSchema order Go.any child
                      (valtorjsonschema.Contains required key))))
      :: propertyFields order required rest
  end.

(** An object node with the given properties, of which the named ones are
    required. *)
Definition objectNodeWith (properties : list (string * option valtorjsonschema.JSONSchema))
    (required : list string) : valtorjsonschema.JSONSchema :=
  {| valtorjsonschema.Type_ := "object";
     valtorjsonschema.MinLength := None;
     valtorjsonschema.MaxLength := None;
     valtorjsonschema.Pattern := EmptyString;
     valtorjsonschema.Minimum := EmptyString;
     valtorjsonschema.Maximum := EmptyString;
     valtorjsonschema.Items := None;
     valtorjsonschema.MinItems := None;
     valtorjsonschema.MaxItems := None;
     valtorjsonschema.UniqueItems := false;
     valtorjsonschema.Properties := properties;
     valtorjsonschema.Required := required |}.

(* ===================================================================== *)
(** * Theorems                                                            *)
(* ===================================================================== *)

(** ** Strings *)

Lemma append_empty_r (s : string) : s +:+ EmptyString = s.
Proof.
  induction s as [|c s IH]; [reflexivity|].
  change (String c (s +:+ EmptyString) = String c s). f_equal. exact IH.
Qed.

(** ** The base schema *)

Section SchemaFacts.
Context {St T : Type}.
Implicit Types (fs : list (T -> St -> option Go.error * St)) (value : T) (st : St).

Lemma range_app fs1 fs2 value st :
  Schema.range (fs1 ++ fs2) value st =
  match Schema.range fs1 value st with
  | (Some err, st') => (Some err, st')
  | (None, st') => Schema.range fs2 value st'
  end.
Proof.
  revert st. induction fs1 as [|f fs1 IH]; intros st; simpl; [reflexivity|].
  destruct (f value st) as [[err|] st1]; [reflexivity | apply IH].
Qed.

Lemma passes_range fs value st st' :
  passes value fs st st' <-> Schema.range fs value st = (None, st').
Proof.
  split.
  - induction 1 as [|f fs st st1 st2 Hf _ IH]; simpl; [reflexivity|].
    rewrite Hf. exact IH.
  - revert st. induction fs as [|f fs IH]; simpl; intros st Hr.
    + injection Hr as <-. constructor.
    + destruct (f value st) as [[err|] st1] eqn:Hf; [discriminate|].
      econstructor; eauto.
Qed.

Lemma range_first_failure pre f post value st st1 st2 err :
  passes value pre st st1 ->
  f value st1 = (Some err, st2) ->
  Schema.range (pre ++ f :: post) value st = (Some err, st2).
Proof.
  intros Hpre Hf. rewrite range_app.
  apply passes_range in Hpre. rewrite Hpre. simpl. rewrite Hf. reflexivity.
Qed.

(** Every run either accepts throughout or has a first rejecting
    validator. *)
Lemma range_outcome fs value st :
  (exists st', passes value fs st st') \/
  (exists pre f post st1 st2 err,
      fs = pre ++ f :: post /\ passes value pre st st1 /\
      f value st1 = (Some err, st2)).
Proof.
  revert st. induction fs as [|f fs IH]; intros st.
  - left. eexists. constructor.
  - destruct (f value st) as [[err|] st1] eqn:Hf.
    + right. exists [], f, fs, st, st1, err. repeat split; [constructor | exact Hf].
    + destruct (IH st1) as [[st' Hp] | (pre & g & post & sa & sb & err & -> & Hp & Hg)].
      * left. exists st'. econstructor; eauto.
      * right. exists (f :: pre), g, post, sa, sb, err.
        repeat split; [econstructor; eauto | exact Hg].
Qed.

Lemma validators_fold_Custom fs (s : Schema.t St T) :
  Schema.validators (fold_left Schema.Custom fs s) = Schema.validators s ++ fs.
Proof.
  revert s. induction fs as [|f fs IH]; intros s; simpl.
  - symmetry. apply app_nil_r.
  - rewrite IH. simpl. rewrite <- app_assoc. reflexivity.
Qed.

Lemma validators_attachAll fs : Schema.validators (attachAll fs) = fs.
Proof. unfold attachAll. rewrite validators_fold_Custom. reflexivity. Qed.
End SchemaFacts.

(** C1. [Validate] on a base schema runs the attached validators in the
    order in which they were attached ([Custom] puts its validator last)
    and returns the error of the first one that rejects the value; the
    validators after it are not run (the state is the one the rejecting
    validator left).  When every validator accepts, [Validate] returns no
    error.  One of the two always happens. *)
Theorem Validate_first_failure {St T : Type}
    (s : Schema.t St T) (value : T) (st : St) :
  (forall fn, Schema.validators (Schema.Custom s fn) = Schema.validators s ++ [fn]) /\
  (forall fns : list (T -> St -> option Go.error * St),
      Schema.validators (attachAll fns) = fns) /\
  (forall pre f post st1 st2 err,
      Schema.validators s = pre ++ f :: post ->
      passes value pre st st1 ->
      f value st1 = (Some err, st2) ->
      Schema.Validate s value st = (Some err, st2)) /\
  (forall st',
      passes value (Schema.validators s) st st' ->
      Schema.Validate s value st = (None, st')) /\
  ((exists st', passes value (Schema.validators s) st st') \/
   (exists pre f post st1 st2 err,
       Schema.validators s = pre ++ f :: post /\ passes value pre st st1 /\
       f value st1 = (Some err, st2))).
Proof.
  unfold Schema.Validate.
  split; [reflexivity|]. split; [apply validators_attachAll|]. split; [|split].
  - intros pre f post st1 st2 err -> Hpre Hf.
    eapply range_first_failure; eauto.
  - intros st' Hp. apply passes_range. exact Hp.
  - apply range_outcome.
Qed.

(** Three validators, the second rejects: the third never runs, so the
    call counter stops at two. *)
Lemma Validate_first_failure_witness :
  Schema.Validate
    (attachAll [countAndPass; countAndFail (Go.errors_New "second");
                countAndFail (Go.errors_New "third")])
    7%Z 0 = (Some (Go.errors_New "second"), 2).
Proof.
  refine (proj1 (proj2 (proj2 (Validate_first_failure _ 7%Z 0)))
            [countAndPass] (countAndFail (Go.errors_New "second"))
            [countAndFail (Go.errors_New "third")] 1 2 (Go.errors_New "second") _ _ _).
  - reflexivity.
  - econstructor; [reflexivity | constructor].
  - reflexivity.
Defined.

Section SchemaOrigin.
Context {St T : Type}.
Implicit Types (fs : list (T -> St -> option Go.error * St)) (value : T) (st : St).

(** An error returned by the loop was returned by one of the validators. *)
Lemma range_error_origin fs value st err st' :
  Schema.range fs value st = (Some err, st') ->
  exists validator st1, In validator fs /\ validator value st1 = (Some err, st').
Proof.
  revert st. induction fs as [|f fs IH]; simpl; intros st Hr; [discriminate|].
  destruct (f value st) as [[e|] st1] eqn:Hf.
  - injection Hr as -> ->. exists f, st. split; [left; reflexivity | exact Hf].
  - destruct (IH _ Hr) as (g & sa & Hin & Hg). exists g, sa. split; [right; exact Hin | exact Hg].
Qed.
End SchemaOrigin.

(** Every constraint builder attaches its validator the way [Custom] does:
    last. *)
Lemma builders_attach_last {St : Type} `{Go.Lib} :
  (forall (s : StringSchema.t St) (n : Z) (re : Go.Regexp),
      (exists fn, StringSchema.Schema (StringSchema.Min s n) =
                  Schema.Custom (StringSchema.Schema s) fn) /\
      (exists fn, StringSchema.Schema (StringSchema.Max s n) =
                  Schema.Custom (StringSchema.Schema s) fn) /\
      (exists fn, StringSchema.Schema (StringSchema.Length s n) =
                  Schema.Custom (StringSchema.Schema s) fn) /\
      (exists fn, StringSchema.Schema (StringSchema.Regexp s re) =
                  Schema.Custom (StringSchema.Schema s) fn)) /\
  (forall (T : Type) (N : Numeric T) (s : NumberSchema.t St T) (bound : T),
      (exists fn, NumberSchema.Schema (NumberSchema.Min s bound) =
                  Schema.Custom (NumberSchema.Schema s) fn) /\
      (exists fn, NumberSchema.Schema (NumberSchema.Max s bound) =
                  Schema.Custom (NumberSchema.Schema s) fn)) /\
  (forall s : BoolSchema.t St,
      (exists fn, BoolSchema.Schema (BoolSchema.MustBeTrue s) =
                  Schema.Custom (BoolSchema.Schema s) fn) /\
      (exists fn, BoolSchema.Schema (BoolSchema.MustBeFalse s) =
                  Schema.Custom (BoolSchema.Schema s) fn)) /\
  (forall (T : Type) (M : Marshal T) (s : ArraySchema.t St T) (n : Z)
          (validator : T -> St -> option Go.error * St),
      (exists fn, ArraySchema.Schema (ArraySchema.Items s validator) =
                  Schema.Custom (ArraySchema.Schema s) fn) /\
      (exists fn, ArraySchema.Schema (ArraySchema.Min s n) =
                  Schema.Custom (ArraySchema.Schema s) fn) /\
      (exists fn, ArraySchema.Schema (ArraySchema.Max s n) =
                  Schema.Custom (ArraySchema.Schema s) fn) /\
      (exists fn, ArraySchema.Schema (ArraySchema.Length s n) =
                  Schema.Custom (ArraySchema.Schema s) fn) /\
      (exists fn, ArraySchema.Schema (ArraySchema.UniqueItems s) =
                  Schema.Custom (ArraySchema.Schema s) fn)) /\
  (forall (T : Type) (s : PointerSchema.t St T) (fn : option T -> St -> option Go.error * St),
      PointerSchema.Schema (PointerSchema.Custom s fn) =
      Schema.Custom (PointerSchema.Schema s) fn).
Proof.
  repeat split; intros; try (eexists; reflexivity).
Qed.

(** ** String and number schemas: the required check comes first *)

Lemma String_eqb_empty (value : string) :
  String.eqb value EmptyString = false <-> value <> EmptyString.
Proof. destruct value; simpl; split; intros; congruence. Qed.

Section BuilderChains.
Context {St : Type}.

Lemma check_neverRequired {T : Type} (p : T -> option Go.error) :
  (forall value, p value <> Some Go.ErrValueRequired) ->
  neverRequired (St := St) (Schema.check p).
Proof.
  intros Hp value st err st' Hv. unfold Schema.check in Hv.
  injection Hv as Hv _. intros ->. exact (Hp value Hv).
Qed.

Lemma range_neverRequired {T : Type} (fs : list (T -> St -> option Go.error * St))
    (value : T) (st : St) :
  Forall neverRequired fs ->
  fst (Schema.range fs value st) <> Some Go.ErrValueRequired.
Proof.
  intros Hfs Hr. destruct (Schema.range fs value st) as [r st'] eqn:Hrange.
  simpl in Hr. subst r.
  destruct (range_error_origin fs value st _ st' Hrange) as (v & st1 & Hin & Hv).
  rewrite List.Forall_forall in Hfs. exact (Hfs v Hin value st1 _ st' Hv eq_refl).
Qed.

(** A chain of string builders attaches validators that never return the
    sentinel, and has the required flag once [Required] was called. *)
Lemma stringOf_chain `{Go.Lib} (cs : list StringCall) (s : StringSchema.t St) :
  Forall neverRequired (Schema.validators (StringSchema.Schema s)) ->
  Forall neverRequired
    (Schema.validators (StringSchema.Schema (fold_left applyStringCall cs s))) /\
  (In SRequired cs \/ StringSchema.required s = true ->
   StringSchema.required (fold_left applyStringCall cs s) = true).
Proof.
  revert s. induction cs as [|c cs IH]; simpl; intros s Hs.
  - split; [exact Hs|]. intros [[]|Hr]. exact Hr.
  - assert (Hstep : Forall neverRequired
                      (Schema.validators (StringSchema.Schema (applyStringCall s c)))).
    { destruct c; simpl; try exact Hs;
        (apply Forall_app; split; [exact Hs|]; constructor; [|constructor];
         apply check_neverRequired; intros value;
         match goal with |- context [if ?b then _ else _] => destruct b end;
         discriminate). }
    destruct (IH _ Hstep) as [Hv Hreq]. split; [exact Hv|].
    intros [[->|Hin]|Hr]; apply Hreq;
      [right; reflexivity | left; exact Hin | right; destruct c; simpl; auto].
Qed.

Lemma numberOf_chain {T : Type} `{Numeric T} (cs : list (NumberCall T))
    (s : NumberSchema.t St T) :
  Forall neverRequired (Schema.validators (NumberSchema.Schema s)) ->
  Forall neverRequired
    (Schema.validators (NumberSchema.Schema (fold_left applyNumberCall cs s))) /\
  (In NRequired cs \/ NumberSchema.required s = true ->
   NumberSchema.required (fold_left applyNumberCall cs s) = true).
Proof.
  revert s. induction cs as [|c cs IH]; simpl; intros s Hs.
  - split; [exact Hs|]. intros [[]|Hr]. exact Hr.
  - assert (Hstep : Forall neverRequired
                      (Schema.validators (NumberSchema.Schema (applyNumberCall s c)))).
    { destruct c; simpl; try exact Hs;
        (apply Forall_app; split; [exact Hs|]; constructor; [|constructor];
         apply check_neverRequired; intros value;
         match goal with |- context [if ?b then _ else _] => destruct b end;
         discriminate). }
    destruct (IH _ Hstep) as [Hv Hreq]. split; [exact Hv|].
    intros [[->|Hin]|Hr]; apply Hreq;
      [right; reflexivity | left; exact Hin | right; destruct c; simpl; auto].
Qed.
End BuilderChains.

(** C3. On a string schema with the required flag set, [Validate] of the
    empty string returns the sentinel [ErrValueRequired] and runs no
    attached validator (the state is untouched, whatever is attached).  On a
    non-empty string the required check does not fire: the result is that of
    running the attached validators in order, so the sentinel can only come
    out of an attached validator.  A schema built by [String()] and the
    constraint builders, [Required()] among them, never returns the
    sentinel on a non-empty string. *)
Theorem String_Required_first {St : Type} `{Go.Lib} :
  (forall (s : StringSchema.t St) (st : St),
      StringSchema.required s = true ->
      StringSchema.Validate s EmptyString st = (Some Go.ErrValueRequired, st) /\
      (forall value, value <> EmptyString ->
         StringSchema.Validate s value st =
         Schema.range (Schema.validators (StringSchema.Schema s)) value st) /\
      (forall value st', value <> EmptyString ->
         StringSchema.Validate s value st = (Some Go.ErrValueRequired, st') ->
         exists validator st1,
           In validator (Schema.validators (StringSchema.Schema s)) /\
           validator value st1 = (Some Go.ErrValueRequired, st'))) /\
  (forall (cs : list StringCall) (value : string) (st : St),
      In SRequired cs ->
      StringSchema.Validate (stringOf cs) EmptyString st = (Some Go.ErrValueRequired, st) /\
      (value <> EmptyString ->
       fst (StringSchema.Validate (stringOf cs) value st) <> Some Go.ErrValueRequired)).
Proof.
  split.
  - intros s st Hreq. unfold StringSchema.Validate. rewrite Hreq. split; [reflexivity|].
    split.
    + intros value Hne. apply String_eqb_empty in Hne. rewrite Hne. reflexivity.
    + intros value st' Hne. apply String_eqb_empty in Hne. rewrite Hne. simpl.
      apply range_error_origin.
  - intros cs value st Hin.
    destruct (stringOf_chain (St := St) cs StringSchema.String (List.Forall_nil _)) as [Hv Hreq].
    specialize (Hreq (or_introl Hin)). fold (stringOf (St := St) cs) in Hv, Hreq.
    unfold StringSchema.Validate. rewrite Hreq. split; [reflexivity|].
    intros Hne. apply String_eqb_empty in Hne. rewrite Hne. simpl.
    apply range_neverRequired. exact Hv.
Qed.

(** [String().Required().Min(3)] with a counting validator attached first:
    the empty string is rejected with the sentinel and the counter stays at
    zero. *)
Lemma String_Required_first_witness :
  StringSchema.Validate
    (StringSchema.Min
       (StringSchema.Required
          (StringSchema.mk (Schema.Custom (Schema.New nat string) countAndPass) false)) 3)
    EmptyString 0 = (Some Go.ErrValueRequired, 0).
Proof.
  refine (proj1 (proj1 (String_Required_first (H := exampleLib)) _ 0 _)). reflexivity.
Defined.

(** C4. On a number schema with the required flag set, [Validate] of a value
    equal to the zero value of the representation returns the sentinel and
    runs no attached validator; on any other value the required check does
    not fire and the result is that of the attached validators in order.  A
    schema built by [Number()] and the constraint builders, [Required()]
    among them, never returns the sentinel on a value other than zero. *)
Theorem Number_Required_first {St T : Type} `{Numeric T} :
  (forall (s : NumberSchema.t St T) (st : St),
      NumberSchema.required s = true ->
      (forall value, num_eqb value num_zero = true ->
         NumberSchema.Validate s value st = (Some Go.ErrValueRequired, st)) /\
      (forall value, num_eqb value num_zero = false ->
         NumberSchema.Validate s value st =
         Schema.range (Schema.validators (NumberSchema.Schema s)) value st) /\
      (forall value st', num_eqb value num_zero = false ->
         NumberSchema.Validate s value st = (Some Go.ErrValueRequired, st') ->
         exists validator st1,
           In validator (Schema.validators (NumberSchema.Schema s)) /\
           validator value st1 = (Some Go.ErrValueRequired, st'))) /\
  (forall (cs : list (NumberCall T)) (value : T) (st : St),
      In NRequired cs ->
      (num_eqb value num_zero = true ->
       NumberSchema.Validate (numberOf cs) value st = (Some Go.ErrValueRequired, st)) /\
      (num_eqb value num_zero = false ->
       fst (NumberSchema.Validate (numberOf cs) value st) <> Some Go.ErrValueRequired)).
Proof.
  split.
  - intros s st Hreq. unfold NumberSchema.Validate. rewrite Hreq. split; [|split].
    + intros value ->. reflexivity.
    + intros value ->. reflexivity.
    + intros value st' ->. simpl. apply range_error_origin.
  - intros cs value st Hin.
    destruct (numberOf_chain (St := St) cs NumberSchema.Number (List.Forall_nil _)) as [Hv Hreq].
    specialize (Hreq (or_introl Hin)). fold (numberOf (St := St) cs) in Hv, Hreq.
    unfold NumberSchema.Validate. rewrite Hreq. split.
    + intros ->. reflexivity.
    + intros ->. simpl. apply range_neverRequired. exact Hv.
Qed.

(** [Number[int]().Required().Min(5)] behind a counting validator: zero is
    rejected with the sentinel before anything runs. *)
Lemma Number_Required_first_witness :
  NumberSchema.Validate
    (NumberSchema.Min
       (NumberSchema.Required
          (NumberSchema.mk (Schema.Custom (Schema.New nat Z) countAndPass) false)) 5%Z)
    0%Z 0 = (Some Go.ErrValueRequired, 0).
Proof.
  refine (proj1 (proj1 Number_Required_first _ 0 _) 0%Z _); reflexivity.
Defined.

(** The zero value is equal to itself in both instances, and so is the
    negative floating-point zero. *)
Lemma zero_is_zero :
  num_eqb (num_zero : Z) num_zero = true /\
  num_eqb (num_zero : float) num_zero = true /\
  num_eqb (-0)%float num_zero = true.
Proof. repeat split. Qed.

(** ** Pointer schemas *)

(** C7. [Ptr(String().Min(3))] rejects a pointer to ["hi"] with the length
    error, whose message is [length must be at least 3]; it accepts the nil
    pointer; with [Required()] layered on top it rejects the nil pointer
    with the sentinel. *)
Theorem Ptr_String_Min_3 {St : Type} (st : St) :
  let schema := PointerSchema.Ptr (StringSchema.Validate (StringSchema.Min StringSchema.String 3)) in
  let lengthError := Go.fmt_Errorf "length must be at least %d" [Go.ArgInt 3] in
  PointerSchema.Validate schema (Some "hi") st = (Some lengthError, st) /\
  Go.Error lengthError = Some "length must be at least 3" /\
  PointerSchema.Validate schema None st = (None, st) /\
  PointerSchema.Validate (PointerSchema.Required schema) None st
    = (Some Go.ErrValueRequired, st).
Proof. repeat split. Qed.

(** ** Schemas with nothing attached *)

Lemma permutes_nil {St T : Type} (order : ObjectSchema.MapOrder St T) :
  ObjectSchema.permutes order -> order [] = [].
Proof. intros Hp. apply Permutation_nil_r. apply Hp. Qed.

(** C9. A schema of any kind, fresh from its constructor (no constraint
    builder, no [Custom], no [Field]), accepts every value of its type: the
    base schema, [String()], [Number()], [Bool()], [Pointer()] (nil
    included), [Array()] (nil included) and [Object()] (whatever the
    iteration order); [Null()] accepts the value it is for, [nil]. *)
Theorem fresh_schema_accepts {St : Type} (st : St) :
  (forall (T : Type) (value : T),
      Schema.Validate (Schema.New St T) value st = (None, st)) /\
  (forall value : string,
      StringSchema.Validate StringSchema.String value st = (None, st)) /\
  (forall (T : Type) (N : Numeric T) (value : T),
      NumberSchema.Validate NumberSchema.Number value st = (None, st)) /\
  (forall value : bool,
      BoolSchema.Validate BoolSchema.Bool value st = (None, st)) /\
  NullSchema.Validate NullSchema.Null Go.anyNil st = (None, st) /\
  (forall (T : Type) (value : option T),
      PointerSchema.Validate PointerSchema.Pointer value st = (None, st)) /\
  (forall (T : Type) (value : Go.slice T),
      ArraySchema.Validate ArraySchema.Array value st = (None, st)) /\
  (forall (T : Type) (G : Go.Type_ T) (order : ObjectSchema.MapOrder St T) (value : T),
      ObjectSchema.permutes order ->
      ObjectSchema.Validate order ObjectSchema.Object value st = (None, st)).
Proof.
  repeat split.
  - intros value. unfold StringSchema.Validate. simpl. rewrite andb_false_r. reflexivity.
  - intros T N value. unfold NumberSchema.Validate. simpl. rewrite andb_false_r. reflexivity.
  - intros T [v|]; reflexivity.
  - intros T [l|]; reflexivity.
  - intros T G order value Hp.
    unfold ObjectSchema.Validate, ObjectSchema.ValidateMap. simpl.
    rewrite map_to_list_empty, (permutes_nil order Hp).
    destruct (Go.toAny value); reflexivity.
Qed.

(** [Object[any]()] on a string-keyed map, with the entries ranged over in
    the order they are listed. *)
Lemma fresh_schema_accepts_witness :
  ObjectSchema.Validate (fun l => l) ObjectSchema.Object
    (Go.anyMap (Some {[ "name" := Go.anyString "J" ]})) tt = (None, tt).
Proof.
  refine (proj2 (proj2 (proj2 (proj2 (proj2 (proj2 (proj2 (fresh_schema_accepts tt)))))))
            Go.any _ (fun l => l) _ _).
  intros l. reflexivity.
Defined.

(** ** Array schemas: a nil slice is validated as the empty slice *)

Section ArrayFacts.
Context {St T : Type} `{Marshal T}.

(** The validator that a builder call attaches accepts the empty slice as
    soon as the call bounds the length neither from below above zero nor
    from above below zero. *)
Lemma applyCall_accepts_empty (s : ArraySchema.t St T) (c : ArrayCall St T) :
  noPositiveFloor c = true ->
  noNegativeCeiling c = true ->
  (forall st, Schema.range (Schema.validators (ArraySchema.Schema s)) (Some []) st = (None, st)) ->
  forall st, Schema.range (Schema.validators (ArraySchema.Schema (applyCall s c))) (Some []) st = (None, st).
Proof.
  intros Hfloor Hceil Hs st.
  destruct c as [min|max|length| |validator]; simpl in *;
    rewrite range_app, Hs; simpl; unfold Schema.check, Go.len; simpl;
    change (Z.of_nat 0) with 0%Z.
  - replace (0 <? min)%Z with false by lia. reflexivity.
  - replace (max <? 0)%Z with false by lia. reflexivity.
  - assert (length = 0%Z) as -> by lia. reflexivity.
  - reflexivity.
  - reflexivity.
Qed.

Lemma arrayOf_accepts_empty (calls : list (ArrayCall St T)) (s : ArraySchema.t St T) :
  forallb noPositiveFloor calls = true ->
  forallb noNegativeCeiling calls = true ->
  (forall st, Schema.range (Schema.validators (ArraySchema.Schema s)) (Some []) st = (None, st)) ->
  forall st,
    Schema.range (Schema.validators (ArraySchema.Schema (fold_left applyCall calls s)))
      (Some []) st = (None, st).
Proof.
  revert s. induction calls as [|c calls IH]; simpl; intros s Hfloor Hceil Hs; [exact Hs|].
  apply andb_prop in Hfloor as [Hc1 Hf]. apply andb_prop in Hceil as [Hc2 Hc].
  apply IH; auto. apply applyCall_accepts_empty; auto.
Qed.

(** A [Min] with a positive bound rejects the empty slice, wherever it sits
    in the chain. *)
Lemma arrayOf_Min_rejects_empty (calls : list (ArrayCall St T)) (s : ArraySchema.t St T)
    (min : Z) (st : St) :
  In (CallMin min) calls -> (0 < min)%Z ->
  exists err st',
    Schema.range (Schema.validators (ArraySchema.Schema (fold_left applyCall calls s)))
      (Some []) st = (Some err, st').
Proof.
  revert s. induction calls as [|c calls IH]; simpl; intros s Hin Hpos; [contradiction|].
  destruct Hin as [->|Hin]; [|apply IH; auto].
  clear IH. simpl.
  assert (Hhere : exists err st',
             Schema.range (Schema.validators (ArraySchema.Schema (ArraySchema.Min s min)))
               (Some []) st = (Some err, st')).
  { simpl. rewrite range_app.
    destruct (Schema.range _ _ st) as [[err|] st1]; [eauto|].
    simpl. unfold Schema.check, Go.len. simpl. change (Z.of_nat 0) with 0%Z.
    replace (0 <? min)%Z with true by lia. eauto. }
  revert Hhere. generalize (ArraySchema.Min s min). clear s.
  induction calls as [|c calls IH]; simpl; intros s Hs; [exact Hs|].
  apply IH. destruct Hs as (err & st' & Hs).
  exists err, st'.
  destruct c; simpl; rewrite range_app, Hs; reflexivity.
Qed.
End ArrayFacts.

(** C6 (amended). Whatever is attached to an array schema, [Validate] of the
    nil slice is [Validate] of the empty slice.  So [Array().Min(1)] rejects
    the nil slice with [array length must be at least 1], and so does every
    chain of builder calls that contains a [Min] with a positive bound;
    while a chain of [Min], [Max], [Length], [UniqueItems] and [Items] calls
    with no positive length floor and no negative length ceiling accepts
    the nil slice without running anything on an item. *)
Theorem Array_nil_as_empty {St T : Type} `{Marshal T} :
  (forall (s : ArraySchema.t St T) (st : St),
      ArraySchema.Validate s None st = ArraySchema.Validate s (Some []) st) /\
  (forall st : St,
      ArraySchema.Validate (arrayOf (T := T) [CallMin 1]) None st =
      (Some (Go.fmt_Errorf "array length must be at least %d" [Go.ArgInt 1]), st)) /\
  Go.Error (Go.fmt_Errorf "array length must be at least %d" [Go.ArgInt 1]) =
    Some "array length must be at least 1" /\
  (forall (calls : list (ArrayCall St T)) (min : Z) (st : St),
      In (CallMin min) calls -> (0 < min)%Z ->
      exists err st', ArraySchema.Validate (arrayOf calls) None st = (Some err, st')) /\
  (forall (calls : list (ArrayCall St T)) (st : St),
      forallb noPositiveFloor calls = true ->
      forallb noNegativeCeiling calls = true ->
      ArraySchema.Validate (arrayOf calls) None st = (None, st)).
Proof.
  split; [reflexivity|]. split; [reflexivity|]. split; [reflexivity|]. split.
  - intros calls min st Hin Hpos. unfold ArraySchema.Validate, arrayOf.
    eapply arrayOf_Min_rejects_empty; eauto.
  - intros calls st Hfloor Hceil. unfold ArraySchema.Validate, arrayOf.
    apply arrayOf_accepts_empty; auto.
Qed.

(** [Array[int]().Max(5).UniqueItems().Items(f).Min(0)] accepts the nil
    slice, and [f] is not called. *)
Lemma Array_nil_as_empty_witness :
  ArraySchema.Validate
    (arrayOf [CallMax 5; CallUniqueItems; CallItems (countAndFail (Go.errors_New "item")); CallMin 0])
    (None : Go.slice Z) 0 = (None, 0).
Proof.
  refine (proj2 (proj2 (proj2 (proj2 Array_nil_as_empty))) _ 0 _ _); reflexivity.
Defined.

(** C6, as stated, fails: [Array[int]().Max(-1)] has no length floor at all,
    and rejects the nil slice. *)
Lemma Array_negative_Max_rejects_nil :
  forallb noPositiveFloor [CallMax (St := unit) (T := Z) (-1)] = true /\
  ArraySchema.Validate (arrayOf [CallMax (St := unit) (T := Z) (-1)]) None tt =
    (Some (Go.fmt_Errorf "array length must be at most %d" [Go.ArgInt (-1)]), tt) /\
  ~ (forall calls : list (ArrayCall unit Z),
        forallb noPositiveFloor calls = true ->
        ArraySchema.Validate (arrayOf calls) None tt = (None, tt)).
Proof.
  split; [reflexivity|]. split; [reflexivity|].
  intros Hall. specialize (Hall [CallMax (-1)] eq_refl). discriminate Hall.
Qed.

(** ** Number schemas: bounds *)

Lemma wrap_inRange (k : Go.IntKind) (z : Z) : Go.inRange k z -> Go.wrap k z = z.
Proof.
  unfold Go.inRange, Go.wrap, Go.minInt, Go.maxInt.
  destruct k; cbn [Go.signed Go.bits]; intros Hz;
    rewrite ?Z.mod_small by lia; lia.
Qed.

(** Comparisons of binary64 numbers, on their specification. *)
Lemma SFcompare_antisym (x y : SpecFloat.spec_float) :
  SpecFloat.SFcompare y x = option_map CompOpp (SpecFloat.SFcompare x y).
Proof.
  destruct x as [sx|sx| |sx mx ex], y as [sy|sy| |sy my ey]; simpl;
    try reflexivity;
    try (destruct sx; reflexivity); try (destruct sy; reflexivity);
    try (destruct sx, sy; reflexivity).
  destruct sx, sy; simpl; try reflexivity.
  - rewrite (Z.compare_antisym ex ey).
    destruct (ex ?= ey)%Z; simpl; try reflexivity.
    rewrite (Pos.compare_cont_antisym mx my Eq). reflexivity.
  - rewrite (Z.compare_antisym ex ey).
    destruct (ex ?= ey)%Z; simpl; try reflexivity.
    rewrite (Pos.compare_cont_antisym mx my Eq). reflexivity.
Qed.

(** The order on exponent and mantissa is transitive. *)
Lemma key_trans (e1 e2 e3 : Z) (m1 m2 m3 : positive) (c12 c23 : comparison) :
  match (e1 ?= e2)%Z with Lt => Lt | Gt => Gt | Eq => Pos.compare_cont Eq m1 m2 end = c12 ->
  match (e2 ?= e3)%Z with Lt => Lt | Gt => Gt | Eq => Pos.compare_cont Eq m2 m3 end = c23 ->
  (c12 = Lt /\ c23 <> Gt) \/ (c12 <> Gt /\ c23 = Lt) ->
  match (e1 ?= e3)%Z with Lt => Lt | Gt => Gt | Eq => Pos.compare_cont Eq m1 m3 end = Lt.
Proof.
  change (Pos.compare_cont Eq m1 m2) with (m1 ?= m2)%positive.
  change (Pos.compare_cont Eq m2 m3) with (m2 ?= m3)%positive.
  change (Pos.compare_cont Eq m1 m3) with (m1 ?= m3)%positive.
  destruct (Z.compare_spec e1 e2), (Z.compare_spec e2 e3), (Z.compare_spec e1 e3);
    destruct (Pos.compare_spec m1 m2), (Pos.compare_spec m2 m3), (Pos.compare_spec m1 m3);
    intros <- <- [[? ?]|[? ?]]; subst; try congruence; try lia.
Qed.

Lemma key_trans_opp (e1 e2 e3 : Z) (m1 m2 m3 : positive) (c12 c23 : comparison) :
  match (e1 ?= e2)%Z with Lt => Gt | Gt => Lt | Eq => CompOpp (Pos.compare_cont Eq m1 m2) end = c12 ->
  match (e2 ?= e3)%Z with Lt => Gt | Gt => Lt | Eq => CompOpp (Pos.compare_cont Eq m2 m3) end = c23 ->
  (c12 = Lt /\ c23 <> Gt) \/ (c12 <> Gt /\ c23 = Lt) ->
  match (e1 ?= e3)%Z with Lt => Gt | Gt => Lt | Eq => CompOpp (Pos.compare_cont Eq m1 m3) end = Lt.
Proof.
  change (Pos.compare_cont Eq m1 m2) with (m1 ?= m2)%positive.
  change (Pos.compare_cont Eq m2 m3) with (m2 ?= m3)%positive.
  change (Pos.compare_cont Eq m1 m3) with (m1 ?= m3)%positive.
  destruct (Z.compare_spec e1 e2), (Z.compare_spec e2 e3), (Z.compare_spec e1 e3);
    destruct (Pos.compare_spec m1 m2), (Pos.compare_spec m2 m3), (Pos.compare_spec m1 m3);
    simpl; intros <- <- [[? ?]|[? ?]]; subst; try congruence; try lia.
Qed.

(** Strictly below, then below or equal (or the other way round), is
    strictly below. *)
Lemma SFcompare_trans (x y z : SpecFloat.spec_float) (c12 c23 : comparison) :
  SpecFloat.SFcompare x y = Some c12 ->
  SpecFloat.SFcompare y z = Some c23 ->
  (c12 = Lt /\ c23 <> Gt) \/ (c12 <> Gt /\ c23 = Lt) ->
  SpecFloat.SFcompare x z = Some Lt.
Proof.
  destruct x as [sx|sx| |sx mx ex], y as [sy|sy| |sy my ey], z as [sz|sz| |sz mz ez];
    simpl; try discriminate;
    try (destruct sx, sy, sz; simpl; intros [= <-] [= <-] [[? ?]|[? ?]]; congruence);
    try (destruct sx, sy; simpl; intros [= <-] [= <-] [[? ?]|[? ?]]; congruence);
    try (destruct sx, sz; simpl; intros [= <-] [= <-] [[? ?]|[? ?]]; congruence);
    try (destruct sy, sz; simpl; intros [= <-] [= <-] [[? ?]|[? ?]]; congruence);
    try (destruct sx; simpl; intros [= <-] [= <-] [[? ?]|[? ?]]; congruence);
    try (destruct sy; simpl; intros [= <-] [= <-] [[? ?]|[? ?]]; congruence);
    try (destruct sz; simpl; intros [= <-] [= <-] [[? ?]|[? ?]]; congruence);
    try (intros [= <-] [= <-] [[? ?]|[? ?]]; congruence).
  destruct sx, sy, sz; simpl; intros [= H12] [= H23] Hc;
    try (subst; destruct Hc as [[? ?]|[? ?]]; congruence).
  - f_equal. eapply key_trans_opp; eauto.
  - f_equal. eapply key_trans; eauto.
Qed.

Lemma float_lt_le_trans (x y z : float) :
  PrimFloat.ltb x y = true -> PrimFloat.leb y z = true ->
  PrimFloat.ltb x z = true /\ PrimFloat.ltb z x = false.
Proof.
  rewrite !FloatAxioms.ltb_spec, FloatAxioms.leb_spec.
  unfold SpecFloat.SFltb, SpecFloat.SFleb.
  rewrite (SFcompare_antisym (Prim2SF x) (Prim2SF z)).
  destruct (SpecFloat.SFcompare (Prim2SF x) (Prim2SF y)) as [[| |]|] eqn:Hxy; try discriminate.
  destruct (SpecFloat.SFcompare (Prim2SF y) (Prim2SF z)) as [c|] eqn:Hyz; try discriminate.
  intros _ Hle.
  rewrite (SFcompare_trans _ _ _ Lt c Hxy Hyz); [split; reflexivity|].
  left. split; [reflexivity|]. destruct c; [discriminate | discriminate | discriminate Hle].
Qed.

Lemma float_le_lt_trans (x y z : float) :
  PrimFloat.leb x y = true -> PrimFloat.ltb y z = true ->
  PrimFloat.ltb x z = true /\ PrimFloat.ltb z x = false.
Proof.
  rewrite !FloatAxioms.ltb_spec, FloatAxioms.leb_spec.
  unfold SpecFloat.SFltb, SpecFloat.SFleb.
  rewrite (SFcompare_antisym (Prim2SF x) (Prim2SF z)).
  destruct (SpecFloat.SFcompare (Prim2SF x) (Prim2SF y)) as [c|] eqn:Hxy; try discriminate.
  destruct (SpecFloat.SFcompare (Prim2SF y) (Prim2SF z)) as [[| |]|] eqn:Hyz; try discriminate.
  intros Hle _.
  rewrite (SFcompare_trans _ _ _ c Lt Hxy Hyz); [split; reflexivity|].
  right. split; [|reflexivity]. destruct c; [discriminate | discriminate | discriminate Hle].
Qed.

Lemma float_not_nan_compare (x y : float) :
  PrimFloat.is_nan x = false -> PrimFloat.is_nan y = false ->
  exists c, SpecFloat.SFcompare (Prim2SF x) (Prim2SF y) = Some c.
Proof.
  unfold PrimFloat.is_nan. rewrite !FloatAxioms.eqb_spec. unfold SpecFloat.SFeqb.
  destruct (Prim2SF x), (Prim2SF y); simpl; intros Hx Hy; try discriminate; eauto.
Qed.

Lemma float_leb_not_nan (x y : float) :
  PrimFloat.leb x y = true -> PrimFloat.is_nan x = false /\ PrimFloat.is_nan y = false.
Proof.
  unfold PrimFloat.is_nan. rewrite FloatAxioms.leb_spec, !FloatAxioms.eqb_spec.
  unfold SpecFloat.SFleb, SpecFloat.SFeqb.
  destruct (Prim2SF x) as [sx|sx| |sx mx ex], (Prim2SF y) as [sy|sy| |sy my ey]; simpl;
    intros Hle; try discriminate; split; try reflexivity;
    rewrite ?Z.compare_refl, ?Pos.compare_cont_refl;
    try (destruct sx; reflexivity); try (destruct sy; reflexivity).
Qed.

(** Away from NaN, [x < y] fails exactly when [y <= x]. *)
Lemma float_ltb_leb (x y : float) :
  PrimFloat.is_nan x = false -> PrimFloat.is_nan y = false ->
  PrimFloat.ltb x y = negb (PrimFloat.leb y x).
Proof.
  intros Hx Hy. destruct (float_not_nan_compare x y Hx Hy) as [c Hc].
  rewrite FloatAxioms.ltb_spec, FloatAxioms.leb_spec.
  unfold SpecFloat.SFltb, SpecFloat.SFleb.
  rewrite (SFcompare_antisym (Prim2SF x) (Prim2SF y)), Hc.
  destruct c; reflexivity.
Qed.

(** The messages of the two bound errors over an integer type. *)
Lemma Error_bounds (bound : Z) :
  Go.Error (Go.fmt_Errorf "value must be at least %v" [Go.ArgInt bound]) =
    Some ("value must be at least " +:+ Go.decimal bound) /\
  Go.Error (Go.fmt_Errorf "value must be at most %v" [Go.ArgInt bound]) =
    Some ("value must be at most " +:+ Go.decimal bound).
Proof.
  split; simpl; rewrite (append_empty_r (Go.decimal bound)); reflexivity.
Qed.

Section NumberBounds.
Context {St T : Type} `{Numeric T}.

(** [Number().Min(a).Max(b)], unfolded. *)
Lemma Validate_Min_Max (a b v : T) (st : St) :
  NumberSchema.Validate (NumberSchema.Max (NumberSchema.Min NumberSchema.Number a) b) v st =
  if num_ltb v a
  then (Some (Go.fmt_Errorf "value must be at least %v" [num_operand a]), st)
  else if num_ltb b v
       then (Some (Go.fmt_Errorf "value must be at most %v" [num_operand b]), st)
       else (None, st).
Proof.
  unfold NumberSchema.Validate. simpl. rewrite andb_false_r.
  unfold Schema.Validate, Schema.check. simpl.
  destruct (num_ltb v a); [reflexivity|]. destruct (num_ltb b v); reflexivity.
Qed.

(** [Number().Max(b).Min(a)], unfolded. *)
Lemma Validate_Max_Min (a b v : T) (st : St) :
  NumberSchema.Validate (NumberSchema.Min (NumberSchema.Max NumberSchema.Number b) a) v st =
  if num_ltb b v
  then (Some (Go.fmt_Errorf "value must be at most %v" [num_operand b]), st)
  else if num_ltb v a
       then (Some (Go.fmt_Errorf "value must be at least %v" [num_operand a]), st)
       else (None, st).
Proof.
  unfold NumberSchema.Validate. simpl. rewrite andb_false_r.
  unfold Schema.Validate, Schema.check. simpl.
  destruct (num_ltb b v); [reflexivity|]. destruct (num_ltb v a); reflexivity.
Qed.
End NumberBounds.

(** C5 (amended). Take a number schema built with exactly [Min(a)] and
    [Max(b)], in either order, with [a <= b] and without [Required()].
    Over an integer type, [Validate(v)] returns no error exactly when
    [a <= v <= b]; [Validate(a-1)] returns the error naming the minimum
    bound when [a] is not the least value of the type, and [Validate(b+1)]
    the error naming the maximum bound when [b] is not the greatest.
    Over [float64], [Validate(v)] returns no error exactly when
    [a <= v <= b] for every [v] that is not NaN; [Validate(a-1)] returns
    the error naming the minimum bound when [a-1 < a], and [Validate(b+1)]
    the error naming the maximum bound when [b < b+1]. *)
Theorem Number_Min_Max_bounds {St : Type} (st : St) :
  (forall (k : Go.IntKind) (a b v : Z) (s : NumberSchema.t St Z),
      Go.inRange k a -> Go.inRange k b -> Go.inRange k v -> (a <= b)%Z ->
      s = NumberSchema.Max (NumberSchema.Min NumberSchema.Number a) b \/
      s = NumberSchema.Min (NumberSchema.Max NumberSchema.Number b) a ->
      (NumberSchema.Validate s v st = (None, st) <-> (a <= v <= b)%Z) /\
      ((Go.minInt k < a)%Z ->
       NumberSchema.Validate s (Go.wrap k (a - 1)) st =
       (Some (Go.fmt_Errorf "value must be at least %v" [Go.ArgInt a]), st)) /\
      ((b < Go.maxInt k)%Z ->
       NumberSchema.Validate s (Go.wrap k (b + 1)) st =
       (Some (Go.fmt_Errorf "value must be at most %v" [Go.ArgInt b]), st))) /\
  (forall (a b v : float) (s : NumberSchema.t St float),
      PrimFloat.leb a b = true ->
      s = NumberSchema.Max (NumberSchema.Min NumberSchema.Number a) b \/
      s = NumberSchema.Min (NumberSchema.Max NumberSchema.Number b) a ->
      (PrimFloat.is_nan v = false ->
       (NumberSchema.Validate s v st = (None, st) <->
        PrimFloat.leb a v = true /\ PrimFloat.leb v b = true)) /\
      (PrimFloat.ltb (a - 1) a = true ->
       NumberSchema.Validate s (a - 1)%float st =
       (Some (Go.fmt_Errorf "value must be at least %v" [Go.ArgFloat a]), st)) /\
      (PrimFloat.ltb b (b + 1) = true ->
       NumberSchema.Validate s (b + 1)%float st =
       (Some (Go.fmt_Errorf "value must be at most %v" [Go.ArgFloat b]), st))).
Proof.
  split.
  - intros k a b v s Ha Hb Hv Hab Hs.
    assert (Hiff : forall w : Z,
               NumberSchema.Validate s w st =
               if (w <? a)%Z
               then (Some (Go.fmt_Errorf "value must be at least %v" [Go.ArgInt a]), st)
               else if (b <? w)%Z
                    then (Some (Go.fmt_Errorf "value must be at most %v" [Go.ArgInt b]), st)
                    else (None, st)).
    { intros w. destruct Hs as [-> | ->].
      - rewrite Validate_Min_Max. reflexivity.
      - rewrite Validate_Max_Min. simpl.
        destruct (b <? w)%Z eqn:Hbw, (w <? a)%Z eqn:Hwa; try reflexivity. lia. }
    split; [|split].
    + rewrite Hiff.
      destruct (v <? a)%Z eqn:Hva; [split; [discriminate | lia]|].
      destruct (b <? v)%Z eqn:Hbv; [split; [discriminate | lia]|].
      split; [lia | reflexivity].
    + intros Hmin. rewrite wrap_inRange by (unfold Go.inRange in *; lia).
      rewrite Hiff. replace (a - 1 <? a)%Z with true by lia. reflexivity.
    + intros Hmax. rewrite wrap_inRange by (unfold Go.inRange in *; lia).
      rewrite Hiff. replace (b + 1 <? a)%Z with false by lia.
      replace (b <? b + 1)%Z with true by lia. reflexivity.
  - intros a b v s Hab Hs. split; [|split].
    + intros Hv. destruct (float_leb_not_nan a b Hab) as [Ha Hb].
      assert (Hva : PrimFloat.ltb v a = negb (PrimFloat.leb a v))
        by (apply float_ltb_leb; assumption).
      assert (Hbv : PrimFloat.ltb b v = negb (PrimFloat.leb v b))
        by (apply float_ltb_leb; assumption).
      destruct Hs as [-> | ->];
        [rewrite Validate_Min_Max | rewrite Validate_Max_Min]; simpl;
        rewrite Hva, Hbv;
        destruct (PrimFloat.leb a v), (PrimFloat.leb v b); simpl;
        (split; [intros E; try discriminate E; auto
                | intros [E1 E2]; try discriminate; reflexivity]).
    + intros Hlt. destruct (float_lt_le_trans _ _ _ Hlt Hab) as [_ Hbw].
      destruct Hs as [-> | ->];
        [rewrite Validate_Min_Max | rewrite Validate_Max_Min]; simpl;
        rewrite ?Hbw, Hlt; reflexivity.
    + intros Hlt. destruct (float_le_lt_trans _ _ _ Hab Hlt) as [_ Hwa].
      destruct Hs as [-> | ->];
        [rewrite Validate_Min_Max | rewrite Validate_Max_Min]; simpl;
        rewrite ?Hwa, Hlt; reflexivity.
Qed.

(** [Number[int]().Min(18).Max(120)] accepts 25. *)
Lemma Number_Min_Max_bounds_witness :
  NumberSchema.Validate
    (NumberSchema.Max (NumberSchema.Min NumberSchema.Number 18%Z) 120%Z) 25%Z tt = (None, tt).
Proof.
  refine (proj2 (proj1 (proj1 (Number_Min_Max_bounds tt) Go.Int 18%Z 120%Z 25%Z _ _ _ _ _ (or_introl eq_refl))) _);
    try (unfold Go.inRange; cbv; split; discriminate); lia.
Defined.

(** C5, as stated, fails over [float64].  [Number[float64]().Min(0).Max(1)]
    accepts NaN, which does not lie between the bounds; and with
    [a = 1e16] the value [a-1] is [a] itself, which
    [Number[float64]().Min(1e16).Max(1e17)] accepts. *)
Lemma Number_accepts_NaN :
  (PrimFloat.leb 0 1 = true /\
   NumberSchema.Validate
     (NumberSchema.Max (NumberSchema.Min NumberSchema.Number 0%float) 1%float)
     PrimFloat.nan tt = (None, tt) /\
   PrimFloat.leb 0 PrimFloat.nan = false /\
   ~ (forall v : float,
         NumberSchema.Validate
           (NumberSchema.Max (NumberSchema.Min NumberSchema.Number 0%float) 1%float) v tt
           = (None, tt) <->
         PrimFloat.leb 0 v = true /\ PrimFloat.leb v 1 = true)) /\
  (PrimFloat.leb 1e16 1e17 = true /\
   NumberSchema.Validate
     (NumberSchema.Max (NumberSchema.Min NumberSchema.Number 1e16%float) 1e17%float)
     (1e16 - 1)%float tt = (None, tt)).
Proof.
  split.
  - split; [reflexivity|]. split; [reflexivity|]. split; [reflexivity|].
    intros Hall. destruct (proj1 (Hall PrimFloat.nan) eq_refl) as [E _]. discriminate E.
  - split; reflexivity.
Qed.

(** ** Object schemas *)

Section ObjectFacts.
Context {St T : Type} `{Go.Type_ T}.
Implicit Types (regs : list (string * (T -> St -> option Go.error * St))).
Implicit Types (entries : list (string * (ObjectSchema.boxed T -> St -> option Go.error * St))).

(** The closures stored by [Field] calls are the closures of the
    validators registered last. *)
Lemma fieldValidators_fold regs (s : ObjectSchema.t St T)
    (m : gmap string (T -> St -> option Go.error * St)) :
  ObjectSchema.fieldValidators s =
    map_imap (fun n fn => Some (ObjectSchema.fieldClosure n fn)) m ->
  ObjectSchema.fieldValidators
    (fold_left (fun s reg => ObjectSchema.Field s (fst reg) (snd reg)) regs s) =
  map_imap (fun n fn => Some (ObjectSchema.fieldClosure n fn))
    (fold_left (fun m reg => <[ fst reg := snd reg ]> m) regs m).
Proof.
  revert s m. induction regs as [|[n fn] regs IH]; simpl; intros s m Hs; [exact Hs|].
  apply IH. simpl. rewrite Hs, map_imap_insert. reflexivity.
Qed.

Lemma fieldValidators_objectOf regs :
  ObjectSchema.fieldValidators (objectOf regs) =
  map_imap (fun n fn => Some (ObjectSchema.fieldClosure n fn)) (fieldsOf regs).
Proof.
  unfold objectOf, fieldsOf. apply fieldValidators_fold.
  simpl. rewrite map_imap_empty. reflexivity.
Qed.

Lemma lookup_objectOf regs (name : string) closure :
  ObjectSchema.fieldValidators (objectOf regs) !! name = Some closure <->
  exists validateFn,
    fieldsOf regs !! name = Some validateFn /\
    closure = ObjectSchema.fieldClosure name validateFn.
Proof.
  rewrite fieldValidators_objectOf, map_lookup_imap.
  destruct (fieldsOf regs !! name) as [fn|]; simpl; split.
  - intros [= <-]. eauto.
  - intros (fn' & [= <-] & ->). reflexivity.
  - discriminate.
  - intros (fn' & Hfn & _). discriminate.
Qed.

(** A visit of entries of which those named [a] reject with [err] and the
    others accept stops with [err], provided some entry is named [a]. *)
Lemma rangeFields_one_failure entries (arg : string -> ObjectSchema.boxed T)
    (a : string) (err : Go.error) :
  (exists c, (a, c) ∈ entries) ->
  (forall n c, (n, c) ∈ entries -> n = a ->
     forall st1, exists st2, c (arg n) st1 = (Some err, st2)) ->
  (forall n c, (n, c) ∈ entries -> n <> a ->
     forall st1, exists st2, c (arg n) st1 = (None, st2)) ->
  forall st, exists st', ObjectSchema.rangeFields entries arg st = (Some err, st').
Proof.
  induction entries as [|[n c] entries IH]; intros [ca Hin] Hfail Hpass st.
  - apply elem_of_nil in Hin. contradiction.
  - simpl. destruct (decide (n = a)) as [Hn|Hn].
    + destruct (Hfail n c (list_elem_of_here _ _) Hn st) as [st2 Hc].
      rewrite Hc. eauto.
    + destruct (Hpass n c (list_elem_of_here _ _) Hn st) as [st2 Hc].
      rewrite Hc. apply IH.
      * apply elem_of_cons in Hin as [[= <- <-]|Hin]; [contradiction | eauto].
      * intros n' c' Hin'. apply Hfail. apply list_elem_of_further. exact Hin'.
      * intros n' c' Hin'. apply Hpass. apply list_elem_of_further. exact Hin'.
Qed.

(** [Validate] ranges over the stored closures and hands each its
    [fieldArg]. *)
Lemma Validate_rangeFields (order : ObjectSchema.MapOrder St T) (s : ObjectSchema.t St T)
    (value : T) (st : St) :
  ObjectSchema.Validate order s value st =
  ObjectSchema.rangeFields (order (map_to_list (ObjectSchema.fieldValidators s)))
    (fieldArg value) st.
Proof.
  unfold ObjectSchema.Validate, ObjectSchema.ValidateMap, fieldArg.
  destruct (Go.toAny value); reflexivity.
Qed.

Lemma elem_of_order (order : ObjectSchema.MapOrder St T) (s : ObjectSchema.t St T)
    (n : string) c :
  ObjectSchema.permutes order ->
  (n, c) ∈ order (map_to_list (ObjectSchema.fieldValidators s)) <->
  ObjectSchema.fieldValidators s !! n = Some c.
Proof.
  intros Hp. rewrite (Hp _). apply elem_of_map_to_list.
Qed.

(** One level: exactly the field [a] fails, with [err]. *)
Lemma Object_one_failure regs (order : ObjectSchema.MapOrder St T) (value : T)
    (a : string) fa (err : Go.error) :
  ObjectSchema.permutes order ->
  fieldsOf regs !! a = Some fa ->
  (forall st1, exists st2, fa (fieldInput value a) st1 = (Some err, st2)) ->
  (forall b fb, b <> a -> fieldsOf regs !! b = Some fb ->
     forall st1, exists st2, fb (fieldInput value b) st1 = (None, st2)) ->
  forall st, exists st',
    ObjectSchema.Validate order (objectOf regs) value st = (Some (fieldError a err), st').
Proof.
  intros Hp Ha Hfail Hpass st. rewrite Validate_rangeFields.
  apply rangeFields_one_failure with (a := a).
  - exists (ObjectSchema.fieldClosure a fa).
    apply elem_of_order; [exact Hp|]. apply lookup_objectOf. eauto.
  - intros n c Hin -> st1. apply elem_of_order in Hin; [|exact Hp].
    apply lookup_objectOf in Hin as (fn & Hfn & ->).
    rewrite Ha in Hfn. injection Hfn as <-.
    unfold ObjectSchema.fieldClosure. fold (fieldInput value a).
    destruct (Hfail st1) as [st2 ->]. eauto.
  - intros n c Hin Hn st1. apply elem_of_order in Hin; [|exact Hp].
    apply lookup_objectOf in Hin as (fn & Hfn & ->).
    unfold ObjectSchema.fieldClosure. fold (fieldInput value n).
    destruct (Hpass n fn Hn Hfn st1) as [st2 ->]. eauto.
Qed.

(** The message of a field error. *)
Lemma Error_fieldError (fieldName : string) (err : Go.error) :
  Go.Unwrap (fieldError fieldName err) = Some err /\
  Go.Error (fieldError fieldName err) =
    match Go.Quote fieldName, Go.Error err with
    | Some q, Some m => Some ("validation failed for field " +:+ q +:+ ": " +:+ m)
    | _, _ => None
    end.
Proof.
  split; [reflexivity|]. simpl.
  destruct (Go.Quote fieldName) as [q|], (Go.Error err) as [m|]; try reflexivity.
  rewrite (append_empty_r m). reflexivity.
Qed.
End ObjectFacts.

(** C2. When a carried value fails the validator of exactly one field [a]
    of an object schema, with the error [err], [Validate] returns
    [validation failed for field "a": err] wrapping [err], whatever the
    order in which the fields are visited and whatever state the other
    validators leave.  The message is the prefix, the quoted name, a colon
    and the message of [err].  When the failing validator of the outer
    field [o] is itself the [Validate] of an object schema whose only
    failing field is [i], each level adds one wrap: the error is
    [fieldError o (fieldError i err)]. *)
Theorem Object_wraps_failing_field {St : Type} :
  (forall (T : Type) (G : Go.Type_ T)
          (regs : list (string * (T -> St -> option Go.error * St)))
          (order : ObjectSchema.MapOrder St T) (value : T)
          (a : string) (fa : T -> St -> option Go.error * St) (err : Go.error) (st : St),
      ObjectSchema.permutes order ->
      fieldsOf regs !! a = Some fa ->
      (forall st1, exists st2, fa (fieldInput value a) st1 = (Some err, st2)) ->
      (forall b fb, b <> a -> fieldsOf regs !! b = Some fb ->
         forall st1, exists st2, fb (fieldInput value b) st1 = (None, st2)) ->
      exists st',
        ObjectSchema.Validate order (objectOf regs) value st =
        (Some (Go.fmt_Errorf "validation failed for field %q: %w"
                 [Go.ArgString a; Go.ArgError err]), st')) /\
  (forall (a : string) (err : Go.error) (q m : string),
      Go.Quote a = Some q -> Go.Error err = Some m ->
      Go.Unwrap (fieldError a err) = Some err /\
      Go.Error (fieldError a err) =
        Some ("validation failed for field " +:+ q +:+ ": " +:+ m)) /\
  (forall (T F : Type) (G : Go.Type_ T) (GF : Go.Type_ F)
          (outer : list (string * (T -> St -> option Go.error * St)))
          (inner : list (string * (F -> St -> option Go.error * St)))
          (orderO : ObjectSchema.MapOrder St T) (orderI : ObjectSchema.MapOrder St F)
          (getter : T -> F) (value : T) (o i : string)
          (fi : F -> St -> option Go.error * St) (err : Go.error) (st : St),
      ObjectSchema.permutes orderO ->
      ObjectSchema.permutes orderI ->
      fieldsOf outer !! o =
        Some (ObjectSchema.ValidateField getter
                (ObjectSchema.Validate orderI (objectOf inner))) ->
      fieldsOf inner !! i = Some fi ->
      (forall st1, exists st2,
          fi (fieldInput (getter (fieldInput value o)) i) st1 = (Some err, st2)) ->
      (forall b fb, b <> i -> fieldsOf inner !! b = Some fb ->
         forall st1, exists st2,
           fb (fieldInput (getter (fieldInput value o)) b) st1 = (None, st2)) ->
      (forall b fb, b <> o -> fieldsOf outer !! b = Some fb ->
         forall st1, exists st2, fb (fieldInput value b) st1 = (None, st2)) ->
      exists st',
        ObjectSchema.Validate orderO (objectOf outer) value st =
        (Some (fieldError o (fieldError i err)), st')).
Proof.
  split; [|split].
  - intros T G regs order value a fa err st Hp Ha Hfail Hpass.
    exact (Object_one_failure regs order value a fa err Hp Ha Hfail Hpass st).
  - intros a err q m Hq Hm. destruct (Error_fieldError a err) as [Hu He].
    split; [exact Hu|]. rewrite He, Hq, Hm. reflexivity.
  - intros T F G GF outer inner orderO orderI getter value o i fi err st
           HpO HpI Ho Hi Hfail HpassI HpassO.
    eapply Object_one_failure; eauto.
    intros st1. unfold ObjectSchema.ValidateField.
    eapply Object_one_failure; eauto.
Qed.

Lemma fooFields_lookup (b : string) (fb : Foo -> unit -> option Go.error * unit) :
  b <> "baz" -> fieldsOf fooFields !! b = Some fb ->
  b = "bar" /\ fb = ObjectSchema.ValidateField Bar atMost5.
Proof.
  unfold fieldsOf, fooFields. simpl. intros Hb Hl.
  apply lookup_insert_Some in Hl as [[<- <-]|[Hne Hl]]; [contradiction|].
  apply lookup_insert_Some in Hl as [[<- <-]|[Hne' Hl]]; [split; reflexivity|].
  rewrite lookup_empty in Hl. discriminate.
Qed.

Lemma bazFields_lookup (b : string) (fb : Baz -> unit -> option Go.error * unit) :
  b <> "quo" -> fieldsOf bazFields !! b = Some fb -> False.
Proof.
  unfold fieldsOf, bazFields. simpl. intros Hb Hl.
  apply lookup_insert_Some in Hl as [[<- <-]|[Hne Hl]]; [contradiction|].
  rewrite lookup_empty in Hl. discriminate.
Qed.

(** The package's example for nested objects:
    [Foo{Bar: "bar", Baz: Baz{Quo: "quoquo"}}] fails the field ["quo"] of
    the field ["baz"] only. *)
Lemma Object_wraps_failing_field_witness :
  exists st',
    ObjectSchema.Validate (fun l => l) (objectOf fooFields)
      (mkFoo "bar" (mkBaz "quoquo")) tt =
    (Some (fieldError "baz"
             (fieldError "quo"
                (Go.fmt_Errorf "length must be at most %d" [Go.ArgInt 5]))), st').
Proof.
  refine (proj2 (proj2 Object_wraps_failing_field) Foo Baz _ _ fooFields bazFields
            (fun l => l) (fun l => l) Baz_ (mkFoo "bar" (mkBaz "quoquo")) "baz" "quo"
            (ObjectSchema.ValidateField Quo atMost5)
            (Go.fmt_Errorf "length must be at most %d" [Go.ArgInt 5]) tt _ _ _ _ _ _ _).
  - intros l. reflexivity.
  - intros l. reflexivity.
  - unfold fieldsOf, fooFields. simpl. apply lookup_insert_eq.
  - unfold fieldsOf, bazFields. simpl. apply lookup_insert_eq.
  - intros []. exists tt. reflexivity.
  - intros b fb Hb Hl. destruct (bazFields_lookup b fb Hb Hl).
  - intros b fb Hb Hl []. exists tt.
    destruct (fooFields_lookup b fb Hb Hl) as [-> ->]. reflexivity.
Defined.

Section VerdictFacts.
Context {St T : Type} `{Go.Type_ T}.
Implicit Types (entries : list (string * (ObjectSchema.boxed T -> St -> option Go.error * St))).

Lemma rangeFields_accepts entries (arg : string -> ObjectSchema.boxed T) (st : St) :
  (forall n c, (n, c) ∈ entries -> exists r, c (arg n) st = (r, st)) ->
  ObjectSchema.rangeFields entries arg st = (None, st) <->
  forall n c, (n, c) ∈ entries -> c (arg n) st = (None, st).
Proof.
  induction entries as [|[n c] entries IH]; intros Hpure; simpl.
  - split; [intros _ n c Hin; apply elem_of_nil in Hin; contradiction | reflexivity].
  - destruct (Hpure n c (list_elem_of_here _ _)) as [[err|] Hc]; rewrite Hc.
    + split; [discriminate|]. intros Hall.
      rewrite (Hall n c (list_elem_of_here _ _)) in Hc. discriminate Hc.
    + rewrite IH by (intros n' c' Hin; apply Hpure; apply list_elem_of_further; exact Hin).
      split.
      * intros Hall n' c' Hin. apply elem_of_cons in Hin as [[= -> ->]|Hin]; [exact Hc | auto].
      * intros Hall n' c' Hin. apply Hall. apply list_elem_of_further. exact Hin.
Qed.

Lemma rangeFields_error_origin entries (arg : string -> ObjectSchema.boxed T)
    (st st' : St) (err : Go.error) :
  ObjectSchema.rangeFields entries arg st = (Some err, st') ->
  exists n c st1, (n, c) ∈ entries /\ c (arg n) st1 = (Some err, st').
Proof.
  revert st. induction entries as [|[n c] entries IH]; simpl; intros st Hr; [discriminate|].
  destruct (c (arg n) st) as [[e|] st1] eqn:Hc.
  - injection Hr as -> ->. exists n, c, st. split; [apply list_elem_of_here | exact Hc].
  - destruct (IH _ Hr) as (n' & c' & sa & Hin & Hc').
    exists n', c', sa. split; [apply list_elem_of_further; exact Hin | exact Hc'].
Qed.
End VerdictFacts.

Section PerKeyFacts.
Context {St T : Type} `{Go.Type_ T}.
Implicit Types (regs : list (string * (T -> St -> option Go.error * St))).

Lemma callEach_ext (fields : list (string * (T -> St -> option Go.error * St)))
    (f g : string -> T) (st : St) :
  (forall name, f name = g name) -> callEach fields f st = callEach fields g st.
Proof.
  intros Hfg. revert st. induction fields as [|[n fn] fields IH]; intros st; simpl.
  - reflexivity.
  - rewrite Hfg. destruct (fn (g n) st) as [[err|] st']; [reflexivity | apply IH].
Qed.

(** A visit of closures that [Field] stored is a run of the registered
    validators, each on the asserted argument of its closure. *)
Lemma rangeFields_callEach regs
    (entries : list (string * (ObjectSchema.boxed T -> St -> option Go.error * St))) :
  (forall n c, (n, c) ∈ entries ->
     exists fn, fieldsOf regs !! n = Some fn /\ c = ObjectSchema.fieldClosure n fn) ->
  exists fields : list (string * (T -> St -> option Go.error * St)),
    fields.*1 = entries.*1 /\
    (forall n fn, (n, fn) ∈ fields -> fieldsOf regs !! n = Some fn) /\
    forall arg st,
      ObjectSchema.rangeFields entries arg st =
      callEach fields (fun n => ObjectSchema.typeAssert (arg n)) st.
Proof.
  induction entries as [|[n c] entries IH]; intros Hall.
  - exists []. split; [reflexivity|]. split; [|reflexivity].
    intros n fn Hin. apply elem_of_nil in Hin. contradiction.
  - destruct (Hall n c (list_elem_of_here _ _)) as (fn & Hfn & ->).
    destruct IH as (fields & Hkeys & Hreg & Hrun).
    { intros n' c' Hin. apply Hall. apply list_elem_of_further. exact Hin. }
    exists ((n, fn) :: fields). split; [|split].
    + rewrite !fmap_cons, Hkeys. reflexivity.
    + intros n' fn' Hin. apply elem_of_cons in Hin as [[= -> ->]|Hin]; [exact Hfn | auto].
    + intros arg st. simpl. unfold ObjectSchema.fieldClosure at 1.
      destruct (fn (ObjectSchema.typeAssert (arg n)) st) as [[err|] st'];
        [reflexivity | apply Hrun].
Qed.

(** [Validate] calls every registered validator, in the order in which the
    field map is ranged over, up to the first that rejects. *)
Lemma Validate_callEach regs (order : ObjectSchema.MapOrder St T) (value : T) :
  ObjectSchema.permutes order ->
  exists fields : list (string * (T -> St -> option Go.error * St)),
    fields ≡ₚ map_to_list (fieldsOf regs) /\
    forall st,
      ObjectSchema.Validate order (objectOf regs) value st =
      callEach fields (fieldInput value) st.
Proof.
  intros Hp.
  destruct (rangeFields_callEach regs
              (order (map_to_list (ObjectSchema.fieldValidators (objectOf regs)))))
    as (fields & Hkeys & Hreg & Hrun).
  { intros n c Hin. apply elem_of_order in Hin; [|exact Hp].
    apply lookup_objectOf in Hin. exact Hin. }
  exists fields. split.
  - apply NoDup_Permutation.
    + apply (NoDup_fmap_1 fst). rewrite Hkeys, (Hp _). apply NoDup_fst_map_to_list.
    + apply NoDup_map_to_list.
    + intros [n fn]. rewrite elem_of_map_to_list. split; [apply Hreg|].
      intros Hfn.
      assert (Hin : (n, ObjectSchema.fieldClosure n fn) ∈
                    order (map_to_list (ObjectSchema.fieldValidators (objectOf regs)))).
      { apply elem_of_order; [exact Hp|]. apply lookup_objectOf. eauto. }
      assert (Hn : n ∈ fields.*1).
      { rewrite Hkeys. apply list_elem_of_fmap. eexists. split; [|exact Hin]. reflexivity. }
      apply list_elem_of_fmap in Hn as ([n' fn'] & Hn' & Hin'). simpl in Hn'. subst n'.
      pose proof (Hreg n fn' Hin') as Hfn'. rewrite Hfn in Hfn'. injection Hfn' as <-.
      exact Hin'.
  - intros st. rewrite Validate_rangeFields, Hrun. reflexivity.
Qed.
End PerKeyFacts.

(** C10. When the carried value of an object schema is dynamically a
    [map[string]any], [Validate] takes the per-key path: it is
    [ValidateMap] on that map, which ranges over the stored closures and
    hands each the entry found under its own field name.  The closure
    stored for a field calls the registered validator on that entry asserted
    to [T]; the validator receives the zero value of [T] when the key is
    absent (or the map is nil) and when the assertion fails, and the closure
    returns an error only when the validator does.  So, in whatever order
    the fields are visited: [Validate] calls the registered validators one
    after the other, each once and with the asserted entry of its own
    field, up to the first that rejects; when one registered validator
    rejects the asserted entry of its field and the others accept theirs,
    [Validate] returns the error of that validator, wrapped with the name
    of the field; an error that [Validate] returns is always the error of
    a registered validator on the asserted entry of its field, so that a
    failed assertion as such raises none; and, the validators touching no
    state, the map is accepted exactly when every registered validator
    accepts the asserted entry of its field. *)
Theorem Object_map_per_key {St T : Type} `{Go.Type_ T}
    (regs : list (string * (T -> St -> option Go.error * St)))
    (order : ObjectSchema.MapOrder St T) (value : T)
    (mapValue : option (gmap string Go.any)) (st : St) :
  Go.toAny value = Go.anyMap mapValue ->
  ObjectSchema.Validate order (objectOf regs) value st =
    ObjectSchema.ValidateMap order (objectOf regs) mapValue st /\
  ObjectSchema.ValidateMap order (objectOf regs) mapValue st =
    ObjectSchema.rangeFields
      (order (map_to_list (ObjectSchema.fieldValidators (objectOf regs))))
      (fun fieldName => ObjectSchema.ofAny (Go.index mapValue fieldName)) st /\
  (forall (name : string) closure,
      ObjectSchema.fieldValidators (objectOf regs) !! name = Some closure ->
      exists validateFn,
        fieldsOf regs !! name = Some validateFn /\
        forall st1,
          closure (ObjectSchema.ofAny (Go.index mapValue name)) st1 =
          match validateFn (default Go.zero (Go.assert (Go.index mapValue name))) st1 with
          | (Some err, st2) => (Some (fieldError name err), st2)
          | (None, st2) => (None, st2)
          end) /\
  (forall name : string,
      mapValue = None \/ (exists m, mapValue = Some m /\ m !! name = None) ->
      default Go.zero (Go.assert (Go.index mapValue name)) = Go.zero) /\
  (forall (name : string) (m : gmap string Go.any) (entry : Go.any),
      mapValue = Some m -> m !! name = Some entry ->
      default Go.zero (Go.assert (Go.index mapValue name)) =
      match Go.assert entry with
      | Some typedValue => typedValue
      | None => Go.zero
      end) /\
  (ObjectSchema.permutes order ->
   (exists fields : list (string * (T -> St -> option Go.error * St)),
       fields ≡ₚ map_to_list (fieldsOf regs) /\
       forall st0,
         ObjectSchema.Validate order (objectOf regs) value st0 =
         callEach fields
           (fun name => default Go.zero (Go.assert (Go.index mapValue name))) st0) /\
   (forall (name : string) validateFn (err : Go.error),
       fieldsOf regs !! name = Some validateFn ->
       (forall st1, exists st2,
           validateFn (default Go.zero (Go.assert (Go.index mapValue name))) st1 =
           (Some err, st2)) ->
       (forall other otherFn, other <> name -> fieldsOf regs !! other = Some otherFn ->
          forall st1, exists st2,
            otherFn (default Go.zero (Go.assert (Go.index mapValue other))) st1 =
            (None, st2)) ->
       exists st',
         ObjectSchema.Validate order (objectOf regs) value st =
         (Some (fieldError name err), st')) /\
   (forall (err : Go.error) (st' : St),
       ObjectSchema.Validate order (objectOf regs) value st = (Some err, st') ->
       exists (name : string) validateFn (inner : Go.error) (st1 : St),
         fieldsOf regs !! name = Some validateFn /\
         validateFn (default Go.zero (Go.assert (Go.index mapValue name))) st1 =
         (Some inner, st') /\
         err = fieldError name inner) /\
   ((forall (name : string) validateFn, fieldsOf regs !! name = Some validateFn ->
       exists r,
         validateFn (default Go.zero (Go.assert (Go.index mapValue name))) st = (r, st)) ->
    (ObjectSchema.Validate order (objectOf regs) value st = (None, st) <->
     forall (name : string) validateFn, fieldsOf regs !! name = Some validateFn ->
       validateFn (default Go.zero (Go.assert (Go.index mapValue name))) st = (None, st)))).
Proof.
  intros Hmap.
  assert (Hinput : forall name,
             fieldInput value name = default Go.zero (Go.assert (Go.index mapValue name)))
    by (intros name; unfold fieldInput, fieldArg; rewrite Hmap; reflexivity).
  split; [|split; [|split; [|split; [|split]]]].
  - unfold ObjectSchema.Validate. rewrite Hmap. reflexivity.
  - reflexivity.
  - intros name closure Hl. apply lookup_objectOf in Hl as (fn & Hfn & ->).
    exists fn. split; [exact Hfn|]. intros st1. reflexivity.
  - intros name [-> | (m & -> & Hm)]; simpl; [|rewrite Hm; simpl];
      rewrite Go.assert_nil; reflexivity.
  - intros name m entry -> Hm. simpl. rewrite Hm. simpl.
    destruct (Go.assert entry); reflexivity.
  - intros Hp. split; [|split; [|split]].
    + destruct (Validate_callEach regs order value Hp) as (fields & Hperm & Hrun).
      exists fields. split; [exact Hperm|]. intros st0.
      rewrite Hrun. apply callEach_ext. exact Hinput.
    + intros name fn err Hfn Hfail Hpass.
      apply (Object_one_failure regs order value name fn err Hp Hfn).
      * intros st1. rewrite Hinput. apply Hfail.
      * intros b fb Hb Hfb st1. rewrite Hinput. apply (Hpass b fb Hb Hfb).
    + intros err st' Hr. rewrite Validate_rangeFields in Hr.
      destruct (rangeFields_error_origin _ _ _ _ _ Hr) as (n & c & st1 & Hin & Hc).
      apply elem_of_order in Hin; [|exact Hp].
      apply lookup_objectOf in Hin as (fn & Hfn & ->).
      unfold ObjectSchema.fieldClosure in Hc. fold (fieldInput value n) in Hc.
      rewrite Hinput in Hc.
      destruct (fn _ st1) as [[inner|] sa] eqn:Hfnr; [|discriminate Hc].
      injection Hc as <- <-. exists n, fn, inner, st1. repeat split; assumption.
    + intros Hpure. rewrite Validate_rangeFields, rangeFields_accepts.
      * split.
        -- intros Hall name fn Hfn.
           assert (Hin : (name, ObjectSchema.fieldClosure name fn) ∈
                         order (map_to_list (ObjectSchema.fieldValidators (objectOf regs)))).
           { apply elem_of_order; [exact Hp|]. apply lookup_objectOf. eauto. }
           specialize (Hall _ _ Hin). unfold ObjectSchema.fieldClosure in Hall.
           fold (fieldInput value name) in Hall. rewrite Hinput in Hall.
           destruct (Hpure name fn Hfn) as [[e|] Hfnr]; rewrite Hfnr in Hall;
             [discriminate Hall | exact Hfnr].
        -- intros Hall n c Hin. apply elem_of_order in Hin; [|exact Hp].
           apply lookup_objectOf in Hin as (fn & Hfn & ->).
           unfold ObjectSchema.fieldClosure. fold (fieldInput value n).
           rewrite Hinput, (Hall n fn Hfn). reflexivity.
      * intros n c Hin. apply elem_of_order in Hin; [|exact Hp].
        apply lookup_objectOf in Hin as (fn & Hfn & ->).
        unfold ObjectSchema.fieldClosure. fold (fieldInput value n). rewrite Hinput.
        destruct (Hpure n fn Hfn) as [[e|] ->]; eauto.
Qed.

(** [Object[any]()] with the field ["name"], whose validator rejects
    everything but the nil interface, on the map [{"name": 5, "age": 3}]:
    the validator is called with the entry under ["name"] and its error
    comes back wrapped with the name. *)
Lemma Object_map_per_key_witness :
  exists st',
    ObjectSchema.Validate (fun l => l) (objectOf nameMustBeNil)
      (Go.anyMap (Some {[ "name" := Go.anyInt Go.Int 5; "age" := Go.anyInt Go.Int 3 ]})) tt =
    (Some (fieldError "name"
             (Go.fmt_Errorf "expected null value, got %T" [Go.ArgAny (Go.anyInt Go.Int 5)])),
     st').
Proof.
  refine (proj1 (proj2 (proj2 (proj2 (proj2 (proj2 (proj2
            (Object_map_per_key nameMustBeNil (fun l => l)
               (Go.anyMap (Some {[ "name" := Go.anyInt Go.Int 5;
                                   "age" := Go.anyInt Go.Int 3 ]}))
               (Some {[ "name" := Go.anyInt Go.Int 5; "age" := Go.anyInt Go.Int 3 ]})
               tt eq_refl))))) _))
            "name" (NullSchema.Validate NullSchema.Null)
            (Go.fmt_Errorf "expected null value, got %T" [Go.ArgAny (Go.anyInt Go.Int 5)])
            _ _ _).
  - intros l. reflexivity.
  - unfold fieldsOf, nameMustBeNil. simpl. apply lookup_insert_eq.
  - intros []. exists tt. simpl. rewrite lookup_insert_eq. reflexivity.
  - intros other otherFn Hne Hl. unfold fieldsOf, nameMustBeNil in Hl. simpl in Hl.
    rewrite lookup_insert_ne in Hl by (intros E; apply Hne; symmetry; exact E).
    rewrite lookup_empty in Hl. discriminate Hl.
Defined.

(** ** The JSON-Schema adapter: failures of the translation *)

Section AdapterFacts.
Context {St : Type} `{Go.Lib} (order : ObjectSchema.MapOrder St Go.any).

Lemma eqb_of_not_known (type : string) :
  ~ In type knownTypes ->
  String.eqb type "null" = false /\ String.eqb type "boolean" = false /\
  String.eqb type "array" = false /\ String.eqb type "string" = false /\
  String.eqb type "integer" = false /\ String.eqb type "number" = false /\
  String.eqb type "object" = false.
Proof.
  intros Hn. repeat split; apply String.eqb_neq; intros ->; apply Hn; simpl; tauto.
Qed.

(** The property loop yields a schema or an error. *)
Lemma rangeProperties_first_failure
    (parse : valtorjsonschema.JSONSchema -> bool -> option (Schema.t St Go.any) * option Go.error)
    (required : list string) pre key child post (err : Go.error)
    (objSchema : ObjectSchema.t St Go.any) :
  (forall k c, In (k, Some c) pre ->
     snd (parse c (valtorjsonschema.Contains required k)) = None) ->
  snd (parse child (valtorjsonschema.Contains required key)) = Some err ->
  valtorjsonschema.rangeProperties parse required (pre ++ (key, Some child) :: post) objSchema =
  inr (Go.fmt_Errorf "invalid schema for property %q: %w"
         [Go.ArgString key; Go.ArgError err]).
Proof.
  revert objSchema. induction pre as [|[k [c|]] pre IH]; simpl; intros objSchema Hpre Hchild.
  - destruct (parse child _) as [r [e|]]; simpl in Hchild; [|discriminate].
    injection Hchild as ->. reflexivity.
  - pose proof (Hpre k c (or_introl eq_refl)) as Hc.
    destruct (parse c _) as [r [e|]]; simpl in Hc; [discriminate|].
    apply IH; auto.
  - apply IH; auto.
Qed.

(** [parseJSONSchema] returns a schema and no error, or an error and no
    schema. *)
Lemma parseJSONSchema_shape (T : Type) `{Go.Type_ T}
    (schema : valtorjsonschema.JSONSchema) (required : bool) :
  (exists s, valtorjsonschema.parseJSONSchema order T schema required = (Some s, None)) \/
  (exists err, valtorjsonschema.parseJSONSchema order T schema required = (None, Some err)).
Proof.
  destruct schema as [type minLength maxLength pattern minimum maximum
                        items minItems maxItems uniqueItems properties requiredNames].
  simpl.
  repeat match goal with
         | |- context [if ?b then _ else _] => destruct b
         | |- context [match ?x with _ => _ end] => destruct x
         | |- _ => solve [left; eauto | right; eauto]
         end.
Qed.
End AdapterFacts.

Section AdapterErrors.
Context {St : Type} `{Go.Lib} (order : ObjectSchema.MapOrder St Go.any).

(** Whether the translation fails, and with which error, does not depend on
    the type [T] it is instantiated at. *)
Lemma parseJSONSchema_error_any (T : Type) `{Go.Type_ T}
    (schema : valtorjsonschema.JSONSchema) (required : bool) :
  snd (valtorjsonschema.parseJSONSchema order T schema required) =
  snd (valtorjsonschema.parseJSONSchema order Go.any schema required).
Proof.
  destruct schema as [type minLength maxLength pattern minimum maximum
                        items minItems maxItems uniqueItems properties requiredNames].
  simpl.
  repeat match goal with
         | |- context [if ?b then _ else _] => destruct b
         | |- context [match ?x with _ => _ end] => destruct x
         | |- _ => reflexivity
         end.
Qed.

(** One level of the recursion: the error of the callee comes back wrapped,
    with no schema. *)
Lemma calls_propagates (T : Type) `{Go.Type_ T}
    (s child : valtorjsonschema.JSONSchema) (required flag : bool) (err : Go.error) :
  calls order s child flag ->
  snd (valtorjsonschema.parseJSONSchema order Go.any child flag) = Some err ->
  exists err',
    valtorjsonschema.parseJSONSchema order T s required = (None, Some err') /\
    Go.Unwrap err' = Some err.
Proof.
  intros Hcall Herr. destruct Hcall as [s items Htype Hitems | s pre key child post Htype Hprops Hpre].
  - destruct s as [type minLength maxLength pattern minimum maximum
                     items' minItems maxItems uniqueItems properties requiredNames].
    simpl in Htype, Hitems. subst type items'. simpl.
    destruct (valtorjsonschema.parseJSONSchema order Go.any items false) as [r [e|]];
      simpl in Herr; [|discriminate].
    injection Herr as ->. eexists. split; reflexivity.
  - destruct s as [type minLength maxLength pattern minimum maximum
                     items' minItems maxItems uniqueItems properties requiredNames].
    simpl in Htype, Hprops, Hpre, Herr. subst type properties. simpl.
    rewrite (rangeProperties_first_failure _ requiredNames pre key child post err); auto.
    eexists. split; reflexivity.
Qed.

Lemma reaches_propagates (root node : valtorjsonschema.JSONSchema)
    (required flag : bool) (err : Go.error) :
  reaches order root required node flag ->
  snd (valtorjsonschema.parseJSONSchema order Go.any node flag) = Some err ->
  forall (T : Type) (G : Go.Type_ T),
  exists err',
    valtorjsonschema.parseJSONSchema order T root required = (None, Some err') /\
    Go.Is err' err.
Proof.
  induction 1 as [root required | root required child flag node flag' Hcall _ IH];
    intros Herr T G.
  - rewrite <- (parseJSONSchema_error_any T) in Herr.
    destruct (parseJSONSchema_shape order T root required) as [[s Hs]|[e He]].
    + rewrite Hs in Herr. discriminate.
    + rewrite He in Herr. injection Herr as ->. exists err. split; [exact He | constructor].
  - destruct (IH Herr Go.any _) as (err1 & Hchild & His).
    assert (Hsnd : snd (valtorjsonschema.parseJSONSchema order Go.any child flag) = Some err1)
      by (rewrite Hchild; reflexivity).
    destruct (calls_propagates T root child required flag err1 Hcall Hsnd) as (err' & Hroot & Hun).
    exists err'. split; [exact Hroot|]. econstructor; eauto.
Qed.
End AdapterErrors.

(** C8. The translation of a node fails with the sentinel [ErrInvalidType]
    when the type of the node is empty or not one of the seven known types;
    the translation of a string node fails with the pattern error, wrapping
    the error of the compiler, when its pattern does not compile; the
    translation of an integer or number node fails with the bounds error
    when its minimum, or else its maximum, cannot be read as a number.  A
    failing translation returns no schema.  The error of a node that the
    translation of the root gets to is the error of the root, wrapped once
    per level, and the root returns no schema. *)
Theorem parseJSONSchema_failures {St : Type} `{Go.Lib}
    (order : ObjectSchema.MapOrder St Go.any) (T : Type) `{Go.Type_ T} :
  (forall schema required,
      ~ In (valtorjsonschema.Type_ schema) knownTypes ->
      valtorjsonschema.parseJSONSchema order T schema required =
      (None, Some Go.ErrInvalidType)) /\
  (forall schema required err,
      valtorjsonschema.Type_ schema = "string" ->
      valtorjsonschema.Pattern schema <> EmptyString ->
      Go.regexp_Compile (valtorjsonschema.Pattern schema) = inr err ->
      valtorjsonschema.parseJSONSchema order T schema required =
      (None, Some (Go.fmt_Errorf "invalid pattern %q: %w"
                     [Go.ArgString (valtorjsonschema.Pattern schema); Go.ArgError err]))) /\
  (forall schema required err,
      valtorjsonschema.Type_ schema = "integer" ->
      valtorjsonschema.Minimum schema <> EmptyString ->
      snd (Go.Number_Float64 (valtorjsonschema.Minimum schema)) = Some err ->
      valtorjsonschema.parseJSONSchema order T schema required =
      (None, Some (Go.fmt_Errorf "invalid `minimum` value %q"
                     [Go.ArgString (valtorjsonschema.Minimum schema)]))) /\
  (forall schema required err,
      valtorjsonschema.Type_ schema = "integer" ->
      valtorjsonschema.Minimum schema = EmptyString \/
      snd (Go.Number_Float64 (valtorjsonschema.Minimum schema)) = None ->
      valtorjsonschema.Maximum schema <> EmptyString ->
      snd (Go.Number_Float64 (valtorjsonschema.Maximum schema)) = Some err ->
      valtorjsonschema.parseJSONSchema order T schema required =
      (None, Some (Go.fmt_Errorf "invalid `maximum` value %q"
                     [Go.ArgString (valtorjsonschema.Maximum schema)]))) /\
  (forall schema required err,
      valtorjsonschema.Type_ schema = "number" ->
      valtorjsonschema.Minimum schema <> EmptyString ->
      snd (Go.Number_Float64 (valtorjsonschema.Minimum schema)) = Some err ->
      valtorjsonschema.parseJSONSchema order T schema required =
      (None, Some (Go.fmt_Errorf "invalid `minimum` %q: %w"
                     [Go.ArgString (valtorjsonschema.Minimum schema); Go.ArgError err]))) /\
  (forall schema required err,
      valtorjsonschema.Type_ schema = "number" ->
      valtorjsonschema.Minimum schema = EmptyString \/
      snd (Go.Number_Float64 (valtorjsonschema.Minimum schema)) = None ->
      valtorjsonschema.Maximum schema <> EmptyString ->
      snd (Go.Number_Float64 (valtorjsonschema.Maximum schema)) = Some err ->
      valtorjsonschema.parseJSONSchema order T schema required =
      (None, Some (Go.fmt_Errorf "invalid `maximum` %q: %w"
                     [Go.ArgString (valtorjsonschema.Maximum schema); Go.ArgError err]))) /\
  (forall schema required r err,
      valtorjsonschema.parseJSONSchema order T schema required = (r, Some err) ->
      r = None) /\
  (forall root required node flag err,
      reaches order root required node flag ->
      snd (valtorjsonschema.parseJSONSchema order Go.any node flag) = Some err ->
      exists err',
        valtorjsonschema.parseJSONSchema order T root required = (None, Some err') /\
        Go.Is err' err).
Proof.
  repeat apply conj.
  - intros schema required Hn.
    destruct (eqb_of_not_known _ Hn) as (E1 & E2 & E3 & E4 & E5 & E6 & E7).
    destruct schema as [type minLength maxLength pattern minimum maximum
                          items minItems maxItems uniqueItems properties requiredNames].
    simpl in *. rewrite E1, E2, E3, E4, E5, E6, E7. reflexivity.
  - intros schema required err Htype Hpat Hcomp.
    destruct schema as [type minLength maxLength pattern minimum maximum
                          items minItems maxItems uniqueItems properties requiredNames].
    simpl in *. subst type. simpl.
    apply String_eqb_empty in Hpat. rewrite Hpat. simpl. rewrite Hcomp. reflexivity.
  - intros schema required err Htype Hmin Herr.
    destruct schema as [type minLength maxLength pattern minimum maximum
                          items minItems maxItems uniqueItems properties requiredNames].
    simpl in *. subst type. simpl.
    apply String_eqb_empty in Hmin. rewrite Hmin. simpl.
    destruct (Go.Number_Float64 minimum) as [f [e|]]; simpl in Herr; [reflexivity | discriminate].
  - intros schema required err Htype Hmin Hmax Herr.
    destruct schema as [type minLength maxLength pattern minimum maximum
                          items minItems maxItems uniqueItems properties requiredNames].
    simpl in *. subst type. simpl.
    apply String_eqb_empty in Hmax.
    destruct Hmin as [-> | Hmin]; simpl.
    + rewrite Hmax. simpl.
      destruct (Go.Number_Float64 maximum) as [f [e|]]; simpl in Herr; [reflexivity | discriminate].
    + destruct (negb (String.eqb minimum EmptyString));
        [destruct (Go.Number_Float64 minimum) as [g [e|]]; simpl in Hmin; [discriminate|] |];
        rewrite Hmax; simpl;
        destruct (Go.Number_Float64 maximum) as [f [e|]]; simpl in Herr;
        try discriminate; reflexivity.
  - intros schema required err Htype Hmin Herr.
    destruct schema as [type minLength maxLength pattern minimum maximum
                          items minItems maxItems uniqueItems properties requiredNames].
    simpl in *. subst type. simpl.
    apply String_eqb_empty in Hmin. rewrite Hmin. simpl.
    destruct (Go.Number_Float64 minimum) as [f [e|]]; simpl in Herr; [|discriminate].
    injection Herr as ->. reflexivity.
  - intros schema required err Htype Hmin Hmax Herr.
    destruct schema as [type minLength maxLength pattern minimum maximum
                          items minItems maxItems uniqueItems properties requiredNames].
    simpl in *. subst type. simpl.
    apply String_eqb_empty in Hmax.
    destruct Hmin as [-> | Hmin]; simpl.
    + rewrite Hmax. simpl.
      destruct (Go.Number_Float64 maximum) as [f [e|]]; simpl in Herr; [|discriminate].
      injection Herr as ->. reflexivity.
    + destruct (negb (String.eqb minimum EmptyString));
        [destruct (Go.Number_Float64 minimum) as [g [e|]]; simpl in Hmin; [discriminate|] |];
        rewrite Hmax; simpl;
        destruct (Go.Number_Float64 maximum) as [f [e|]]; simpl in Herr;
        try discriminate; injection Herr as ->; reflexivity.
  - intros schema required r err Hp.
    destruct (parseJSONSchema_shape order T schema required) as [[s Hs]|[e He]];
      rewrite Hp in *; congruence.
  - intros root required node flag err Hreach Herr.
    exact (reaches_propagates order root node required flag err Hreach Herr T _).
Qed.

(** An object node whose second property has the unknown type ["strin"]:
    the translation of the first property succeeds, the translation of the
    second fails with the sentinel, and so does the whole translation. *)
Lemma parseJSONSchema_failures_witness :
  exists err',
    valtorjsonschema.parseJSONSchema (St := unit) (H := exampleLib) (fun l => l) Go.any
      (objectNode [("a", Some (node "string")); ("b", Some (node "strin"))]) false
    = (None, Some err') /\
    Go.Is err' Go.ErrInvalidType.
Proof.
  refine (proj2 (proj2 (proj2 (proj2 (proj2 (proj2 (proj2
            (parseJSONSchema_failures (St := unit) (H := exampleLib) (fun l => l) Go.any)))))))
            (objectNode [("a", Some (node "string")); ("b", Some (node "strin"))]) false
            (node "strin") false Go.ErrInvalidType _ _).
  - eapply reaches_step; [|apply reaches_here].
    apply (calls_property (H := exampleLib) (fun l => l)
             (objectNode [("a", Some (node "string")); ("b", Some (node "strin"))])
             [("a", Some (node "string"))] "b" (node "strin") []).
    + reflexivity.
    + reflexivity.
    + intros k c [Hin|[]]. injection Hin as <- <-. reflexivity.
  - reflexivity.
Defined.

(** ** The examples of the package, evaluated on the embedding *)

(** [ExampleNumber]: [Number[int]().Min(18).Max(120)] on 25, 15 and 150. *)
Example ExampleNumber :
  let schema := NumberSchema.Max (NumberSchema.Min NumberSchema.Number 18%Z) 120%Z in
  NumberSchema.Validate schema 25%Z tt = (None, tt) /\
  option_map Go.Error (fst (NumberSchema.Validate schema 15%Z tt)) =
    Some (Some "value must be at least 18") /\
  option_map Go.Error (fst (NumberSchema.Validate schema 150%Z tt)) =
    Some (Some "value must be at most 120").
Proof. repeat split. Qed.

(** [ExampleNumberSchema_Required] and the required string. *)
Example ExampleRequired :
  option_map Go.Error
    (fst (NumberSchema.Validate (NumberSchema.Required NumberSchema.Number) 0%Z tt)) =
    Some (Some "value is required") /\
  option_map Go.Error
    (fst (StringSchema.Validate (StringSchema.Required StringSchema.String) EmptyString tt)) =
    Some (Some "value is required").
Proof. repeat split. Qed.

(** [ExampleNull]: nil passes, a string does not. *)
Example ExampleNull :
  NullSchema.Validate NullSchema.Null Go.anyNil tt = (None, tt) /\
  option_map Go.Error (fst (NullSchema.Validate NullSchema.Null (Go.anyString "hello") tt)) =
    Some (Some "expected null value, got string").
Proof. repeat split. Qed.

(** [ExampleObjectSchema_Map]: the nested schemas built with [Map]. *)
Example ExampleObjectSchema_Map :
  ObjectSchema.Validate (fun l => l) fooSchema (mkFoo "bar" (mkBaz "quo")) tt = (None, tt) /\
  option_map Go.Error
    (fst (ObjectSchema.Validate (fun l => l) fooSchema (mkFoo "bar" (mkBaz "quoquo")) tt)) =
    Some (Some ("validation failed for field " +:+ quoted "baz" +:+
                ": validation failed for field " +:+ quoted "quo" +:+
                ": length must be at most 5")).
Proof. split; vm_compute; reflexivity. Qed.

(** [UniqueItems] on integers: the first repeated element is reported by
    its index; [Items] reports the index of the first rejected item. *)
Example ExampleArray :
  ArraySchema.Validate (ArraySchema.UniqueItems ArraySchema.Array)
    (Some [1; 2; 3]%Z) tt = (None, tt) /\
  ArraySchema.Validate (ArraySchema.UniqueItems ArraySchema.Array)
    (Some [1; 2; 1; 2]%Z) tt =
    (Some (Go.fmt_Errorf "array items must be unique (duplicate found at index %d)"
             [Go.ArgInt 2]), tt) /\
  option_map Go.Error
    (fst (ArraySchema.Validate
            (ArraySchema.Items ArraySchema.Array
               (NumberSchema.Validate (NumberSchema.Min NumberSchema.Number 0%Z)))
            (Some [4; -1; -2]%Z) tt)) =
    Some (Some "invalid item at index 1: value must be at least 0").
Proof. repeat split; vm_compute; reflexivity. Qed.

(* ===================================================================== *)
(** * Further properties of the code                                      *)
(* ===================================================================== *)

(** ** The base schema: attaching more validators *)

Lemma range_fold_Custom {St T : Type} (fns : list (T -> St -> option Go.error * St))
    (s : Schema.t St T) (value : T) (st : St) :
  Schema.Validate (fold_left Schema.Custom fns s) value st =
  match Schema.Validate s value st with
  | (Some err, st') => (Some err, st')
  | (None, st') => Schema.range fns value st'
  end.
Proof.
  unfold Schema.Validate. rewrite validators_fold_Custom. apply range_app.
Qed.

(** X1. Attaching validators to a schema never changes what happens to a
    value the schema already rejects: the error and the state are the same,
    and none of the new validators runs.  A value the schema accepts is
    handed to the first new validator in the state the schema left. *)
Theorem Custom_extends {St T : Type} (s : Schema.t St T)
    (fn : T -> St -> option Go.error * St) (fns : list (T -> St -> option Go.error * St))
    (value : T) (st st' : St) :
  (forall err,
      Schema.Validate s value st = (Some err, st') ->
      Schema.Validate (fold_left Schema.Custom (fn :: fns) s) value st = (Some err, st')) /\
  (Schema.Validate s value st = (None, st') ->
   Schema.Validate (Schema.Custom s fn) value st = fn value st').
Proof.
  split.
  - intros err Hs. rewrite range_fold_Custom, Hs. reflexivity.
  - intros Hs. change (Schema.Custom s fn) with (fold_left Schema.Custom [fn] s).
    rewrite range_fold_Custom, Hs. simpl. destruct (fn value st') as [[e|] st2]; reflexivity.
Qed.

(** A schema that rejects after one call is extended by two validators that
    would count their calls: the counter still shows one call. *)
Lemma Custom_extends_witness :
  Schema.Validate
    (fold_left Schema.Custom [countAndPass; countAndPass]
       (attachAll [countAndFail (Go.errors_New "first")])) 7%Z 0 =
  (Some (Go.errors_New "first"), 1).
Proof.
  refine (proj1 (Custom_extends (attachAll [countAndFail (Go.errors_New "first")])
                   countAndPass [countAndPass] 7%Z 0 1) (Go.errors_New "first") _).
  reflexivity.
Defined.

(** ** Chains of constraint builders accept exactly what every call admits *)

Section Chains.
Context {St : Type}.

Lemma stateless_nil {T : Type} : stateless (St := St) (T := T) [].
Proof. intros value st. exists None. reflexivity. Qed.

Lemma stateless_check {T : Type} (fs : list (T -> St -> option Go.error * St))
    (p : T -> option Go.error) :
  stateless fs -> stateless (fs ++ [Schema.check p]).
Proof.
  intros Hfs value st. rewrite range_app. destruct (Hfs value st) as [[err|] ->]; [eauto|].
  simpl. unfold Schema.check. destruct (p value); eauto.
Qed.

(** One more stateless check: accepted when the validators before accept
    and the check does. *)
Lemma range_check_accepts {T : Type} (fs : list (T -> St -> option Go.error * St))
    (p : T -> option Go.error) (value : T) (st : St) :
  stateless fs ->
  Schema.range (fs ++ [Schema.check p]) value st = (None, st) <->
  Schema.range fs value st = (None, st) /\ p value = None.
Proof.
  intros Hfs. rewrite range_app. destruct (Hfs value st) as [[err|] ->].
  - split; [discriminate | intros [E _]; discriminate E].
  - simpl. unfold Schema.check. destruct (p value); split; try discriminate; auto.
    intros [_ E]. discriminate E.
Qed.

(** What a call of a string builder does to the schema. *)
Lemma applyStringCall_cases `{Go.Lib} (c : StringCall) (s : StringSchema.t St) :
  (c = SRequired /\
   StringSchema.Schema (applyStringCall s c) = StringSchema.Schema s /\
   StringSchema.required (applyStringCall s c) = true) \/
  (c <> SRequired /\
   StringSchema.required (applyStringCall s c) = StringSchema.required s /\
   exists p,
     Schema.validators (StringSchema.Schema (applyStringCall s c)) =
       Schema.validators (StringSchema.Schema s) ++ [Schema.check p] /\
     forall v, p v = None <-> admitsString c v).
Proof.
  destruct c as [min|max|length|re|]; [right|right|right|right|left; repeat split];
    (split; [discriminate|]; split; [reflexivity|];
     eexists; split; [reflexivity|]; intros v; simpl).
  - destruct (Z.ltb_spec (Z.of_nat (String.length v)) min); split; intros E;
      try discriminate; try reflexivity; lia.
  - destruct (Z.ltb_spec max (Z.of_nat (String.length v))); split; intros E;
      try discriminate; try reflexivity; lia.
  - destruct (Z.eqb_spec (Z.of_nat (String.length v)) length); simpl; split; intros E;
      try discriminate; try reflexivity; try assumption; contradiction.
  - destruct (Go.MatchString re v); simpl; split; intros E;
      try discriminate; reflexivity.
Qed.

Lemma stringOf_accepts `{Go.Lib} (cs : list StringCall) (s : StringSchema.t St) :
  stateless (Schema.validators (StringSchema.Schema s)) ->
  stateless (Schema.validators (StringSchema.Schema (fold_left applyStringCall cs s))) /\
  (StringSchema.required (fold_left applyStringCall cs s) = true <->
   StringSchema.required s = true \/ In SRequired cs) /\
  (forall v st,
      Schema.range (Schema.validators (StringSchema.Schema (fold_left applyStringCall cs s))) v st
        = (None, st) <->
      Schema.range (Schema.validators (StringSchema.Schema s)) v st = (None, st) /\
      (forall c, In c cs -> c <> SRequired -> admitsString c v)).
Proof.
  revert s. induction cs as [|c cs IH]; intros s Hs; simpl.
  - split; [exact Hs|]. split; [tauto|]. intros v st.
    split; [intros E; split; [exact E | intros c []] | tauto].
  - destruct (applyStringCall_cases c s) as [(-> & Hsch & Hr) | (Hc & Hr & p & Hv & Hp)].
    + assert (Hstep : stateless (Schema.validators
                                   (StringSchema.Schema (applyStringCall s SRequired))))
        by (rewrite Hsch; exact Hs).
      destruct (IH _ Hstep) as (Hpure & Hreq & Hacc).
      split; [exact Hpure|]. split; [rewrite Hreq, Hr; tauto|].
      intros v st. rewrite Hacc, Hsch. split.
      * intros [E Hall]. split; [exact E|]. intros c [<-|Hin] Hn; [contradiction | auto].
      * intros [E Hall]. split; [exact E|]. intros c Hin Hn. apply Hall; auto.
    + assert (Hstep : stateless (Schema.validators
                                   (StringSchema.Schema (applyStringCall s c))))
        by (rewrite Hv; apply stateless_check; exact Hs).
      destruct (IH _ Hstep) as (Hpure & Hreq & Hacc).
      split; [exact Hpure|]. split.
      * rewrite Hreq, Hr. split; [tauto|]. intros [E|[E|E]]; auto; congruence.
      * intros v st. rewrite Hacc, Hv, (range_check_accepts _ _ _ _ Hs), Hp. split.
        -- intros [[E Ec] Hall]. split; [exact E|]. intros c' [<-|Hin] Hn; auto.
        -- intros [E Hall]. split; [split; [exact E | apply Hall; auto] |].
           intros c' Hin Hn. apply Hall; auto.
Qed.

End Chains.

(** X2. A string schema built by [String()] and any chain of [Min], [Max],
    [Length], [Regexp] and [Required] calls accepts a string exactly when
    every call of the chain admits it: the length is at least every [Min]
    bound, at most every [Max] bound, equal to every [Length] bound, every
    pattern matches, and the string is not empty if [Required] was called
    anywhere in the chain.  Validation leaves the state as it was. *)
Theorem String_chain_accepts {St : Type} `{Go.Lib}
    (cs : list StringCall) (v : string) (st : St) :
  (exists r, StringSchema.Validate (stringOf cs) v st = (r, st)) /\
  (StringSchema.Validate (stringOf cs) v st = (None, st) <->
   forall c, In c cs -> admitsString c v).
Proof.
  destruct (stringOf_accepts (St := St) cs StringSchema.String stateless_nil)
    as (Hpure & Hreq & Hacc).
  fold (stringOf (St := St) cs) in Hpure, Hreq, Hacc.
  unfold StringSchema.Validate. split.
  - destruct (String.eqb v EmptyString && StringSchema.required (stringOf cs)); [eauto|].
    apply Hpure.
  - destruct (String.eqb_spec v EmptyString) as [Hv|Hv]; simpl.
    + destruct (StringSchema.required (stringOf cs)) eqn:Hr.
      * split; [discriminate|]. intros Hall.
        destruct (proj1 Hreq eq_refl) as [Hr'|Hr']; [discriminate Hr'|].
        destruct (Hall _ Hr' Hv).
      * unfold Schema.Validate. rewrite Hacc. split.
        -- intros [_ Hall] c Hin.
           destruct c; try (apply Hall; [exact Hin | discriminate]).
           discriminate (proj2 Hreq (or_intror Hin)).
        -- intros Hall. split; [reflexivity|]. intros c Hin _. apply Hall; exact Hin.
    + unfold Schema.Validate. rewrite Hacc. split.
      * intros [_ Hall] c Hin.
        destruct c; try (apply Hall; [exact Hin | discriminate]). exact Hv.
      * intros Hall. split; [reflexivity|]. intros c Hin _. apply Hall; exact Hin.
Qed.

(** [String().Min(2).Required().Max(5)] accepts ["abc"]. *)
Lemma String_chain_accepts_witness :
  StringSchema.Validate (stringOf (H := exampleLib) [SMin 2; SRequired; SMax 5]) "abc" tt
  = (None, tt).
Proof.
  refine (proj2 (proj2 (String_chain_accepts (H := exampleLib)
                          [SMin 2; SRequired; SMax 5] "abc" tt)) _).
  intros c [<-|[<-|[<-|[]]]]; simpl; [lia | discriminate | lia].
Defined.

Section NumberChains.
Context {St T : Type} `{Numeric T}.

Lemma applyNumberCall_cases (c : NumberCall T) (s : NumberSchema.t St T) :
  (c = NRequired /\
   NumberSchema.Schema (applyNumberCall s c) = NumberSchema.Schema s /\
   NumberSchema.required (applyNumberCall s c) = true) \/
  (c <> NRequired /\
   NumberSchema.required (applyNumberCall s c) = NumberSchema.required s /\
   exists p,
     Schema.validators (NumberSchema.Schema (applyNumberCall s c)) =
       Schema.validators (NumberSchema.Schema s) ++ [Schema.check p] /\
     forall v, p v = None <-> admitsNumber c v).
Proof.
  destruct c as [min|max|]; [right|right|left; repeat split];
    (split; [discriminate|]; split; [reflexivity|];
     eexists; split; [reflexivity|]; intros v; simpl).
  - destruct (num_ltb v min); split; intros E; try discriminate; reflexivity.
  - destruct (num_ltb max v); split; intros E; try discriminate; reflexivity.
Qed.

Lemma numberOf_accepts (cs : list (NumberCall T)) (s : NumberSchema.t St T) :
  stateless (Schema.validators (NumberSchema.Schema s)) ->
  stateless (Schema.validators (NumberSchema.Schema (fold_left applyNumberCall cs s))) /\
  (NumberSchema.required (fold_left applyNumberCall cs s) = true <->
   NumberSchema.required s = true \/ In NRequired cs) /\
  (forall v st,
      Schema.range (Schema.validators (NumberSchema.Schema (fold_left applyNumberCall cs s))) v st
        = (None, st) <->
      Schema.range (Schema.validators (NumberSchema.Schema s)) v st = (None, st) /\
      (forall c, In c cs -> c <> NRequired -> admitsNumber c v)).
Proof.
  revert s. induction cs as [|c cs IH]; intros s Hs; simpl.
  - split; [exact Hs|]. split; [tauto|]. intros v st.
    split; [intros E; split; [exact E | intros c []] | tauto].
  - destruct (applyNumberCall_cases c s) as [(-> & Hsch & Hr) | (Hc & Hr & p & Hv & Hp)].
    + assert (Hstep : stateless (Schema.validators
                                   (NumberSchema.Schema (applyNumberCall s NRequired))))
        by (rewrite Hsch; exact Hs).
      destruct (IH _ Hstep) as (Hpure & Hreq & Hacc).
      split; [exact Hpure|]. split; [rewrite Hreq, Hr; tauto|].
      intros v st. rewrite Hacc, Hsch. split.
      * intros [E Hall]. split; [exact E|]. intros c [<-|Hin] Hn; [contradiction | auto].
      * intros [E Hall]. split; [exact E|]. intros c Hin Hn. apply Hall; auto.
    + assert (Hstep : stateless (Schema.validators
                                   (NumberSchema.Schema (applyNumberCall s c))))
        by (rewrite Hv; apply stateless_check; exact Hs).
      destruct (IH _ Hstep) as (Hpure & Hreq & Hacc).
      split; [exact Hpure|]. split.
      * rewrite Hreq, Hr. split; [tauto|]. intros [E|[E|E]]; auto; congruence.
      * intros v st. rewrite Hacc, Hv, (range_check_accepts _ _ _ _ Hs), Hp. split.
        -- intros [[E Ec] Hall]. split; [exact E|]. intros c' [<-|Hin] Hn; auto.
        -- intros [E Hall]. split; [split; [exact E | apply Hall; auto] |].
           intros c' Hin Hn. apply Hall; auto.
Qed.
End NumberChains.

(** X3. A number schema built by [Number[T]()] and any chain of [Min],
    [Max] and [Required] calls accepts a value exactly when the value is
    not below any [Min] bound, not above any [Max] bound and, if
    [Required] was called anywhere in the chain, not equal to zero; over an
    integer type, exactly when it lies between every [Min] and every [Max]
    bound and is not zero under [Required].  Validation leaves the state as
    it was. *)
Theorem Number_chain_accepts {St : Type} :
  (forall (T : Type) (N : Numeric T) (cs : list (NumberCall T)) (v : T) (st : St),
      (exists r, NumberSchema.Validate (numberOf cs) v st = (r, st)) /\
      (NumberSchema.Validate (numberOf cs) v st = (None, st) <->
       forall c, In c cs -> admitsNumber c v)) /\
  (forall (cs : list (NumberCall Z)) (v : Z) (st : St),
      NumberSchema.Validate (numberOf cs) v st = (None, st) <->
      (forall min, In (NMin min) cs -> (min <= v)%Z) /\
      (forall max, In (NMax max) cs -> (v <= max)%Z) /\
      (In NRequired cs -> v <> 0%Z)).
Proof.
  assert (Hgen : forall (T : Type) (N : Numeric T) (cs : list (NumberCall T)) (v : T) (st : St),
      (exists r, NumberSchema.Validate (numberOf cs) v st = (r, st)) /\
      (NumberSchema.Validate (numberOf cs) v st = (None, st) <->
       forall c, In c cs -> admitsNumber c v)).
  { intros T N cs v st.
    destruct (numberOf_accepts (St := St) cs NumberSchema.Number stateless_nil)
      as (Hpure & Hreq & Hacc).
    fold (numberOf (St := St) cs) in Hpure, Hreq, Hacc.
    unfold NumberSchema.Validate. split.
    - destruct (num_eqb v num_zero && NumberSchema.required (numberOf cs)); [eauto|].
      apply Hpure.
    - destruct (num_eqb v num_zero) eqn:Hv; simpl.
      + destruct (NumberSchema.required (numberOf cs)) eqn:Hr.
        * split; [discriminate|]. intros Hall.
          destruct (proj1 Hreq eq_refl) as [Hr'|Hr']; [discriminate Hr'|].
          specialize (Hall _ Hr'). simpl in Hall. congruence.
        * unfold Schema.Validate. rewrite Hacc. split.
          -- intros [_ Hall] c Hin.
             destruct c; try (apply Hall; [exact Hin | discriminate]).
             discriminate (proj2 Hreq (or_intror Hin)).
          -- intros Hall. split; [reflexivity|]. intros c Hin _. apply Hall; exact Hin.
      + unfold Schema.Validate. rewrite Hacc. split.
        * intros [_ Hall] c Hin.
          destruct c; try (apply Hall; [exact Hin | discriminate]). exact Hv.
        * intros Hall. split; [reflexivity|]. intros c Hin _. apply Hall; exact Hin. }
  split; [exact Hgen|].
  intros cs v st. rewrite (proj2 (Hgen Z _ cs v st)). split.
  - intros Hall. repeat split.
    + intros min Hin. specialize (Hall _ Hin). simpl in Hall. lia.
    + intros max Hin. specialize (Hall _ Hin). simpl in Hall. lia.
    + intros Hin. specialize (Hall _ Hin). simpl in Hall. lia.
  - intros (Hmin & Hmax & Hreq) [min|max|] Hin; simpl.
    + specialize (Hmin _ Hin). lia.
    + specialize (Hmax _ Hin). lia.
    + specialize (Hreq Hin). lia.
Qed.

(** [Number[int]().Min(1).Max(9).Min(3)] accepts 5. *)
Lemma Number_chain_accepts_witness :
  NumberSchema.Validate (numberOf [NMin 1%Z; NMax 9%Z; NMin 3%Z]) 5%Z tt = (None, tt).
Proof.
  refine (proj2 (proj2 Number_chain_accepts [NMin 1%Z; NMax 9%Z; NMin 3%Z] 5%Z tt) _).
  repeat split.
  - intros min [E|[E|[E|[]]]]; inversion E; lia.
  - intros max [E|[E|[E|[]]]]; inversion E; lia.
  - intros [E|[E|[E|[]]]]; discriminate E.
Defined.

Section BoolChains.
Context {St : Type}.

Lemma boolOf_accepts (cs : list BoolCall) (s : BoolSchema.t St) :
  stateless (Schema.validators (BoolSchema.Schema s)) ->
  stateless (Schema.validators (BoolSchema.Schema (fold_left applyBoolCall cs s))) /\
  (forall v st,
      Schema.range (Schema.validators (BoolSchema.Schema (fold_left applyBoolCall cs s))) v st
        = (None, st) <->
      Schema.range (Schema.validators (BoolSchema.Schema s)) v st = (None, st) /\
      (forall c, In c cs -> admitsBool c v)).
Proof.
  revert s. induction cs as [|c cs IH]; intros s Hs; simpl.
  - split; [exact Hs|]. intros v st.
    split; [intros E; split; [exact E | intros c []] | tauto].
  - assert (Hc : exists p,
               Schema.validators (BoolSchema.Schema (applyBoolCall s c)) =
                 Schema.validators (BoolSchema.Schema s) ++ [Schema.check p] /\
               forall v, p v = None <-> admitsBool c v).
    { destruct c; eexists; (split; [reflexivity|]); intros [|]; simpl;
        split; intros E; try discriminate; reflexivity. }
    destruct Hc as (p & Hv & Hp).
    assert (Hstep : stateless (Schema.validators (BoolSchema.Schema (applyBoolCall s c))))
      by (rewrite Hv; apply stateless_check; exact Hs).
    destruct (IH _ Hstep) as (Hpure & Hacc). split; [exact Hpure|].
    intros v st. rewrite Hacc, Hv, (range_check_accepts _ _ _ _ Hs), Hp. split.
    + intros [[E Ec] Hall]. split; [exact E|]. intros c' [<-|Hin]; auto.
    + intros [E Hall]. split; [split; [exact E | apply Hall; auto] |].
      intros c' Hin. apply Hall; auto.
Qed.
End BoolChains.

(** X4. A boolean schema built by [Bool()] and any chain of [MustBeTrue]
    and [MustBeFalse] calls accepts a value exactly when every call admits
    it; so a chain that holds both calls rejects [true] and rejects
    [false]. *)
Theorem Bool_chain_accepts {St : Type} (cs : list BoolCall) (v : bool) (st : St) :
  (BoolSchema.Validate (boolOf cs) v st = (None, st) <->
   forall c, In c cs -> admitsBool c v) /\
  (In BMustBeTrue cs -> In BMustBeFalse cs ->
   exists err, BoolSchema.Validate (boolOf cs) v st = (Some err, st)).
Proof.
  destruct (boolOf_accepts (St := St) cs BoolSchema.Bool stateless_nil) as (Hpure & Hacc).
  fold (boolOf (St := St) cs) in Hpure, Hacc.
  assert (Hiff : BoolSchema.Validate (boolOf cs) v st = (None, st) <->
                 forall c, In c cs -> admitsBool c v).
  { unfold BoolSchema.Validate, Schema.Validate. rewrite Hacc. split.
    - intros [_ Hall]. exact Hall.
    - intros Hall. split; [reflexivity | exact Hall]. }
  split; [exact Hiff|]. intros Ht Hf.
  destruct (Hpure v st) as [[err|] Hr].
  - exists err. exact Hr.
  - exfalso. pose proof (proj1 Hiff Hr) as Hall.
    pose proof (Hall _ Ht) as E1. pose proof (Hall _ Hf) as E2. simpl in E1, E2. congruence.
Qed.

(** [Bool().MustBeFalse().MustBeTrue()] rejects [true]. *)
Lemma Bool_chain_accepts_witness :
  exists err,
    BoolSchema.Validate (boolOf [BMustBeFalse; BMustBeTrue]) true tt = (Some err, tt).
Proof.
  refine (proj2 (Bool_chain_accepts [BMustBeFalse; BMustBeTrue] true tt) _ _);
    simpl; auto.
Defined.

(** ** Pointer schemas: delegation and nil *)

Lemma Pointer_fold_Custom {St T : Type}
    (customs : list (option T -> St -> option Go.error * St)) (s : PointerSchema.t St T) :
  Schema.validators (PointerSchema.Schema (fold_left PointerSchema.Custom customs s)) =
    Schema.validators (PointerSchema.Schema s) ++ customs /\
  PointerSchema.required (fold_left PointerSchema.Custom customs s) = PointerSchema.required s.
Proof.
  revert s. induction customs as [|fn customs IH]; intros s; simpl.
  - split; [symmetry; apply app_nil_r | reflexivity].
  - destruct (IH (PointerSchema.Custom s fn)) as [Hv Hr]. rewrite Hv, Hr. simpl.
    rewrite <- app_assoc. split; reflexivity.
Qed.

(** X5. [Ptr(inner)] hands the value a pointer points to to [inner], and
    its verdict is the verdict of [inner]; validators attached to the
    pointer schema afterwards run only when [inner] accepts.  On a nil
    pointer [inner] is not called, but the validators attached afterwards
    are, with nil, unless the schema is required: then the nil pointer is
    rejected with [ErrValueRequired] and nothing runs.  [Required] (or
    [NotNil]) changes nothing for a pointer that is not nil. *)
Theorem Ptr_delegates {St T : Type} (inner : T -> St -> option Go.error * St)
    (customs : list (option T -> St -> option Go.error * St)) (st : St) :
  let schema := fold_left PointerSchema.Custom customs (PointerSchema.Ptr inner) in
  (forall v,
      PointerSchema.Validate schema (Some v) st =
      match inner v st with
      | (Some err, st') => (Some err, st')
      | (None, st') => Schema.range customs (Some v) st'
      end) /\
  PointerSchema.Validate schema None st = Schema.range customs None st /\
  PointerSchema.Validate (PointerSchema.Required schema) None st
    = (Some Go.ErrValueRequired, st) /\
  (forall v,
      PointerSchema.Validate (PointerSchema.NotNil schema) (Some v) st =
      PointerSchema.Validate schema (Some v) st).
Proof.
  intros schema. destruct (Pointer_fold_Custom customs (PointerSchema.Ptr inner)) as [Hv Hr].
  fold schema in Hv, Hr. simpl in Hv, Hr.
  repeat split.
  - intros v. unfold PointerSchema.Validate, Schema.Validate. rewrite Hv. simpl.
    destruct (inner v st) as [[err|] st']; reflexivity.
  - unfold PointerSchema.Validate, Schema.Validate. rewrite Hr, Hv. reflexivity.
Qed.

(** ** Array schemas: items and uniqueness *)

Section ItemFacts.
Context {St T : Type}.

Lemma rangeItems_first_invalid (validator : T -> St -> option Go.error * St)
    (pre : list T) (x : T) (post : list T) (i : Z) (st st1 st2 : St) (err : Go.error) :
  passesItems validator pre st st1 ->
  validator x st1 = (Some err, st2) ->
  ArraySchema.rangeItems validator i (pre ++ x :: post) st =
  (Some (Go.fmt_Errorf "invalid item at index %d: %w"
           [Go.ArgInt (i + Z.of_nat (length pre)); Go.ArgError err]), st2).
Proof.
  intros Hpre Hx. revert i. induction Hpre as [st|item items st sa sb Hitem _ IH]; intros i; simpl.
  - rewrite Hx. rewrite Z.add_0_r. reflexivity.
  - rewrite Hitem. rewrite IH by exact Hx.
    replace (i + 1 + Z.of_nat (length items))%Z
      with (i + Z.of_nat (length (item :: items)))%Z by (simpl length; lia).
    reflexivity.
Qed.

Lemma rangeItems_passes (validator : T -> St -> option Go.error * St)
    (items : list T) (i : Z) (st st' : St) :
  passesItems validator items st st' <->
  ArraySchema.rangeItems validator i items st = (None, st').
Proof.
  split.
  - intros Hp. revert i. induction Hp as [st|item items st sa sb Hitem _ IH]; intros i; simpl.
    + reflexivity.
    + rewrite Hitem. apply IH.
  - revert i st. induction items as [|item items IH]; intros i st; simpl.
    + intros [= <-]. constructor.
    + destruct (validator item st) as [[err|] sa] eqn:Hitem; [discriminate|].
      intros Hr. econstructor; eauto.
Qed.
End ItemFacts.

(** X6. [Array().Items(validator)] calls the validator on the items in
    order and stops at the first item it rejects: the error is [invalid item
    at index i: err], where [i] is the index of that item and [err] its
    error, wrapped; the items after it are not looked at.  The array is
    accepted exactly when the validator accepts every item. *)
Theorem Items_first_invalid {St T : Type} (validator : T -> St -> option Go.error * St)
    (items : list T) (st : St) :
  (forall pre x post st1 st2 err,
      items = pre ++ x :: post ->
      passesItems validator pre st st1 ->
      validator x st1 = (Some err, st2) ->
      ArraySchema.Validate (ArraySchema.Items ArraySchema.Array validator) (Some items) st =
      (Some (Go.fmt_Errorf "invalid item at index %d: %w"
               [Go.ArgInt (Z.of_nat (length pre)); Go.ArgError err]), st2) /\
      Go.Unwrap (Go.fmt_Errorf "invalid item at index %d: %w"
                   [Go.ArgInt (Z.of_nat (length pre)); Go.ArgError err]) = Some err) /\
  (forall st',
      passesItems validator items st st' <->
      ArraySchema.Validate (ArraySchema.Items ArraySchema.Array validator) (Some items) st =
      (None, st')).
Proof.
  split.
  - intros pre x post st1 st2 err -> Hpre Hx. split; [|reflexivity].
    unfold ArraySchema.Validate, Schema.Validate. simpl.
    rewrite (rangeItems_first_invalid validator pre x post 0 st st1 st2 err Hpre Hx).
    reflexivity.
  - intros st'. unfold ArraySchema.Validate, Schema.Validate. simpl.
    rewrite (rangeItems_passes validator items 0 st st'). split.
    + intros ->. reflexivity.
    + destruct (ArraySchema.rangeItems validator 0 items st) as [[err|] sa];
        [discriminate | intros [= <-]; reflexivity].
Qed.

(** Three integers, the validator counts its calls and accepts only what is
    not negative: the item at index 1 is rejected after two calls. *)
Lemma Items_first_invalid_witness :
  ArraySchema.Validate
    (ArraySchema.Items ArraySchema.Array
       (fun (item : Z) (n : nat) =>
          (if (item <? 0)%Z then Some (Go.errors_New "negative") else None, S n)))
    (Some [4; -1; -2]%Z) 0 =
  (Some (Go.fmt_Errorf "invalid item at index %d: %w"
           [Go.ArgInt 1; Go.ArgError (Go.errors_New "negative")]), 2).
Proof.
  refine (proj1 (proj1 (Items_first_invalid _ [4; -1; -2]%Z 0)
                   [4%Z] (-1)%Z [(-2)%Z] 1 2 (Go.errors_New "negative") _ _ _)).
  - reflexivity.
  - econstructor; [reflexivity | constructor].
  - reflexivity.
Defined.

Section UniqueFacts.
Context {T : Type} `{Marshal T}.

Lemma marshals_cons (item : T) (items : list T) :
  marshals (item :: items) ->
  snd (json_Marshal item) = None /\ marshals items.
Proof.
  intros Hm. split; [apply Hm; left; reflexivity|].
  intros x Hx. apply Hm. right. exact Hx.
Qed.

(** The loop accepts exactly when the keys are pairwise different and none
    was seen before. *)
Lemma rangeUnique_accepts (items : list T) (i : Z) (seen : gset string) :
  marshals items ->
  ArraySchema.rangeUnique i items seen = None <->
  List.NoDup (keysOf items) /\ (forall k, In k (keysOf items) -> k ∉ seen).
Proof.
  revert i seen. induction items as [|item items IH]; intros i seen Hm; simpl.
  - split; [intros _; split; [constructor | intros k []] | reflexivity].
  - apply marshals_cons in Hm as [Hitem Hm].
    destruct (json_Marshal item) as [k e] eqn:Hk. simpl in Hitem. subst e. simpl.
    destruct (decide (k ∈ seen)) as [Hin|Hnin].
    + split; [discriminate|]. intros [_ Hall]. exfalso. apply (Hall k); [left; reflexivity | exact Hin].
    + rewrite (IH (i + 1)%Z ({[k]} ∪ seen) Hm). rewrite List.NoDup_cons_iff. split.
      * intros [Hnd Hall]. split; [split; [|exact Hnd]|].
        -- intros Hk'. apply (Hall k Hk'). apply elem_of_union. left.
           apply elem_of_singleton. reflexivity.
        -- intros k' [<-|Hk']; [exact Hnin|]. intros Hs. apply (Hall k' Hk').
           apply elem_of_union. right. exact Hs.
      * intros [[Hnk Hnd] Hall]. split; [exact Hnd|].
        intros k' Hk' Hs. apply elem_of_union in Hs as [Hs|Hs].
        -- apply elem_of_singleton in Hs. subst k'. contradiction.
        -- apply (Hall k'); [right; exact Hk' | exact Hs].
Qed.

(** The loop stops at the first item whose key was seen, among the items
    before it or earlier. *)
Lemma rangeUnique_first_duplicate (pre : list T) (x : T) (post : list T)
    (i : Z) (seen : gset string) :
  marshals (pre ++ [x]) ->
  List.NoDup (keysOf pre) ->
  (forall k, In k (keysOf pre) -> k ∉ seen) ->
  In (fst (json_Marshal x)) (keysOf pre) \/ fst (json_Marshal x) ∈ seen ->
  ArraySchema.rangeUnique i (pre ++ x :: post) seen =
  Some (Go.fmt_Errorf "array items must be unique (duplicate found at index %d)"
          [Go.ArgInt (i + Z.of_nat (length pre))]).
Proof.
  revert i seen. induction pre as [|item pre IH]; intros i seen Hm Hnd Hseen Hdup; simpl.
  - pose proof (Hm x (or_introl eq_refl)) as Hx.
    destruct (json_Marshal x) as [k e]. simpl in Hx, Hdup. subst e.
    destruct Hdup as [[]|Hin]. rewrite decide_True by exact Hin.
    rewrite Z.add_0_r. reflexivity.
  - simpl in Hm. apply marshals_cons in Hm as [Hitem Hm].
    destruct (json_Marshal item) as [k e] eqn:Hk. simpl in Hitem. subst e. simpl.
    simpl in Hnd, Hseen, Hdup. rewrite Hk in Hnd, Hseen, Hdup. simpl in Hnd, Hseen, Hdup.
    apply List.NoDup_cons_iff in Hnd as [Hnk Hnd].
    rewrite decide_False by (apply Hseen; left; reflexivity).
    rewrite (IH (i + 1)%Z ({[k]} ∪ seen) Hm Hnd).
    + replace (i + 1 + Z.of_nat (length pre))%Z
        with (i + Z.of_nat (S (length pre)))%Z by lia. reflexivity.
    + intros k' Hk' Hs. apply elem_of_union in Hs as [Hs|Hs].
      * apply elem_of_singleton in Hs. subst k'. contradiction.
      * apply (Hseen k'); [right; exact Hk' | exact Hs].
    + destruct Hdup as [[E|Hin]|Hin].
      * right. apply elem_of_union. left. apply elem_of_singleton. symmetry. exact E.
      * left. exact Hin.
      * right. apply elem_of_union. right. exact Hin.
Qed.

(** The loop stops at the first item that cannot be marshalled, when the
    items before it had different keys. *)
Lemma rangeUnique_marshal_error (pre : list T) (x : T) (post : list T)
    (i : Z) (seen : gset string) (err : Go.error) :
  marshals pre ->
  List.NoDup (keysOf pre) ->
  (forall k, In k (keysOf pre) -> k ∉ seen) ->
  snd (json_Marshal x) = Some err ->
  ArraySchema.rangeUnique i (pre ++ x :: post) seen =
  Some (Go.fmt_Errorf "failed to marshal array item for uniqueness check at index %d: %w"
          [Go.ArgInt (i + Z.of_nat (length pre)); Go.ArgError err]).
Proof.
  revert i seen. induction pre as [|item pre IH]; intros i seen Hm Hnd Hseen Hx; simpl.
  - destruct (json_Marshal x) as [k e]. simpl in Hx. subst e.
    rewrite Z.add_0_r. reflexivity.
  - apply marshals_cons in Hm as [Hitem Hm].
    destruct (json_Marshal item) as [k e] eqn:Hk. simpl in Hitem. subst e. simpl.
    simpl in Hnd, Hseen. rewrite Hk in Hnd, Hseen. simpl in Hnd, Hseen.
    apply List.NoDup_cons_iff in Hnd as [Hnk Hnd].
    rewrite decide_False by (apply Hseen; left; reflexivity).
    rewrite (IH (i + 1)%Z ({[k]} ∪ seen) Hm Hnd).
    + replace (i + 1 + Z.of_nat (length pre))%Z
        with (i + Z.of_nat (S (length pre)))%Z by lia. reflexivity.
    + intros k' Hk' Hs. apply elem_of_union in Hs as [Hs|Hs].
      * apply elem_of_singleton in Hs. subst k'. contradiction.
      * apply (Hseen k'); [right; exact Hk' | exact Hs].
    + exact Hx.
Qed.
End UniqueFacts.

(** X7. [Array().UniqueItems()] compares the items by their JSON
    encodings.  When every item can be marshalled, the array is accepted
    exactly when the encodings are pairwise different; otherwise the error
    names the index of the first item whose encoding is that of an earlier
    item.  When an item cannot be marshalled and the items before it have
    different encodings, the error names its index and wraps the error of
    [json.Marshal].  No state is touched. *)
Theorem UniqueItems_first_duplicate {St T : Type} `{Marshal T} (items : list T) (st : St) :
  (marshals items ->
   (ArraySchema.Validate (ArraySchema.UniqueItems ArraySchema.Array) (Some items) st
      = (None, st) <->
    List.NoDup (keysOf items))) /\
  (forall pre x post,
      items = pre ++ x :: post ->
      marshals (pre ++ [x]) ->
      List.NoDup (keysOf pre) ->
      In (fst (json_Marshal x)) (keysOf pre) ->
      ArraySchema.Validate (ArraySchema.UniqueItems ArraySchema.Array) (Some items) st =
      (Some (Go.fmt_Errorf "array items must be unique (duplicate found at index %d)"
               [Go.ArgInt (Z.of_nat (length pre))]), st)) /\
  (forall pre x post err,
      items = pre ++ x :: post ->
      marshals pre ->
      List.NoDup (keysOf pre) ->
      snd (json_Marshal x) = Some err ->
      ArraySchema.Validate (ArraySchema.UniqueItems ArraySchema.Array) (Some items) st =
      (Some (Go.fmt_Errorf
               "failed to marshal array item for uniqueness check at index %d: %w"
               [Go.ArgInt (Z.of_nat (length pre)); Go.ArgError err]), st)).
Proof.
  unfold ArraySchema.Validate, Schema.Validate. simpl. unfold Schema.check.
  split; [|split].
  - intros Hm. pose proof (rangeUnique_accepts items 0 ∅ Hm) as Hacc.
    destruct (ArraySchema.rangeUnique 0 items ∅) as [err|].
    + split; [discriminate|]. intros Hnd.
      assert (E : Some err = None) by (apply Hacc; split; [exact Hnd | set_solver]).
      discriminate E.
    + split; [intros _; apply Hacc; reflexivity | reflexivity].
  - intros pre x post -> Hm Hnd Hdup.
    rewrite (rangeUnique_first_duplicate pre x post 0 ∅ Hm Hnd); [reflexivity | set_solver | left; exact Hdup].
  - intros pre x post err -> Hm Hnd Hx.
    rewrite (rangeUnique_marshal_error pre x post 0 ∅ err Hm Hnd); [reflexivity | set_solver | exact Hx].
Qed.

(** [1, 2, 1, 2]: the first repeat is at index 2. *)
Lemma UniqueItems_first_duplicate_witness :
  ArraySchema.Validate (ArraySchema.UniqueItems ArraySchema.Array)
    (Some [1; 2; 1; 2]%Z) tt =
  (Some (Go.fmt_Errorf "array items must be unique (duplicate found at index %d)"
           [Go.ArgInt 2]), tt).
Proof.
  refine (proj1 (proj2 (UniqueItems_first_duplicate [1; 2; 1; 2]%Z tt))
            [1; 2]%Z 1%Z [2%Z] _ _ _ _).
  - reflexivity.
  - intros item Hin. reflexivity.
  - repeat constructor; simpl; intros Hin;
      repeat (destruct Hin as [Hin|Hin]; [discriminate Hin|]); exact Hin.
  - left. reflexivity.
Defined.

Section LengthChains.
Context {St T : Type} `{Marshal T}.

Lemma arrayOf_length_accepts (cs : list (ArrayCall St T)) (s : ArraySchema.t St T) :
  forallb isLengthCall cs = true ->
  stateless (Schema.validators (ArraySchema.Schema s)) ->
  stateless (Schema.validators (ArraySchema.Schema (fold_left applyCall cs s))) /\
  (forall arr st,
      Schema.range (Schema.validators (ArraySchema.Schema (fold_left applyCall cs s))) arr st
        = (None, st) <->
      Schema.range (Schema.validators (ArraySchema.Schema s)) arr st = (None, st) /\
      (forall c, In c cs -> admitsLength c (Go.len arr))).
Proof.
  revert s. induction cs as [|c cs IH]; intros s Hcs Hs; simpl.
  - split; [exact Hs|]. intros arr st.
    split; [intros E; split; [exact E | intros c []] | tauto].
  - simpl in Hcs. apply andb_prop in Hcs as [Hc Hcs].
    assert (Hcase : exists p,
               Schema.validators (ArraySchema.Schema (applyCall s c)) =
                 Schema.validators (ArraySchema.Schema s) ++ [Schema.check p] /\
               forall arr, p arr = None <-> admitsLength c (Go.len arr)).
    { destruct c as [min|max|length| |validator]; try discriminate Hc;
        (eexists; split; [reflexivity|]; intros arr; simpl).
      - destruct (Z.ltb_spec (Go.len arr) min); split; intros E;
          try discriminate; try reflexivity; lia.
      - destruct (Z.ltb_spec max (Go.len arr)); split; intros E;
          try discriminate; try reflexivity; lia.
      - destruct (Z.eqb_spec (Go.len arr) length); simpl; split; intros E;
          try discriminate; try reflexivity; try assumption; contradiction. }
    destruct Hcase as (p & Hv & Hp).
    assert (Hstep : stateless (Schema.validators (ArraySchema.Schema (applyCall s c))))
      by (rewrite Hv; apply stateless_check; exact Hs).
    destruct (IH _ Hcs Hstep) as (Hpure & Hacc). split; [exact Hpure|].
    intros arr st. rewrite Hacc, Hv, (range_check_accepts _ _ _ _ Hs), Hp. split.
    + intros [[E Ec] Hall]. split; [exact E|]. intros c' [<-|Hin]; auto.
    + intros [E Hall]. split; [split; [exact E | apply Hall; auto] |].
      intros c' Hin. apply Hall; auto.
Qed.
End LengthChains.

(** X8. An array schema built by [Array()] and any chain of [Min], [Max]
    and [Length] calls accepts a slice exactly when its length is at least
    every [Min] bound, at most every [Max] bound and equal to every
    [Length] bound; the nil slice counts with length zero.  In particular
    [Length(n)] accepts what [Min(n)] and [Max(n)] together accept. *)
Theorem Array_length_chain {St T : Type} `{Marshal T}
    (cs : list (ArrayCall St T)) (arr : Go.slice T) (st : St) :
  forallb isLengthCall cs = true ->
  (ArraySchema.Validate (arrayOf cs) arr st = (None, st) <->
   forall c, In c cs -> admitsLength c (Go.len arr)) /\
  (forall n,
      ArraySchema.Validate (arrayOf (St := St) [CallLength n]) arr st = (None, st) <->
      ArraySchema.Validate (arrayOf (St := St) [CallMin n; CallMax n]) arr st = (None, st)).
Proof.
  assert (Hgen : forall cs' : list (ArrayCall St T),
             forallb isLengthCall cs' = true ->
             (ArraySchema.Validate (arrayOf cs') arr st = (None, st) <->
              forall c, In c cs' -> admitsLength c (Go.len arr))).
  { intros cs' Hcs'.
    destruct (arrayOf_length_accepts cs' ArraySchema.Array Hcs' stateless_nil) as (_ & Hacc).
    fold (arrayOf cs') in Hacc.
    unfold ArraySchema.Validate, Schema.Validate. destruct arr as [l|].
    - rewrite Hacc. split; [intros [_ E]; exact E | intros E; split; [reflexivity | exact E]].
    - rewrite Hacc. split; [intros [_ E]; exact E | intros E; split; [reflexivity | exact E]]. }
  intros Hcs. split; [apply Hgen; exact Hcs|].
  intros n. rewrite (Hgen [CallLength n] eq_refl), (Hgen [CallMin n; CallMax n] eq_refl).
  split.
  - intros Hall c [<-|[<-|[]]]; simpl; specialize (Hall _ (or_introl eq_refl)); simpl in Hall; lia.
  - intros Hall c [<-|[]]. simpl.
    pose proof (Hall _ (or_introl eq_refl)) as E1.
    pose proof (Hall _ (or_intror (or_introl eq_refl))) as E2. simpl in E1, E2. lia.
Qed.

(** [Array[int]().Min(0).Max(2)] accepts the nil slice. *)
Lemma Array_length_chain_witness :
  ArraySchema.Validate (arrayOf (St := unit) (T := Z) [CallMin 0; CallMax 2]) None tt
  = (None, tt).
Proof.
  refine (proj2 (proj1 (Array_length_chain [CallMin 0; CallMax 2] None tt eq_refl)) _).
  intros c [<-|[<-|[]]]; simpl; unfold Go.len; simpl; lia.
Defined.

(** ** Object schemas: registering fields *)

Section RegisterFacts.
Context {St T : Type} `{Go.Type_ T}.
Implicit Types (regs : list (string * (T -> St -> option Go.error * St))).

(** What [Map] leaves in the field map: the closures of the entries it was
    given, over what was there. *)
Lemma lookup_Map (s : ObjectSchema.t St T)
    (fvs : gmap string (T -> St -> option Go.error * St)) (name : string) :
  ObjectSchema.fieldValidators (ObjectSchema.Map s fvs) !! name =
  match fvs !! name with
  | Some fn => Some (ObjectSchema.fieldClosure name fn)
  | None => ObjectSchema.fieldValidators s !! name
  end.
Proof.
  unfold ObjectSchema.Map.
  apply (map_fold_weak_ind
           (fun r m => ObjectSchema.fieldValidators r !! name =
              match m !! name with
              | Some fn => Some (ObjectSchema.fieldClosure name fn)
              | None => ObjectSchema.fieldValidators s !! name
              end)).
  - rewrite lookup_empty. reflexivity.
  - intros i x m r Hi Hr. simpl. destruct (decide (i = name)) as [->|Hne].
    + rewrite !lookup_insert_eq. reflexivity.
    + rewrite !lookup_insert_ne by exact Hne. exact Hr.
Qed.

(** With names that are pairwise different, what the [Field] calls leave
    registered is what they registered. *)
Lemma lookup_fold_insert regs (m : gmap string (T -> St -> option Go.error * St))
    (name : string) (fn : T -> St -> option Go.error * St) :
  NoDup (regs.*1) ->
  fold_left (fun m reg => <[ fst reg := snd reg ]> m) regs m !! name = Some fn <->
  (name, fn) ∈ regs \/ (~ (name ∈ regs.*1) /\ m !! name = Some fn).
Proof.
  revert m. induction regs as [|[k v] regs IH]; intros m Hnd; simpl.
  - split; [intros E; right; split; [apply not_elem_of_nil | exact E] |].
    intros [Hin|[_ E]]; [apply elem_of_nil in Hin; contradiction | exact E].
  - rewrite ?fmap_cons in Hnd. simpl in Hnd. apply NoDup_cons in Hnd as [Hk Hnd].
    rewrite (IH _ Hnd). split.
    + intros [Hin | [Hn Hl]]; [left; apply list_elem_of_further; exact Hin|].
      apply lookup_insert_Some in Hl as [[<- <-] | [Hne Hl]].
      * left. apply list_elem_of_here.
      * right. split; [|exact Hl]. rewrite ?fmap_cons. simpl.
        intros E. apply elem_of_cons in E as [E|E]; [exact (Hne (eq_sym E)) | exact (Hn E)].
    + intros [Hin | [Hn Hl]].
      * apply elem_of_cons in Hin as [E|Hin]; [|left; exact Hin].
        injection E as -> ->. right. split; [exact Hk | apply lookup_insert_eq].
      * rewrite ?fmap_cons in Hn. simpl in Hn. apply not_elem_of_cons in Hn as [Hne Hn].
        right. split; [exact Hn|]. rewrite lookup_insert_ne by (intros E; exact (Hne (eq_sym E))).
        exact Hl.
Qed.

Lemma fieldsOf_permutation regs (fvs : gmap string (T -> St -> option Go.error * St)) :
  regs ≡ₚ map_to_list fvs -> fieldsOf regs = fvs.
Proof.
  intros Hp. apply map_eq. intros name.
  assert (Hnd : NoDup (regs.*1)).
  { pose proof (NoDup_fst_map_to_list fvs) as Hn. rewrite <- Hp in Hn. exact Hn. }
  apply option_eq. intros fn. unfold fieldsOf.
  rewrite (lookup_fold_insert regs ∅ name fn Hnd), lookup_empty.
  rewrite <- elem_of_map_to_list, <- Hp. split.
  - intros [Hin | [_ E]]; [exact Hin | discriminate E].
  - intros Hin. left. exact Hin.
Qed.

(** A later registration under a name makes the earlier ones under that
    name disappear. *)
Lemma fold_insert_shadow regs (m : gmap string (T -> St -> option Go.error * St))
    (name : string) (f g : T -> St -> option Go.error * St) :
  <[ name := g ]> (fold_left (fun m reg => <[ fst reg := snd reg ]> m) regs (<[ name := f ]> m)) =
  <[ name := g ]> (fold_left (fun m reg => <[ fst reg := snd reg ]> m) regs m).
Proof.
  revert m. induction regs as [|[k v] regs IH]; intros m; simpl.
  - apply insert_insert_eq.
  - destruct (decide (k = name)) as [->|Hne].
    + rewrite insert_insert_eq. reflexivity.
    + rewrite (insert_insert_ne m k name v f Hne). apply IH.
Qed.

Lemma fieldsOf_app regs1 regs2 :
  fieldsOf (regs1 ++ regs2) =
  fold_left (fun m reg => <[ fst reg := snd reg ]> m) regs2 (fieldsOf regs1).
Proof. unfold fieldsOf. apply fold_left_app. Qed.
End RegisterFacts.

(** X9. [Map] registers every entry of the mapping it is given, over the
    fields already registered, and what it leaves does not depend on the
    order in which the entries are visited: the schema has the same fields
    as after the calls [Field(name, validateFn)] made in any order of the
    entries. *)
Theorem Map_registers_all {St T : Type} `{Go.Type_ T}
    (fvs : gmap string (T -> St -> option Go.error * St)) :
  (forall (s : ObjectSchema.t St T) (name : string),
      ObjectSchema.fieldValidators (ObjectSchema.Map s fvs) !! name =
      match fvs !! name with
      | Some fn => Some (ObjectSchema.fieldClosure name fn)
      | None => ObjectSchema.fieldValidators s !! name
      end) /\
  (forall regs : list (string * (T -> St -> option Go.error * St)),
      regs ≡ₚ map_to_list fvs ->
      ObjectSchema.fieldValidators (ObjectSchema.Map ObjectSchema.Object fvs) =
      ObjectSchema.fieldValidators (objectOf regs) /\
      forall order value st,
        ObjectSchema.Validate order (ObjectSchema.Map ObjectSchema.Object fvs) value st =
        ObjectSchema.Validate order (objectOf regs) value st).
Proof.
  split; [intros s name; apply lookup_Map|].
  intros regs Hp.
  assert (Heq : ObjectSchema.fieldValidators (ObjectSchema.Map ObjectSchema.Object fvs) =
                ObjectSchema.fieldValidators (objectOf regs)).
  { apply map_eq. intros name.
    rewrite lookup_Map, fieldValidators_objectOf, map_lookup_imap,
      (fieldsOf_permutation regs fvs Hp).
    destruct (fvs !! name); [reflexivity | apply lookup_empty]. }
  split; [exact Heq|]. intros order value st.
  rewrite !Validate_rangeFields, Heq. reflexivity.
Qed.

(** The schema of the package's example, built with [Map], validates as the
    schema built with the two [Field] calls, ["baz"] first. *)
Lemma Map_registers_all_witness :
  ObjectSchema.Validate (fun l => l) fooSchema (mkFoo "bar" (mkBaz "quoquo")) tt =
  ObjectSchema.Validate (fun l => l)
    (objectOf [ ("baz", ObjectSchema.ValidateField Baz_
                          (ObjectSchema.Validate (fun l => l) bazSchema));
                ("bar", ObjectSchema.ValidateField Bar atMost5) ])
    (mkFoo "bar" (mkBaz "quoquo")) tt.
Proof.
  refine (proj2 (proj2 (Map_registers_all _) _ _) (fun l => l) _ tt).
  vm_compute. reflexivity.
Defined.

(** X10. A field registered again under the same name replaces the earlier
    registration, whatever was registered in between: the schema validates
    as if the earlier call had not been made, so the earlier validator is
    never called. *)
Theorem Field_replaces {St T : Type} `{Go.Type_ T}
    (regs1 regs2 : list (string * (T -> St -> option Go.error * St)))
    (name : string) (f g : T -> St -> option Go.error * St)
    (order : ObjectSchema.MapOrder St T) (value : T) (st : St) :
  ObjectSchema.fieldValidators (objectOf (regs1 ++ (name, f) :: regs2 ++ [(name, g)])) =
  ObjectSchema.fieldValidators (objectOf (regs1 ++ regs2 ++ [(name, g)])) /\
  ObjectSchema.Validate order (objectOf (regs1 ++ (name, f) :: regs2 ++ [(name, g)])) value st =
  ObjectSchema.Validate order (objectOf (regs1 ++ regs2 ++ [(name, g)])) value st /\
  fieldsOf (regs1 ++ (name, f) :: regs2 ++ [(name, g)]) !! name = Some g.
Proof.
  assert (Hf : fieldsOf (regs1 ++ (name, f) :: regs2 ++ [(name, g)]) =
               fieldsOf (regs1 ++ regs2 ++ [(name, g)])).
  { rewrite !fieldsOf_app. simpl. rewrite !fold_left_app. simpl.
    apply fold_insert_shadow. }
  assert (Heq : ObjectSchema.fieldValidators (objectOf (regs1 ++ (name, f) :: regs2 ++ [(name, g)])) =
                ObjectSchema.fieldValidators (objectOf (regs1 ++ regs2 ++ [(name, g)])))
    by (rewrite !fieldValidators_objectOf, Hf; reflexivity).
  split; [exact Heq|]. split.
  - rewrite !Validate_rangeFields, Heq. reflexivity.
  - rewrite Hf, !fieldsOf_app. simpl. rewrite fold_left_app. simpl. apply lookup_insert_eq.
Qed.

(** ** Object schemas: the verdict *)

(** X11. An error that [Validate] of an object schema returns is always the
    error of one registered field validator, on the value [Validate] hands
    to that field, wrapped with the name of the field.  When the field
    validators touch no state, the value is accepted exactly when every
    registered field validator accepts what it is handed, whatever the order
    in which the fields are visited. *)
Theorem Object_verdict {St T : Type} `{Go.Type_ T}
    (regs : list (string * (T -> St -> option Go.error * St)))
    (order : ObjectSchema.MapOrder St T) (value : T) (st : St) :
  ObjectSchema.permutes order ->
  (forall err st',
      ObjectSchema.Validate order (objectOf regs) value st = (Some err, st') ->
      exists name validateFn inner st1,
        fieldsOf regs !! name = Some validateFn /\
        validateFn (fieldInput value name) st1 = (Some inner, st') /\
        err = fieldError name inner) /\
  ((forall name validateFn, fieldsOf regs !! name = Some validateFn ->
      exists r, validateFn (fieldInput value name) st = (r, st)) ->
   (ObjectSchema.Validate order (objectOf regs) value st = (None, st) <->
    forall name validateFn, fieldsOf regs !! name = Some validateFn ->
      validateFn (fieldInput value name) st = (None, st))).
Proof.
  intros Hp. rewrite Validate_rangeFields. split.
  - intros err st' Hr.
    destruct (rangeFields_error_origin _ _ _ _ _ Hr) as (n & c & st1 & Hin & Hc).
    apply elem_of_order in Hin; [|exact Hp].
    apply lookup_objectOf in Hin as (fn & Hfn & ->).
    unfold ObjectSchema.fieldClosure in Hc. fold (fieldInput value n) in Hc.
    destruct (fn (fieldInput value n) st1) as [[inner|] sa] eqn:Hfnr; [|discriminate].
    injection Hc as <- <-. exists n, fn, inner, st1. repeat split; assumption.
  - intros Hpure. rewrite rangeFields_accepts.
    + split.
      * intros Hall name fn Hfn.
        assert (Hin : (name, ObjectSchema.fieldClosure name fn) ∈
                      order (map_to_list (ObjectSchema.fieldValidators (objectOf regs)))).
        { apply elem_of_order; [exact Hp|]. apply lookup_objectOf. eauto. }
        specialize (Hall _ _ Hin). unfold ObjectSchema.fieldClosure in Hall.
        fold (fieldInput value name) in Hall.
        destruct (Hpure name fn Hfn) as [[e|] Hfnr]; rewrite Hfnr in Hall;
          [discriminate Hall | exact Hfnr].
      * intros Hall n c Hin. apply elem_of_order in Hin; [|exact Hp].
        apply lookup_objectOf in Hin as (fn & Hfn & ->).
        unfold ObjectSchema.fieldClosure. fold (fieldInput value n).
        rewrite (Hall n fn Hfn). reflexivity.
    + intros n c Hin. apply elem_of_order in Hin; [|exact Hp].
      apply lookup_objectOf in Hin as (fn & Hfn & ->).
      unfold ObjectSchema.fieldClosure. fold (fieldInput value n).
      destruct (Hpure n fn Hfn) as [[e|] ->]; eauto.
Qed.

(** The schema of the package's example accepts
    [Foo{Bar: "bar", Baz: Baz{Quo: "quo"}}]. *)
Lemma Object_verdict_witness :
  ObjectSchema.Validate (fun l => l) (objectOf fooFields) (mkFoo "bar" (mkBaz "quo")) tt
  = (None, tt).
Proof.
  refine (proj2 (proj2 (Object_verdict fooFields (fun l => l) (mkFoo "bar" (mkBaz "quo")) tt _) _) _).
  - intros l. reflexivity.
  - intros name fn Hfn. destruct (fn _ tt) as [r []]. eauto.
  - intros name fn Hfn. destruct (decide (name = "baz")) as [->|Hne].
    + unfold fieldsOf, fooFields in Hfn. simpl in Hfn.
      rewrite lookup_insert_eq in Hfn. injection Hfn as <-. reflexivity.
    + destruct (fooFields_lookup name fn Hne Hfn) as [-> ->]. reflexivity.
Defined.

(** ** The adapter: when the translation succeeds *)

(** Induction on a schema tree: through the item schema and through the
    schemas of the properties. *)
Lemma JSONSchema_tree_ind (P : valtorjsonschema.JSONSchema -> Prop) :
  (forall s,
      (forall items, valtorjsonschema.Items s = Some items -> P items) ->
      (forall key child, In (key, Some child) (valtorjsonschema.Properties s) -> P child) ->
      P s) ->
  forall s, P s.
Proof.
  intros Hstep. fix IH 1. intros s.
  destruct s as [type minLength maxLength pattern minimum maximum
                   items minItems maxItems uniqueItems properties requiredNames].
  apply Hstep; simpl.
  - intros it E. destruct items as [it'|]; [|discriminate E].
    injection E as <-. apply IH.
  - intros key child. induction properties as [|[k [c|]] rest IHrest]; simpl; intros Hin.
    + destruct Hin.
    + destruct Hin as [E|Hin]; [|apply IHrest; exact Hin].
      injection E as _ <-. apply IH.
    + destruct Hin as [E|Hin]; [discriminate E | apply IHrest; exact Hin].
Qed.

Section AdapterSuccess.
Context {St : Type} `{Go.Lib} (order : ObjectSchema.MapOrder St Go.any).

(** Whether the translation fails does not depend on the required flag
    either. *)
Lemma parseJSONSchema_error_flag (T : Type) `{Go.Type_ T}
    (schema : valtorjsonschema.JSONSchema) (required required' : bool) :
  snd (valtorjsonschema.parseJSONSchema order T schema required) =
  snd (valtorjsonschema.parseJSONSchema order T schema required').
Proof.
  destruct schema as [type minLength maxLength pattern minimum maximum
                        items minItems maxItems uniqueItems properties requiredNames].
  simpl.
  repeat match goal with
         | |- context [if ?b then _ else _] => destruct b
         | |- context [match ?x with _ => _ end] => destruct x
         | |- _ => reflexivity
         end.
Qed.

(** The property loop succeeds exactly when every property that has a
    schema has one whose translation succeeds. *)
Lemma rangeProperties_succeeds
    (parse : valtorjsonschema.JSONSchema -> bool -> option (Schema.t St Go.any) * option Go.error)
    (required : list string) (pairs : list (string * option valtorjsonschema.JSONSchema))
    (objSchema : ObjectSchema.t St Go.any) :
  (exists s, valtorjsonschema.rangeProperties parse required pairs objSchema = inl s) <->
  (forall key child, In (key, Some child) pairs ->
     snd (parse child (valtorjsonschema.Contains required key)) = None).
Proof.
  revert objSchema. induction pairs as [|[k [c|]] rest IH]; intros objSchema; simpl.
  - split; [intros _ key child [] | eauto].
  - destruct (parse c (valtorjsonschema.Contains required k)) as [r [e|]] eqn:Hc.
    + split; [intros [s E]; discriminate E|].
      intros Hall. specialize (Hall k c (or_introl eq_refl)). rewrite Hc in Hall.
      discriminate Hall.
    + rewrite IH. split.
      * intros Hall key child [E|Hin]; [|apply Hall; exact Hin].
        injection E as <- <-. rewrite Hc. reflexivity.
      * intros Hall key child Hin. apply Hall. right. exact Hin.
  - rewrite IH. split.
    + intros Hall key child [E|Hin]; [discriminate E | apply Hall; exact Hin].
    + intros Hall key child Hin. apply Hall. right. exact Hin.
Qed.

Lemma translatable_succeeds (schema : valtorjsonschema.JSONSchema) :
  translatable schema ->
  forall (T : Type) (G : Go.Type_ T) (required : bool),
    snd (valtorjsonschema.parseJSONSchema order T schema required) = None.
Proof.
  induction 1 as [s Ht | s Ht | s Ht Hitems IH | s Ht Hpat | s Ht Hmin Hmax
                  | s Ht Hmin Hmax | s Ht Hprops IH]; intros T G required;
    destruct s as [type minLength maxLength pattern minimum maximum
                     items minItems maxItems uniqueItems properties requiredNames];
    simpl in *; subst type; simpl.
  - reflexivity.
  - reflexivity.
  - destruct items as [it|]; [|reflexivity].
    specialize (IH it eq_refl Go.any _ false).
    destruct (valtorjsonschema.parseJSONSchema order Go.any it false) as [r [e|]];
      [discriminate IH | reflexivity].
  - destruct Hpat as [-> | [re Hre]]; simpl; [reflexivity|].
    destruct (negb (String.eqb pattern EmptyString)); [rewrite Hre|]; reflexivity.
  - unfold readable in Hmin, Hmax.
    destruct (negb (String.eqb minimum EmptyString)) eqn:Emin;
      [destruct Hmin as [-> | Hmin]; [discriminate Emin|];
       destruct (Go.Number_Float64 minimum) as [f [e|]]; [discriminate Hmin|] |];
      (destruct (negb (String.eqb maximum EmptyString)) eqn:Emax;
       [destruct Hmax as [-> | Hmax]; [discriminate Emax|];
        destruct (Go.Number_Float64 maximum) as [g [e'|]]; [discriminate Hmax|] |]);
      reflexivity.
  - unfold readable in Hmin, Hmax.
    destruct (negb (String.eqb minimum EmptyString)) eqn:Emin;
      [destruct Hmin as [-> | Hmin]; [discriminate Emin|];
       destruct (Go.Number_Float64 minimum) as [f [e|]]; [discriminate Hmin|] |];
      (destruct (negb (String.eqb maximum EmptyString)) eqn:Emax;
       [destruct Hmax as [-> | Hmax]; [discriminate Emax|];
        destruct (Go.Number_Float64 maximum) as [g [e'|]]; [discriminate Hmax|] |]);
      reflexivity.
  - assert (Hloop : exists o,
               valtorjsonschema.rangeProperties
                 (valtorjsonschema.parseJSONSchema order Go.any) requiredNames
                 properties ObjectSchema.Object = inl o).
    { apply rangeProperties_succeeds. intros key child Hin. apply (IH key child Hin). }
    destruct Hloop as [o ->]. reflexivity.
Qed.
End AdapterSuccess.

Section AdapterSuccessConverse.
Context {St : Type} `{Go.Lib} (order : ObjectSchema.MapOrder St Go.any).

Lemma succeeds_translatable (schema : valtorjsonschema.JSONSchema) :
  snd (valtorjsonschema.parseJSONSchema order Go.any schema false) = None ->
  translatable schema.
Proof.
  induction schema as [s IHitems IHprops] using JSONSchema_tree_ind. intros Hs.
  destruct s as [type minLength maxLength pattern minimum maximum
                   items minItems maxItems uniqueItems properties requiredNames].
  simpl in *.
  destruct (String.eqb_spec type "null") as [->|_];
    [apply translatable_null; reflexivity|].
  destruct (String.eqb_spec type "boolean") as [->|_];
    [apply translatable_boolean; reflexivity|].
  destruct (String.eqb_spec type "array") as [->|_].
  { apply translatable_array; [reflexivity|]. simpl. intros it ->.
    apply (IHitems it eq_refl).
    destruct (valtorjsonschema.parseJSONSchema order Go.any it false) as [r [e|]];
      [discriminate Hs | reflexivity]. }
  destruct (String.eqb_spec type "string") as [->|_].
  { apply translatable_string; [reflexivity|]. simpl.
    destruct (String.eqb_spec pattern EmptyString) as [->|Hp]; [left; reflexivity|].
    right. simpl in Hs. destruct (Go.regexp_Compile pattern) as [re|e];
      [eauto | discriminate Hs]. }
  destruct (String.eqb_spec type "integer") as [->|_].
  { assert (Hmin : readable minimum).
    { unfold readable. destruct (String.eqb_spec minimum EmptyString) as [->|Hm];
        [left; reflexivity|]. right. simpl in Hs.
      destruct (Go.Number_Float64 minimum) as [f [e|]]; [discriminate Hs | reflexivity]. }
    assert (Hmax : readable maximum).
    { unfold readable. destruct (String.eqb_spec maximum EmptyString) as [->|Hm];
        [left; reflexivity|]. right.
      destruct (negb (String.eqb minimum EmptyString));
        [destruct (Go.Number_Float64 minimum) as [f [e|]]; [discriminate Hs|] |];
        simpl in Hs;
        (destruct (Go.Number_Float64 maximum) as [g [e'|]]; [discriminate Hs | reflexivity]). }
    apply translatable_integer; [reflexivity | exact Hmin | exact Hmax]. }
  destruct (String.eqb_spec type "number") as [->|_].
  { assert (Hmin : readable minimum).
    { unfold readable. destruct (String.eqb_spec minimum EmptyString) as [->|Hm];
        [left; reflexivity|]. right. simpl in Hs.
      destruct (Go.Number_Float64 minimum) as [f [e|]]; [discriminate Hs | reflexivity]. }
    assert (Hmax : readable maximum).
    { unfold readable. destruct (String.eqb_spec maximum EmptyString) as [->|Hm];
        [left; reflexivity|]. right.
      destruct (negb (String.eqb minimum EmptyString));
        [destruct (Go.Number_Float64 minimum) as [f [e|]]; [discriminate Hs|] |];
        simpl in Hs;
        (destruct (Go.Number_Float64 maximum) as [g [e'|]]; [discriminate Hs | reflexivity]). }
    apply translatable_number; [reflexivity | exact Hmin | exact Hmax]. }
  destruct (String.eqb_spec type "object") as [->|_]; [|discriminate Hs].
  apply translatable_object; [reflexivity|]. simpl. intros key child Hin.
  apply (IHprops key child Hin).
  rewrite (parseJSONSchema_error_flag order Go.any child false
             (valtorjsonschema.Contains requiredNames key)).
  revert key child Hin.
  apply (proj1 (rangeProperties_succeeds (valtorjsonschema.parseJSONSchema order Go.any)
                  requiredNames properties ObjectSchema.Object)).
  destruct (valtorjsonschema.rangeProperties _ _ _ _) as [o|e]; [eauto | discriminate Hs].
Qed.
End AdapterSuccessConverse.

(** X12. The translation of a schema tree succeeds, and then returns a
    schema and no error, exactly when the tree is translatable: every node
    it gets to has a known type, every declared pattern of a string node
    compiles, every declared bound of an integer or number node can be
    read.  It fails for no other reason, and the required flag and the type
    parameter have no part in it. *)
Theorem parseJSONSchema_succeeds_iff {St : Type} `{Go.Lib}
    (order : ObjectSchema.MapOrder St Go.any) (T : Type) `{Go.Type_ T}
    (schema : valtorjsonschema.JSONSchema) (required : bool) :
  (exists s, valtorjsonschema.parseJSONSchema order T schema required = (Some s, None)) <->
  translatable schema.
Proof.
  split.
  - intros [s Hs]. apply (succeeds_translatable order).
    rewrite <- (parseJSONSchema_error_any order T schema false).
    rewrite (parseJSONSchema_error_flag order T schema false required), Hs. reflexivity.
  - intros Ht. pose proof (translatable_succeeds order schema Ht T _ required) as Hnone.
    destruct (parseJSONSchema_shape order T schema required) as [[s Hs]|[e He]];
      [eauto | rewrite He in Hnone; discriminate Hnone].
Qed.

(** An object node with a string property and a boolean property. *)
Lemma parseJSONSchema_succeeds_iff_witness :
  exists s,
    valtorjsonschema.parseJSONSchema (St := unit) (H := exampleLib) (fun l => l) Go.any
      (objectNode [("a", Some (node "string")); ("b", Some (node "boolean"))]) true
    = (Some s, None).
Proof.
  refine (proj2 (parseJSONSchema_succeeds_iff (St := unit) (H := exampleLib)
                   (fun l => l) Go.any _ true) _).
  apply translatable_object; [reflexivity|].
  intros key child [E|[E|[]]]; injection E as <- <-.
  - apply translatable_string; [reflexivity | left; reflexivity].
  - apply translatable_boolean. reflexivity.
Defined.

(** ** The adapter: what the translated nodes accept *)

Lemma Validate_Custom_New {St T : Type} (fn : T -> St -> option Go.error * St)
    (value : T) (st : St) :
  Schema.Validate (Schema.Custom (Schema.New St T) fn) value st = fn value st.
Proof.
  unfold Schema.Validate. simpl. destruct (fn value st) as [[err|] st']; reflexivity.
Qed.

Section StringNode.
Context {St : Type} `{Go.Lib}.

(** The string schema of a string node, on a string. *)
Lemma stringNode_accepts (minLength maxLength : option Z) (re : option Go.Regexp)
    (required : bool) (v : string) (st : St) :
  let s0 := StringSchema.String (St := St) in
  let s1 := match minLength with Some n => StringSchema.Min s0 n | None => s0 end in
  let s2 := match maxLength with Some n => StringSchema.Max s1 n | None => s1 end in
  let s3 := match re with Some r => StringSchema.Regexp s2 r | None => s2 end in
  let s4 := if required then StringSchema.Required s3 else s3 in
  (StringSchema.Validate s4 v st = (None, st) <->
   (required = true -> v <> EmptyString) /\
   (forall n, minLength = Some n -> (n <= Z.of_nat (String.length v))%Z) /\
   (forall n, maxLength = Some n -> (Z.of_nat (String.length v) <= n)%Z) /\
   (forall r, re = Some r -> Go.MatchString r v = true)) /\
  (required = true -> v = EmptyString ->
   StringSchema.Validate s4 v st = (Some Go.ErrValueRequired, st)).
Proof.
  intros s0 s1 s2 s3 s4. split.
  - subst s4 s3 s2 s1 s0. unfold StringSchema.Validate.
    destruct (String.eqb_spec v EmptyString) as [Hv|Hv];
    destruct required, minLength as [a|], maxLength as [b|], re as [r|]; simpl;
    unfold Schema.Validate, Schema.check; simpl;
    repeat match goal with
           | |- context [(?x <? ?y)%Z] => destruct (Z.ltb_spec x y); simpl
           | |- context [Go.MatchString ?r ?v] => destruct (Go.MatchString r v) eqn:?; simpl
           end;
    (split;
     [ intros E; try discriminate E; repeat split; intros; try congruence;
       try match goal with
           | E : Some _ = Some _ |- _ => injection E as <-
           end; try lia; try assumption
     | intros (Hreq & Hmin & Hmax & Hre);
       try specialize (Hreq eq_refl);
       try specialize (Hmin _ eq_refl); try specialize (Hmax _ eq_refl);
       try specialize (Hre _ eq_refl);
       try reflexivity; try contradiction; try congruence; try lia ]).
  - intros -> ->. subst s4. reflexivity.
Qed.
End StringNode.

(** X13. The schema that a string node translates to validates a string
    against the node, the nil interface as the empty string, and rejects a
    value of any other type with the type error.  With counts that fit an
    [int], a string is accepted exactly when its length is within the
    declared bounds, the declared pattern matches it, and it is not empty
    if the node is required; a required node answers the empty string and
    nil with [ErrValueRequired]. *)
Theorem string_node_verdict {St : Type} `{Go.Lib}
    (order : ObjectSchema.MapOrder St Go.any) (T : Type) `{Go.Type_ T}
    (schema : valtorjsonschema.JSONSchema) (required : bool) (s : Schema.t St T) :
  valtorjsonschema.Type_ schema = "string" ->
  (forall n, valtorjsonschema.MinLength schema = Some n -> Go.inRange Go.Int n) ->
  (forall n, valtorjsonschema.MaxLength schema = Some n -> Go.inRange Go.Int n) ->
  valtorjsonschema.parseJSONSchema order T schema required = (Some s, None) ->
  forall (value : T) (st : St),
    match Go.toAny value with
    | Go.anyString v =>
        (Schema.Validate s value st = (None, st) <-> admitsStringNode schema required v) /\
        (required = true -> v = EmptyString ->
         Schema.Validate s value st = (Some Go.ErrValueRequired, st))
    | Go.anyNil =>
        (Schema.Validate s value st = (None, st) <->
         admitsStringNode schema required EmptyString) /\
        (required = true -> Schema.Validate s value st = (Some Go.ErrValueRequired, st))
    | a =>
        Schema.Validate s value st =
        (Some (Go.fmt_Errorf "expected string value, got %T" [Go.ArgAny a]), st)
    end.
Proof.
  destruct schema as [type minLength maxLength pattern minimum maximum
                        items minItems maxItems uniqueItems properties requiredNames].
  simpl. intros -> Hmin Hmax Hs value st. simpl in Hs.
  assert (Hre : exists re : option Go.Regexp,
             (re = None <-> pattern = EmptyString) /\
             (forall r, re = Some r -> Go.regexp_Compile pattern = inl r) /\
             s = Schema.Custom (Schema.New St T)
                   (valtorjsonschema.stringClosure
                      (let s0 := StringSchema.String in
                       let s1 := match minLength with
                                 | Some n => StringSchema.Min s0 (Go.wrap Go.Int n)
                                 | None => s0
                                 end in
                       let s2 := match maxLength with
                                 | Some n => StringSchema.Max s1 (Go.wrap Go.Int n)
                                 | None => s1
                                 end in
                       let s3 := match re with
                                 | Some r => StringSchema.Regexp s2 r
                                 | None => s2
                                 end in
                       if required then StringSchema.Required s3 else s3))).
  { destruct (String.eqb_spec pattern EmptyString) as [->|Hp]; simpl in Hs.
    - exists None. injection Hs as <-. repeat split; intros; congruence.
    - destruct (Go.regexp_Compile pattern) as [r|e] eqn:Hc; [|discriminate Hs].
      exists (Some r). injection Hs as <-.
      split; [split; [discriminate | contradiction]|].
      split; [intros r' [= <-]; reflexivity | reflexivity]. }
  destruct Hre as (re & Hnone & Hsome & ->).
  rewrite Validate_Custom_New. unfold valtorjsonschema.stringClosure.
  assert (Hadm : forall v,
             admitsStringNode
               (valtorjsonschema.mkJSONSchema "string" minLength maxLength pattern minimum
                  maximum items minItems maxItems uniqueItems properties requiredNames)
               required v <->
             (required = true -> v <> EmptyString) /\
             (forall n, option_map (Go.wrap Go.Int) minLength = Some n ->
                (n <= Z.of_nat (String.length v))%Z) /\
             (forall n, option_map (Go.wrap Go.Int) maxLength = Some n ->
                (Z.of_nat (String.length v) <= n)%Z) /\
             (forall r, re = Some r -> Go.MatchString r v = true)).
  { intros v. unfold admitsStringNode. simpl.
    assert (Hwmin : forall n, minLength = Some n -> Go.wrap Go.Int n = n)
      by (intros n Hn; apply wrap_inRange; auto).
    assert (Hwmax : forall n, maxLength = Some n -> Go.wrap Go.Int n = n)
      by (intros n Hn; apply wrap_inRange; auto).
    split; intros (Hr & Ha & Hb & Hm); (split; [exact Hr|]); repeat split.
    - intros n Hn. destruct minLength as [a|]; [|discriminate Hn].
      injection Hn as <-. rewrite (Hwmin a eq_refl). auto.
    - intros n Hn. destruct maxLength as [b|]; [|discriminate Hn].
      injection Hn as <-. rewrite (Hwmax b eq_refl). auto.
    - intros r Hr'. apply Hm; [|auto]. intros Hp. apply Hnone in Hp. congruence.
    - intros n ->. rewrite <- (Hwmin n eq_refl). apply Ha. reflexivity.
    - intros n ->. rewrite <- (Hwmax n eq_refl). apply Hb. reflexivity.
    - intros r Hp Hc. destruct re as [r'|].
      + pose proof (Hsome r' eq_refl) as Hc'. rewrite Hc in Hc'. injection Hc' as ->.
        apply Hm. reflexivity.
      + destruct Hp. apply Hnone. reflexivity. }
  pose proof (fun v => stringNode_accepts (option_map (Go.wrap Go.Int) minLength)
                         (option_map (Go.wrap Go.Int) maxLength) re required v st) as Hacc.
  assert (Heq : forall v,
             StringSchema.Validate
               (let s0 := StringSchema.String in
                let s1 := match minLength with
                          | Some n => StringSchema.Min s0 (Go.wrap Go.Int n)
                          | None => s0
                          end in
                let s2 := match maxLength with
                          | Some n => StringSchema.Max s1 (Go.wrap Go.Int n)
                          | None => s1
                          end in
                let s3 := match re with
                          | Some r => StringSchema.Regexp s2 r
                          | None => s2
                          end in
                if required then StringSchema.Required s3 else s3) v st =
             StringSchema.Validate
               (let s0 := StringSchema.String in
                let s1 := match option_map (Go.wrap Go.Int) minLength with
                          | Some n => StringSchema.Min s0 n
                          | None => s0
                          end in
                let s2 := match option_map (Go.wrap Go.Int) maxLength with
                          | Some n => StringSchema.Max s1 n
                          | None => s1
                          end in
                let s3 := match re with
                          | Some r => StringSchema.Regexp s2 r
                          | None => s2
                          end in
                if required then StringSchema.Required s3 else s3) v st)
    by (intros v; destruct minLength, maxLength; reflexivity).
  destruct (Go.toAny value) as [| b | v | k z | f | l | m | n]; try reflexivity.
  - rewrite Heq. destruct (Hacc EmptyString) as [Hiff Hreq]. simpl in Hiff, Hreq.
    split; [rewrite Hadm; exact Hiff | intros Hr; apply Hreq; [exact Hr | reflexivity]].
  - rewrite Heq. destruct (Hacc v) as [Hiff Hreq]. simpl in Hiff, Hreq.
    split; [rewrite Hadm; exact Hiff | exact Hreq].
Qed.

(** A required string node with at least two and at most five bytes rejects
    the nil interface with [ErrValueRequired]. *)
Lemma string_node_verdict_witness :
  exists s,
    valtorjsonschema.parseJSONSchema (St := unit) (H := exampleLib) (fun l => l) Go.any
      (stringNode (Some 2%Z) (Some 5%Z) EmptyString) true = (Some s, None) /\
    Schema.Validate s Go.anyNil tt = (Some Go.ErrValueRequired, tt).
Proof.
  eexists. split; [reflexivity|].
  refine (proj2 (string_node_verdict (St := unit) (H := exampleLib) (fun l => l) Go.any
                   (stringNode (Some 2%Z) (Some 5%Z) EmptyString) true _
                   eq_refl _ _ eq_refl Go.anyNil tt) eq_refl).
  - intros n [= <-]. unfold Go.inRange. cbv. split; discriminate.
  - intros n [= <-]. unfold Go.inRange. cbv. split; discriminate.
Defined.

Section NumericNode.
Context {St T : Type} `{Numeric T}.

(** The number schema of an integer or number node, on a value. *)
Lemma numericNode_accepts (minimum maximum : option T) (required : bool)
    (v : T) (st : St) :
  let s0 := NumberSchema.Number (St := St) (T := T) in
  let s1 := match minimum with Some a => NumberSchema.Min s0 a | None => s0 end in
  let s2 := match maximum with Some b => NumberSchema.Max s1 b | None => s1 end in
  let s3 := if required then NumberSchema.Required s2 else s2 in
  (NumberSchema.Validate s3 v st = (None, st) <->
   (required = true -> num_eqb v num_zero = false) /\
   (forall a, minimum = Some a -> num_ltb v a = false) /\
   (forall b, maximum = Some b -> num_ltb b v = false)) /\
  (required = true -> num_eqb v num_zero = true ->
   NumberSchema.Validate s3 v st = (Some Go.ErrValueRequired, st)).
Proof.
  intros s0 s1 s2 s3. subst s3 s2 s1 s0. unfold NumberSchema.Validate. split.
  - destruct (num_eqb v num_zero) eqn:Hv;
    destruct required, minimum as [a|], maximum as [b|]; simpl;
    unfold Schema.Validate, Schema.check; simpl;
    repeat match goal with
           | |- context [num_ltb ?x ?y] => destruct (num_ltb x y) eqn:?; simpl
           end;
    (split;
     [ intros E; try discriminate E; repeat split; intros; try congruence
     | intros (Hreq & Hmin & Hmax);
       try specialize (Hreq eq_refl);
       try specialize (Hmin _ eq_refl); try specialize (Hmax _ eq_refl);
       try reflexivity; try congruence ]).
  - intros -> ->. reflexivity.
Qed.
End NumericNode.

(** No [float64] is below itself, NaN included. *)
Lemma float_ltb_irrefl (x : float) : PrimFloat.ltb x x = false.
Proof.
  rewrite FloatAxioms.ltb_spec. unfold SpecFloat.SFltb.
  pose proof (SFcompare_antisym (Prim2SF x) (Prim2SF x)) as Ha.
  destruct (SpecFloat.SFcompare (Prim2SF x) (Prim2SF x)) as [[| |]|];
    simpl in Ha; try reflexivity; discriminate Ha.
Qed.

(** Only [uint] and [uint64] hold values above the largest [int64]. *)
Lemma maxInt_narrow (k : Go.IntKind) :
  (Go.maxInt k <= Go.maxInt Go.Int64)%Z \/ k = Go.Uint \/ k = Go.Uint64.
Proof.
  destruct k; try (left; vm_compute; discriminate); auto.
Qed.

Section IntegerNode.
Context {St : Type} `{Go.Lib} (order : ObjectSchema.MapOrder St Go.any).

(** The schema that the translation of an integer node returns. *)
Lemma integerNode_shape (T : Type) `{Go.Type_ T}
    (schema : valtorjsonschema.JSONSchema) (required : bool) (s : Schema.t St T) :
  valtorjsonschema.Type_ schema = "integer" ->
  valtorjsonschema.parseJSONSchema order T schema required = (Some s, None) ->
  s = Schema.Custom (Schema.New St T)
        (valtorjsonschema.integerClosure
           (let s0 := NumberSchema.Number in
            let s1 := match (if String.eqb (valtorjsonschema.Minimum schema) EmptyString
                             then None else Some (integerMinimum schema)) with
                      | Some a => NumberSchema.Min s0 a
                      | None => s0
                      end in
            let s2 := match (if String.eqb (valtorjsonschema.Maximum schema) EmptyString
                             then None else Some (integerMaximum schema)) with
                      | Some b => NumberSchema.Max s1 b
                      | None => s1
                      end in
            if required then NumberSchema.Required s2 else s2)).
Proof.
  destruct schema as [type minLength maxLength pattern minimum maximum
                        items minItems maxItems uniqueItems properties requiredNames].
  unfold integerMinimum, integerMaximum. simpl. intros -> Hs. simpl in Hs.
  destruct (String.eqb minimum EmptyString); simpl in Hs |- *;
    [|destruct (Go.Number_Float64 minimum) as [f [e|]]; [discriminate Hs|]];
    (destruct (String.eqb maximum EmptyString); simpl in Hs |- *;
     [|destruct (Go.Number_Float64 maximum) as [g [e'|]]; [discriminate Hs|]]);
    injection Hs as <-; reflexivity.
Qed.

Lemma integerNode_admits (schema : valtorjsonschema.JSONSchema) (required : bool) (z : Z) :
  admitsIntegerNode schema required z <->
  (required = true -> Z.eqb z 0 = false) /\
  (forall a, (if String.eqb (valtorjsonschema.Minimum schema) EmptyString
              then None else Some (integerMinimum schema)) = Some a ->
     Z.ltb z a = false) /\
  (forall b, (if String.eqb (valtorjsonschema.Maximum schema) EmptyString
              then None else Some (integerMaximum schema)) = Some b ->
     Z.ltb b z = false).
Proof.
  unfold admitsIntegerNode.
  destruct (String.eqb_spec (valtorjsonschema.Minimum schema) EmptyString) as [Ha|Ha];
    destruct (String.eqb_spec (valtorjsonschema.Maximum schema) EmptyString) as [Hb|Hb];
    (split; intros (Hr & Hmin & Hmax);
     (split; [intros Hreq; specialize (Hr Hreq); lia|]); split);
    try (intros a [= <-]); try discriminate; try (intros Hne; try contradiction).
  all: try (specialize (Hmin Ha); lia).
  all: try (specialize (Hmax Hb); lia).
  all: try (specialize (Hmin _ eq_refl); lia).
  all: try (specialize (Hmax _ eq_refl); lia).
Qed.
End IntegerNode.

(** X14. The schema that an integer node translates to converts a value of
    any integer type to [int64] and validates it against the node: it is
    accepted exactly when it is not below the bound
    [int64(math.Ceil(minimum))], not above the bound
    [int64(math.Floor(maximum))] (the conversions as Go performs them, also
    when the rounded bound does not fit an [int64]), and not zero if the
    node is required.  An unsigned value above the largest [int64] is
    rejected with an error that names its type.  A [float64] that differs
    from its truncation is rejected; one that compares above
    [float64(math.MaxInt64)] or below [float64(math.MinInt64)] is rejected;
    every other [float64] is validated as [int64(f)], and that includes
    [float64(math.MaxInt64)] itself, which the range check lets through.
    The nil interface is validated as zero, so a required node answers it
    with [ErrValueRequired]; a value of any other type gets the type
    error. *)
Theorem integer_node_verdict {St : Type} `{Go.Lib}
    (order : ObjectSchema.MapOrder St Go.any) (T : Type) `{Go.Type_ T}
    (schema : valtorjsonschema.JSONSchema) (required : bool) (s : Schema.t St T) :
  valtorjsonschema.Type_ schema = "integer" ->
  valtorjsonschema.parseJSONSchema order T schema required = (Some s, None) ->
  forall (value : T) (st : St),
    match Go.toAny value with
    | Go.anyInt k z =>
        Go.inRange k z ->
        ((z <= Go.maxInt Go.Int64)%Z ->
         (Schema.Validate s value st = (None, st) <-> admitsIntegerNode schema required z) /\
         (required = true -> z = 0%Z ->
          Schema.Validate s value st = (Some Go.ErrValueRequired, st))) /\
        ((Go.maxInt Go.Int64 < z)%Z ->
         Schema.Validate s value st =
         (Some (Go.fmt_Errorf (Go.intName k +:+ " value %d exceeds maximum int64")
                  [Go.ArgInt z]), st))
    | Go.anyFloat64 f =>
        (PrimFloat.eqb f (Go.math_Trunc f) = false ->
         Schema.Validate s value st =
         (Some (Go.fmt_Errorf "expected integer value, got float with fractional part: %v"
                  [Go.ArgFloat f]), st)) /\
        (PrimFloat.eqb f (Go.math_Trunc f) = true ->
         PrimFloat.ltb (Go.float_of_int (Go.maxInt Go.Int64)) f = true \/
         PrimFloat.ltb f (Go.float_of_int (Go.minInt Go.Int64)) = true ->
         Schema.Validate s value st =
         (Some (Go.fmt_Errorf "float value %v exceeds int64 range" [Go.ArgFloat f]), st)) /\
        (PrimFloat.eqb f (Go.math_Trunc f) = true ->
         PrimFloat.ltb (Go.float_of_int (Go.maxInt Go.Int64)) f = false ->
         PrimFloat.ltb f (Go.float_of_int (Go.minInt Go.Int64)) = false ->
         (Schema.Validate s value st = (None, st) <->
          admitsIntegerNode schema required (Go.int64_of_float f))) /\
        (f = Go.float_of_int (Go.maxInt Go.Int64) ->
         PrimFloat.eqb f (Go.math_Trunc f) = true ->
         PrimFloat.ltb f (Go.float_of_int (Go.minInt Go.Int64)) = false ->
         (Schema.Validate s value st = (None, st) <->
          admitsIntegerNode schema required (Go.int64_of_float f)))
    | Go.anyNil =>
        (Schema.Validate s value st = (None, st) <-> admitsIntegerNode schema required 0%Z) /\
        (required = true -> Schema.Validate s value st = (Some Go.ErrValueRequired, st))
    | a =>
        Schema.Validate s value st =
        (Some (Go.fmt_Errorf "expected integer value, got %T" [Go.ArgAny a]), st)
    end.
Proof.
  intros Htype Hs value st.
  rewrite (integerNode_shape order T schema required s Htype Hs), Validate_Custom_New.
  unfold valtorjsonschema.integerClosure.
  pose proof (fun z => numericNode_accepts (St := St) (T := Z)
                (if String.eqb (valtorjsonschema.Minimum schema) EmptyString
                 then None else Some (integerMinimum schema))
                (if String.eqb (valtorjsonschema.Maximum schema) EmptyString
                 then None else Some (integerMaximum schema)) required z st) as Hacc.
  simpl in Hacc.
  assert (Hint : forall z,
             (NumberSchema.Validate
                (let s0 := NumberSchema.Number in
                 let s1 := match (if String.eqb (valtorjsonschema.Minimum schema) EmptyString
                                  then None else Some (integerMinimum schema)) with
                           | Some a => NumberSchema.Min s0 a
                           | None => s0
                           end in
                 let s2 := match (if String.eqb (valtorjsonschema.Maximum schema) EmptyString
                                  then None else Some (integerMaximum schema)) with
                           | Some b => NumberSchema.Max s1 b
                           | None => s1
                           end in
                 if required then NumberSchema.Required s2 else s2) z st = (None, st) <->
              admitsIntegerNode schema required z) /\
             (required = true -> z = 0%Z ->
              NumberSchema.Validate
                (let s0 := NumberSchema.Number in
                 let s1 := match (if String.eqb (valtorjsonschema.Minimum schema) EmptyString
                                  then None else Some (integerMinimum schema)) with
                           | Some a => NumberSchema.Min s0 a
                           | None => s0
                           end in
                 let s2 := match (if String.eqb (valtorjsonschema.Maximum schema) EmptyString
                                  then None else Some (integerMaximum schema)) with
                           | Some b => NumberSchema.Max s1 b
                           | None => s1
                           end in
                 if required then NumberSchema.Required s2 else s2) z st =
              (Some Go.ErrValueRequired, st))).
  { intros z. destruct (Hacc z) as [Hiff Hreq]. split.
    - rewrite integerNode_admits. exact Hiff.
    - intros Hr ->. apply Hreq; [exact Hr | reflexivity]. }
  destruct (Go.toAny value) as [| b | v | k z | f | l | m | n]; try reflexivity.
  - destruct (Hint 0%Z) as [Hiff Hreq]. split; [exact Hiff | intros Hr; apply Hreq; auto].
  - intros Hrange. split.
    + intros Hle. assert (Hltb : (Go.maxInt Go.Int64 <? z)%Z = false) by (apply Z.ltb_ge; exact Hle).
      destruct k; rewrite ?Hltb; apply Hint.
    + intros Hlt. assert (Hltb : (Go.maxInt Go.Int64 <? z)%Z = true) by (apply Z.ltb_lt; exact Hlt).
      destruct (maxInt_narrow k) as [Hk|[->| ->]].
      * exfalso. destruct Hrange as [_ Hle]. lia.
      * rewrite Hltb. reflexivity.
      * rewrite Hltb. reflexivity.
  - split; [|split; [|split]].
    + intros ->. reflexivity.
    + intros -> [-> | Hlo]; [reflexivity|]. simpl. rewrite Hlo, orb_true_r. reflexivity.
    + intros -> -> ->. exact (proj1 (Hint (Go.int64_of_float f))).
    + intros Hf -> ->. rewrite <- Hf, float_ltb_irrefl.
      exact (proj1 (Hint (Go.int64_of_float f))).
Qed.

(** A required integer node with the bounds 0 and 1 rejects the [uint64]
    value 2^63 with the error that names the type. *)
Lemma integer_node_verdict_witness :
  exists s,
    valtorjsonschema.parseJSONSchema (St := unit) (H := exampleLib) (fun l => l) Go.any
      (numericNode "integer" "0" "1") true = (Some s, None) /\
    Schema.Validate s (Go.anyInt Go.Uint64 9223372036854775808%Z) tt =
    (Some (Go.fmt_Errorf "uint64 value %d exceeds maximum int64"
             [Go.ArgInt 9223372036854775808%Z]), tt).
Proof.
  eexists. split; [reflexivity|].
  refine (proj2 (integer_node_verdict (St := unit) (H := exampleLib) (fun l => l) Go.any
                   (numericNode "integer" "0" "1") true _ eq_refl eq_refl
                   (Go.anyInt Go.Uint64 9223372036854775808%Z) tt _) _).
  - unfold Go.inRange. vm_compute. split; discriminate.
  - vm_compute. reflexivity.
Defined.

Section NumberNode.
Context {St : Type} `{Go.Lib} (order : ObjectSchema.MapOrder St Go.any).

(** The schema that the translation of a number node returns. *)
Lemma numberNode_shape (T : Type) `{Go.Type_ T}
    (schema : valtorjsonschema.JSONSchema) (required : bool) (s : Schema.t St T) :
  valtorjsonschema.Type_ schema = "number" ->
  valtorjsonschema.parseJSONSchema order T schema required = (Some s, None) ->
  s = Schema.Custom (Schema.New St T)
        (valtorjsonschema.numberClosure
           (let s0 := NumberSchema.Number in
            let s1 := match (if String.eqb (valtorjsonschema.Minimum schema) EmptyString
                             then None
                             else Some (fst (Go.Number_Float64
                                               (valtorjsonschema.Minimum schema)))) with
                      | Some a => NumberSchema.Min s0 a
                      | None => s0
                      end in
            let s2 := match (if String.eqb (valtorjsonschema.Maximum schema) EmptyString
                             then None
                             else Some (fst (Go.Number_Float64
                                               (valtorjsonschema.Maximum schema)))) with
                      | Some b => NumberSchema.Max s1 b
                      | None => s1
                      end in
            if required then NumberSchema.Required s2 else s2)).
Proof.
  destruct schema as [type minLength maxLength pattern minimum maximum
                        items minItems maxItems uniqueItems properties requiredNames].
  simpl. intros -> Hs. simpl in Hs.
  destruct (String.eqb minimum EmptyString); simpl in Hs |- *;
    [|destruct (Go.Number_Float64 minimum) as [f [e|]]; [discriminate Hs|]];
    (destruct (String.eqb maximum EmptyString); simpl in Hs |- *;
     [|destruct (Go.Number_Float64 maximum) as [g [e'|]]; [discriminate Hs|]]);
    injection Hs as <-; reflexivity.
Qed.

Lemma numberNode_admits (schema : valtorjsonschema.JSONSchema) (required : bool) (f : float) :
  admitsNumberNode schema required f <->
  (required = true -> PrimFloat.eqb f 0 = false) /\
  (forall a, (if String.eqb (valtorjsonschema.Minimum schema) EmptyString
              then None
              else Some (fst (Go.Number_Float64 (valtorjsonschema.Minimum schema)))) = Some a ->
     PrimFloat.ltb f a = false) /\
  (forall b, (if String.eqb (valtorjsonschema.Maximum schema) EmptyString
              then None
              else Some (fst (Go.Number_Float64 (valtorjsonschema.Maximum schema)))) = Some b ->
     PrimFloat.ltb b f = false).
Proof.
  unfold admitsNumberNode.
  destruct (String.eqb_spec (valtorjsonschema.Minimum schema) EmptyString) as [Ha|Ha];
    destruct (String.eqb_spec (valtorjsonschema.Maximum schema) EmptyString) as [Hb|Hb];
    (split; intros (Hr & Hmin & Hmax); (split; [exact Hr|]); split);
    try (intros a [= <-]); try discriminate; try (intros Hne; try contradiction); auto.
Qed.
End NumberNode.

(** X15. The schema that a number node translates to converts a value of
    any integer type to [float64] and validates it, like a [float64], with
    the comparisons of [float64]: it is accepted exactly when it is not
    below the declared minimum, not above the declared maximum, and not
    equal to zero if the node is required.  The nil interface is validated
    as zero, so a required node answers it with [ErrValueRequired]; a value
    of any other type gets the type error. *)
Theorem number_node_verdict {St : Type} `{Go.Lib}
    (order : ObjectSchema.MapOrder St Go.any) (T : Type) `{Go.Type_ T}
    (schema : valtorjsonschema.JSONSchema) (required : bool) (s : Schema.t St T) :
  valtorjsonschema.Type_ schema = "number" ->
  valtorjsonschema.parseJSONSchema order T schema required = (Some s, None) ->
  forall (value : T) (st : St),
    match Go.toAny value with
    | Go.anyFloat64 f =>
        (Schema.Validate s value st = (None, st) <-> admitsNumberNode schema required f) /\
        (required = true -> PrimFloat.eqb f 0 = true ->
         Schema.Validate s value st = (Some Go.ErrValueRequired, st))
    | Go.anyInt k z =>
        (Schema.Validate s value st = (None, st) <->
         admitsNumberNode schema required (Go.float_of_int z)) /\
        (required = true -> PrimFloat.eqb (Go.float_of_int z) 0 = true ->
         Schema.Validate s value st = (Some Go.ErrValueRequired, st))
    | Go.anyNil =>
        (Schema.Validate s value st = (None, st) <-> admitsNumberNode schema required 0%float) /\
        (required = true -> Schema.Validate s value st = (Some Go.ErrValueRequired, st))
    | a =>
        Schema.Validate s value st =
        (Some (Go.fmt_Errorf "expected numeric value, got %T" [Go.ArgAny a]), st)
    end.
Proof.
  intros Htype Hs value st.
  rewrite (numberNode_shape order T schema required s Htype Hs), Validate_Custom_New.
  unfold valtorjsonschema.numberClosure.
  pose proof (fun f => numericNode_accepts (St := St) (T := float)
                (if String.eqb (valtorjsonschema.Minimum schema) EmptyString
                 then None
                 else Some (fst (Go.Number_Float64 (valtorjsonschema.Minimum schema))))
                (if String.eqb (valtorjsonschema.Maximum schema) EmptyString
                 then None
                 else Some (fst (Go.Number_Float64 (valtorjsonschema.Maximum schema))))
                required f st) as Hacc.
  simpl in Hacc.
  destruct (Go.toAny value) as [| b | v | k z | f | l | m | n]; try reflexivity.
  - destruct (Hacc 0%float) as [Hiff Hreq]. split.
    + rewrite numberNode_admits. exact Hiff.
    + intros Hr. apply Hreq; [exact Hr | reflexivity].
  - destruct (Hacc (Go.float_of_int z)) as [Hiff Hreq]. split.
    + rewrite numberNode_admits. exact Hiff.
    + exact Hreq.
  - destruct (Hacc f) as [Hiff Hreq]. split.
    + rewrite numberNode_admits. exact Hiff.
    + exact Hreq.
Qed.

(** A required number node with the bounds 0 and 1 rejects the nil
    interface with [ErrValueRequired]. *)
Lemma number_node_verdict_witness :
  exists s,
    valtorjsonschema.parseJSONSchema (St := unit) (H := exampleLib) (fun l => l) Go.any
      (numericNode "number" "0" "1") true = (Some s, None) /\
    Schema.Validate s Go.anyNil tt = (Some Go.ErrValueRequired, tt).
Proof.
  eexists. split; [reflexivity|].
  refine (proj2 (number_node_verdict (St := unit) (H := exampleLib) (fun l => l) Go.any
                   (numericNode "number" "0" "1") true _ eq_refl eq_refl
                   Go.anyNil tt) eq_refl).
Defined.

(** X16. A null node and a boolean node always translate.  The schema of a
    null node accepts the nil interface and nothing else, whether the node
    is required or not.  The schema of a boolean node accepts [true] and
    [false] alike, also when the node is required; it accepts the nil
    interface unless the node is required, and then answers it with
    [ErrValueRequired]; a value of any other type gets the type error. *)
Theorem null_boolean_node_verdict {St : Type} `{Go.Lib}
    (order : ObjectSchema.MapOrder St Go.any) (T : Type) `{Go.Type_ T}
    (schema : valtorjsonschema.JSONSchema) (required : bool) :
  (valtorjsonschema.Type_ schema = "null" ->
   exists s,
     valtorjsonschema.parseJSONSchema order T schema required = (Some s, None) /\
     forall (value : T) (st : St),
       (Schema.Validate s value st = (None, st) <-> Go.toAny value = Go.anyNil) /\
       (Go.toAny value <> Go.anyNil ->
        Schema.Validate s value st =
        (Some (Go.fmt_Errorf "expected null value, got %T" [Go.ArgAny (Go.toAny value)]), st))) /\
  (valtorjsonschema.Type_ schema = "boolean" ->
   exists s,
     valtorjsonschema.parseJSONSchema order T schema required = (Some s, None) /\
     forall (value : T) (st : St),
       (Schema.Validate s value st = (None, st) <->
        (exists b, Go.toAny value = Go.anyBool b) \/
        (Go.toAny value = Go.anyNil /\ required = false)) /\
       (Go.toAny value = Go.anyNil -> required = true ->
        Schema.Validate s value st = (Some Go.ErrValueRequired, st)) /\
       ((forall b, Go.toAny value <> Go.anyBool b) -> Go.toAny value <> Go.anyNil ->
        Schema.Validate s value st =
        (Some (Go.fmt_Errorf "expected boolean value, got %T" [Go.ArgAny (Go.toAny value)]),
         st))).
Proof.
  destruct schema as [type minLength maxLength pattern minimum maximum
                        items minItems maxItems uniqueItems properties requiredNames].
  simpl. split; intros ->; simpl; eexists; (split; [reflexivity|]); intros value st;
    rewrite Validate_Custom_New.
  - unfold NullSchema.Validate.
    destruct (Go.toAny value) as [| b | v | k z | f | l | m | n]; simpl;
      (split; [split; [intros E; try discriminate E; reflexivity
                      | intros E; try discriminate E; reflexivity]
              | intros Hn; try reflexivity; contradiction]).
  - unfold BoolSchema.Validate.
    destruct (Go.toAny value) as [| b | v | k z | f | l | m | n]; simpl.
    2: { split; [split; [intros _; left; eauto | reflexivity]|].
         split; [discriminate|]. intros Hb. destruct (Hb b eq_refl). }
    1: { destruct required.
         - split; [split; [discriminate | intros [[b E]|[_ E]]; discriminate E]|].
           split; [reflexivity | intros _ Hn; destruct (Hn eq_refl)].
         - split; [split; [intros _; right; split; reflexivity | reflexivity]|].
           split; [discriminate | intros _ Hn; destruct (Hn eq_refl)]. }
    all: (split; [split; [discriminate | intros [[b E]|[E _]]; discriminate E]|]);
      (split; [discriminate | reflexivity]).
Qed.

(** A required boolean node accepts [false]. *)
Lemma null_boolean_node_verdict_witness :
  exists s,
    valtorjsonschema.parseJSONSchema (St := unit) (H := exampleLib) (fun l => l) Go.any
      (node "boolean") true = (Some s, None) /\
    Schema.Validate s (Go.anyBool false) tt = (None, tt).
Proof.
  destruct (proj2 (null_boolean_node_verdict (St := unit) (H := exampleLib) (fun l => l)
                     Go.any (node "boolean") true) eq_refl) as (s & Hs & Hv).
  exists s. split; [exact Hs|].
  apply (proj1 (Hv (Go.anyBool false) tt)). left. exists false. reflexivity.
Defined.

Section ArrayNode.
Context {St : Type} `{Go.Lib}.

(** A slice under the length bounds of an array node. *)
Lemma arrayBounds_accepts (minItems maxItems : option Z) (v : Go.slice Go.any) (st : St) :
  let s0 := ArraySchema.Array (St := St) (T := Go.any) in
  let s1 := match minItems with Some n => ArraySchema.Min s0 n | None => s0 end in
  let s2 := match maxItems with Some n => ArraySchema.Max s1 n | None => s1 end in
  ArraySchema.Validate s2 v st = (None, st) <->
  (forall n, minItems = Some n -> (n <= Go.len v)%Z) /\
  (forall n, maxItems = Some n -> (Go.len v <= n)%Z).
Proof.
  intros s0 s1 s2. subst s2 s1 s0. unfold ArraySchema.Validate.
  destruct v as [l|], minItems as [a|], maxItems as [b|]; simpl;
    unfold Schema.Validate, Schema.check, Go.len, Go.elems; simpl;
    repeat match goal with
           | |- context [(?x <? ?y)%Z] => destruct (Z.ltb_spec x y); simpl
           end;
    (split;
     [ intros E; try discriminate E; split; intros n E'; try discriminate E';
       injection E' as <-; assumption
     | intros (Hmin & Hmax);
       try specialize (Hmin _ eq_refl); try specialize (Hmax _ eq_refl);
       try reflexivity; exfalso; lia ]).
Qed.
End ArrayNode.

(** X17. The schema that an array node translates to, with counts that fit
    an [int].  The nil interface is accepted, except that a required node
    whose minimum count is above zero answers it with [ErrValueRequired]; a
    value that is not a slice gets the type error.  Without an item schema
    and without the uniqueness check, a slice is accepted exactly when its
    length is within the declared counts.  With an item schema, the items
    are validated first, in order, by the translation of the item schema
    (translated as not required): the first item it rejects decides the
    error, whatever the counts are. *)
Theorem array_node_verdict {St : Type} `{Go.Lib}
    (order : ObjectSchema.MapOrder St Go.any) (T : Type) `{Go.Type_ T}
    (schema : valtorjsonschema.JSONSchema) (required : bool) (s : Schema.t St T) :
  valtorjsonschema.Type_ schema = "array" ->
  (forall n, valtorjsonschema.MinItems schema = Some n -> Go.inRange Go.Int n) ->
  (forall n, valtorjsonschema.MaxItems schema = Some n -> Go.inRange Go.Int n) ->
  valtorjsonschema.parseJSONSchema order T schema required = (Some s, None) ->
  forall (value : T) (st : St),
    match Go.toAny value with
    | Go.anyNil =>
        (required = true ->
         (exists n, valtorjsonschema.MinItems schema = Some n /\ (0 < n)%Z) ->
         Schema.Validate s value st = (Some Go.ErrValueRequired, st)) /\
        (required = false \/
         (forall n, valtorjsonschema.MinItems schema = Some n -> (n <= 0)%Z) ->
         Schema.Validate s value st = (None, st))
    | Go.anySlice v =>
        (valtorjsonschema.Items schema = None ->
         valtorjsonschema.UniqueItems schema = false ->
         (Schema.Validate s value st = (None, st) <->
          (forall n, valtorjsonschema.MinItems schema = Some n -> (n <= Go.len v)%Z) /\
          (forall n, valtorjsonschema.MaxItems schema = Some n -> (Go.len v <= n)%Z))) /\
        (forall items itemSchema pre x post st1 st2 err,
            valtorjsonschema.Items schema = Some items ->
            valtorjsonschema.parseJSONSchema order Go.any items false
              = (Some itemSchema, None) ->
            Go.elems v = pre ++ x :: post ->
            passesItems (Schema.Validate itemSchema) pre st st1 ->
            Schema.Validate itemSchema x st1 = (Some err, st2) ->
            Schema.Validate s value st =
            (Some (Go.fmt_Errorf "invalid item at index %d: %w"
                     [Go.ArgInt (Z.of_nat (length pre)); Go.ArgError err]), st2))
    | a =>
        Schema.Validate s value st =
        (Some (Go.fmt_Errorf "expected array value, got %T" [Go.ArgAny a]), st)
    end.
Proof.
  destruct schema as [type minLength maxLength pattern minimum maximum
                        items minItems maxItems uniqueItems properties requiredNames].
  simpl. intros -> Hmin Hmax Hs value st.
  assert (Hwmin : forall n, minItems = Some n -> Go.wrap Go.Int n = n)
    by (intros n Hn; apply wrap_inRange; auto).
  assert (Hwmax : forall n, maxItems = Some n -> Go.wrap Go.Int n = n)
    by (intros n Hn; apply wrap_inRange; auto).
  assert (Hshape : exists arrSchema,
             s = Schema.Custom (Schema.New St T)
                   (valtorjsonschema.arrayClosure
                      (valtorjsonschema.mkJSONSchema "array" minLength maxLength pattern
                         minimum maximum items minItems maxItems uniqueItems properties
                         requiredNames) required arrSchema) /\
             (items = None -> uniqueItems = false ->
              arrSchema =
              (let s0 := ArraySchema.Array in
               let s1 := match minItems with Some n => ArraySchema.Min s0 n | None => s0 end in
               match maxItems with Some n => ArraySchema.Max s1 n | None => s1 end)) /\
             (forall child itemSchema,
                 items = Some child ->
                 valtorjsonschema.parseJSONSchema order Go.any child false
                   = (Some itemSchema, None) ->
                 exists rest,
                   Schema.validators (ArraySchema.Schema arrSchema) =
                   (fun arr st =>
                      ArraySchema.rangeItems (Schema.Validate itemSchema) 0 (Go.elems arr) st)
                   :: rest)).
  { destruct items as [child|]; simpl in Hs.
    - destruct (valtorjsonschema.parseJSONSchema order Go.any child false) as [r [e|]] eqn:Hp;
        [discriminate Hs|]. injection Hs as <-. eexists. split; [reflexivity|].
      split; [discriminate|]. intros child' itemSchema [= <-] Hp'.
      rewrite Hp in Hp'. injection Hp' as ->.
      unfold valtorjsonschema.arrayBounds. simpl.
      destruct minItems, maxItems, uniqueItems; simpl; eexists; reflexivity.
    - injection Hs as <-. eexists. split; [reflexivity|].
      split; [|discriminate]. intros _ ->. unfold valtorjsonschema.arrayBounds. simpl.
      destruct minItems as [a|], maxItems as [b|]; simpl;
        rewrite ?(Hwmin a eq_refl), ?(Hwmax b eq_refl); reflexivity. }
  destruct Hshape as (arrSchema & -> & Hplain & Hitems).
  rewrite Validate_Custom_New. unfold valtorjsonschema.arrayClosure. simpl.
  destruct (Go.toAny value) as [| b | v | k z | f | l | m | n]; try reflexivity.
  - split.
    + intros -> (n & -> & Hn). apply Z.ltb_lt in Hn. rewrite Hn. reflexivity.
    + intros [-> | Hle]; [reflexivity|].
      destruct minItems as [n|]; [|rewrite andb_false_r; reflexivity].
      specialize (Hle n eq_refl). apply Z.ltb_ge in Hle. rewrite Hle, andb_false_r.
      reflexivity.
  - split.
    + intros Hi Hu. rewrite (Hplain Hi Hu). apply arrayBounds_accepts.
    + intros child itemSchema pre x post st1 st2 err Hi Hp Hl Hpre Hx.
      destruct (Hitems child itemSchema Hi Hp) as (rest & Hv).
      pose proof (rangeItems_first_invalid (Schema.Validate itemSchema) pre x post 0
                    st st1 st2 err Hpre Hx) as Hr.
      unfold ArraySchema.Validate, Schema.Validate. rewrite Hv.
      destruct l as [l|]; simpl in Hl |- *.
      * rewrite Hl, Hr. reflexivity.
      * destruct pre; discriminate Hl.
Qed.

(** A required array node that asks for at least one item answers the nil
    interface with [ErrValueRequired]. *)
Lemma array_node_verdict_witness :
  exists s,
    valtorjsonschema.parseJSONSchema (St := unit) (H := exampleLib) (fun l => l) Go.any
      (arrayNode None (Some 1%Z) None) true = (Some s, None) /\
    Schema.Validate s Go.anyNil tt = (Some Go.ErrValueRequired, tt).
Proof.
  eexists. split; [reflexivity|].
  refine (proj1 (array_node_verdict (St := unit) (H := exampleLib) (fun l => l) Go.any
                   (arrayNode None (Some 1%Z) None) true _ eq_refl _ _ eq_refl
                   Go.anyNil tt) eq_refl _).
  - intros n [= <-]. unfold Go.inRange. vm_compute. split; discriminate.
  - intros n E. discriminate E.
  - exists 1%Z. split; [reflexivity | lia].
Defined.

Section ObjectNode.
Context {St : Type} `{Go.Lib} (order : ObjectSchema.MapOrder St Go.any).
Implicit Types (pairs : list (string * option valtorjsonschema.JSONSchema)).

Lemma objectOf_snoc (regs : list (string * (Go.any -> St -> option Go.error * St)))
    (key : string) (fn : Go.any -> St -> option Go.error * St) :
  ObjectSchema.Field (objectOf regs) key fn = objectOf (regs ++ [(key, fn)]).
Proof.
  unfold objectOf. rewrite fold_left_app. reflexivity.
Qed.

(** The property loop makes the [Field] calls of [propertyFields]. *)
Lemma rangeProperties_objectOf (requiredNames : list string) pairs
    (regs : list (string * (Go.any -> St -> option Go.error * St))) :
  (forall key child, In (key, Some child) pairs ->
     snd (valtorjsonschema.parseJSONSchema order Go.any child
            (valtorjsonschema.Contains requiredNames key)) = None) ->
  valtorjsonschema.rangeProperties (valtorjsonschema.parseJSONSchema order Go.any)
    requiredNames pairs (objectOf regs) =
  inl (objectOf (regs ++ propertyFields order requiredNames pairs)).
Proof.
  revert regs. induction pairs as [|[k [c|]] pairs IH]; intros regs Hall; simpl.
  - rewrite app_nil_r. reflexivity.
  - pose proof (Hall k c (or_introl eq_refl)) as Hc.
    destruct (valtorjsonschema.parseJSONSchema order Go.any c
                (valtorjsonschema.Contains requiredNames k)) as [r [e|]];
      simpl in Hc; [discriminate Hc|].
    rewrite objectOf_snoc, IH by (intros key child Hin; apply Hall; right; exact Hin).
    rewrite <- app_assoc. reflexivity.
  - apply IH. intros key child Hin. apply Hall. right. exact Hin.
Qed.

Lemma propertyFields_elem (requiredNames : list string) pairs (key : string)
    (fn : Go.any -> St -> option Go.error * St) :
  (key, fn) ∈ propertyFields order requiredNames pairs <->
  exists child,
    In (key, Some child) pairs /\
    fn = valtorjsonschema.Validate
           (fst (valtorjsonschema.parseJSONSchema order Go.any child
                   (valtorjsonschema.Contains requiredNames key))).
Proof.
  induction pairs as [|[k [c|]] pairs IH]; simpl.
  - split; [intros Hin; apply elem_of_nil in Hin; contradiction | intros (child & [] & _)].
  - rewrite elem_of_cons, IH. split.
    + intros [[= -> ->] | (child & Hin & ->)]; eauto.
    + intros (child & [[= -> ->] | Hin] & ->); [left; reflexivity | right; eauto].
  - rewrite IH. split.
    + intros (child & Hin & ->). eauto.
    + intros (child & [E | Hin] & ->); [discriminate E | eauto].
Qed.

Lemma propertyFields_keys (requiredNames : list string) pairs (key : string) :
  key ∈ (propertyFields order requiredNames pairs).*1 -> key ∈ pairs.*1.
Proof.
  induction pairs as [|[k [c|]] pairs IH]; simpl; rewrite ?fmap_cons; simpl.
  - auto.
  - rewrite !elem_of_cons. intros [->|Hin]; auto.
  - rewrite elem_of_cons. auto.
Qed.

Lemma propertyFields_NoDup (requiredNames : list string) pairs :
  NoDup (pairs.*1) -> NoDup ((propertyFields order requiredNames pairs).*1).
Proof.
  induction pairs as [|[k [c|]] pairs IH]; simpl; rewrite ?fmap_cons; simpl.
  - auto.
  - intros Hnd. apply NoDup_cons in Hnd as [Hk Hnd]. apply NoDup_cons. split; [|auto].
    intros Hin. apply Hk. eapply propertyFields_keys. exact Hin.
  - intros Hnd. apply NoDup_cons in Hnd as [_ Hnd]. auto.
Qed.

(** With keys that are pairwise different, the validator that stays
    registered for a property that has a schema. *)
Lemma lookup_propertyFields (requiredNames : list string) pairs (key : string)
    (fn : Go.any -> St -> option Go.error * St) :
  NoDup (pairs.*1) ->
  fieldsOf (propertyFields order requiredNames pairs) !! key = Some fn <->
  exists child,
    In (key, Some child) pairs /\
    fn = valtorjsonschema.Validate
           (fst (valtorjsonschema.parseJSONSchema order Go.any child
                   (valtorjsonschema.Contains requiredNames key))).
Proof.
  intros Hnd. unfold fieldsOf.
  rewrite (lookup_fold_insert _ ∅ key fn (propertyFields_NoDup requiredNames pairs Hnd)).
  rewrite lookup_empty, propertyFields_elem. split.
  - intros [Hin | [_ E]]; [exact Hin | discriminate E].
  - intros Hin. left. exact Hin.
Qed.

(** The schema that the translation of an object node returns. *)
Lemma objectNode_shape (T : Type) `{Go.Type_ T}
    (schema : valtorjsonschema.JSONSchema) (required : bool) (s : Schema.t St T) :
  valtorjsonschema.Type_ schema = "object" ->
  valtorjsonschema.parseJSONSchema order T schema required = (Some s, None) ->
  (forall key child, In (key, Some child) (valtorjsonschema.Properties schema) ->
     snd (valtorjsonschema.parseJSONSchema order Go.any child
            (valtorjsonschema.Contains (valtorjsonschema.Required schema) key)) = None) /\
  s = Schema.Custom (Schema.New St T) (fun value st =>
        ObjectSchema.Validate order
          (objectOf (propertyFields order (valtorjsonschema.Required schema)
                       (valtorjsonschema.Properties schema)))
          (Go.toAny value) st).
Proof.
  destruct schema as [type minLength maxLength pattern minimum maximum
                        items minItems maxItems uniqueItems properties requiredNames].
  simpl. intros -> Hs. simpl in Hs.
  assert (Hall : forall key child, In (key, Some child) properties ->
            snd (valtorjsonschema.parseJSONSchema order Go.any child
                   (valtorjsonschema.Contains requiredNames key)) = None).
  { apply (proj1 (rangeProperties_succeeds (valtorjsonschema.parseJSONSchema order Go.any)
                    requiredNames properties ObjectSchema.Object)).
    destruct (valtorjsonschema.rangeProperties _ _ _ _) as [o|e]; [eauto | discriminate Hs]. }
  split; [exact Hall|].
  change (ObjectSchema.Object (St := St) (T := Go.any)) with (objectOf (St := St) (T := Go.any) [])
    in Hs.
  rewrite (rangeProperties_objectOf requiredNames properties [] Hall) in Hs.
  injection Hs as <-. reflexivity.
Qed.

(** A visit of entries one of which rejects in every state ends with an
    error. *)
Lemma rangeFields_some_failure
    (entries : list (string * (ObjectSchema.boxed Go.any -> St -> option Go.error * St)))
    (arg : string -> ObjectSchema.boxed Go.any) (a : string)
    (c : ObjectSchema.boxed Go.any -> St -> option Go.error * St) :
  (a, c) ∈ entries ->
  (forall st1, exists err st2, c (arg a) st1 = (Some err, st2)) ->
  forall st, exists err st', ObjectSchema.rangeFields entries arg st = (Some err, st').
Proof.
  intros Hin Hfail. induction entries as [|[n c'] entries IH]; intros st.
  - apply elem_of_nil in Hin. contradiction.
  - simpl. destruct (c' (arg n) st) as [[e|] st1] eqn:Hc; [eauto|].
    apply elem_of_cons in Hin as [[= <- <-]|Hin].
    + destruct (Hfail st) as (err & st2 & Hc'). rewrite Hc' in Hc. discriminate Hc.
    + apply IH. exact Hin.
Qed.

(** What the field validators of an object schema over [any] receive. *)
Lemma fieldInput_any (value : Go.any) (key : string) :
  fieldInput value key =
  match value with
  | Go.anyMap mapValue => Go.index mapValue key
  | _ => value
  end.
Proof.
  unfold fieldInput, fieldArg. simpl.
  destruct value as [| b | v | k z | f | l | m | n]; try reflexivity.
  simpl. destruct (Go.index m key); reflexivity.
Qed.

(** A required boolean, string, integer or number node answers the nil
    interface with the sentinel, in every state. *)
Lemma required_node_rejects_nil (child : valtorjsonschema.JSONSchema)
    (childSchema : Schema.t St Go.any) (st : St) :
  In (valtorjsonschema.Type_ child) ["boolean"; "string"; "integer"; "number"] ->
  valtorjsonschema.parseJSONSchema order Go.any child true = (Some childSchema, None) ->
  Schema.Validate childSchema Go.anyNil st = (Some Go.ErrValueRequired, st).
Proof.
  intros [E|[E|[E|[E|[]]]]] Hs; symmetry in E.
  - destruct child as [type minLength maxLength pattern minimum maximum
                         items minItems maxItems uniqueItems properties requiredNames].
    simpl in E. subst type. simpl in Hs. injection Hs as <-.
    rewrite Validate_Custom_New. reflexivity.
  - destruct child as [type minLength maxLength pattern minimum maximum
                         items minItems maxItems uniqueItems properties requiredNames].
    simpl in E. subst type. simpl in Hs.
    destruct (String.eqb pattern EmptyString); simpl in Hs;
      [|destruct (Go.regexp_Compile pattern) as [re|e]; [|discriminate Hs]];
      injection Hs as <-; rewrite Validate_Custom_New; reflexivity.
  - rewrite (integerNode_shape order Go.any child true childSchema E Hs), Validate_Custom_New.
    unfold valtorjsonschema.integerClosure. simpl Go.toAny. cbv iota beta.
    refine (proj2 (numericNode_accepts (St := St) (T := Z) _ _ true 0%Z st) eq_refl eq_refl).
  - rewrite (numberNode_shape order Go.any child true childSchema E Hs), Validate_Custom_New.
    unfold valtorjsonschema.numberClosure. simpl Go.toAny. cbv iota beta.
    refine (proj2 (numericNode_accepts (St := St) (T := float) _ _ true 0%float st)
              eq_refl eq_refl).
Qed.
End ObjectNode.

(** X18. The schema that an object node translates to validates as the
    object schema [Object[any]()] on which [Field] was called once for each
    property that has a schema, in the order of the properties, with the
    translation of that schema; properties without a schema are skipped
    and the required flag of the node itself plays no part.  With keys that
    are pairwise different, an error it returns is always the error of the
    translation of one property, on the entry of the map under the key of
    that property (nil when the key is absent), or on the value itself
    when the value is not a map, wrapped with the key. *)
Theorem object_node_verdict {St : Type} `{Go.Lib}
    (order : ObjectSchema.MapOrder St Go.any) (T : Type) `{Go.Type_ T}
    (schema : valtorjsonschema.JSONSchema) (required : bool) (s : Schema.t St T) :
  ObjectSchema.permutes order ->
  valtorjsonschema.Type_ schema = "object" ->
  NoDup ((valtorjsonschema.Properties schema).*1) ->
  valtorjsonschema.parseJSONSchema order T schema required = (Some s, None) ->
  forall (value : T) (st : St),
    Schema.Validate s value st =
    ObjectSchema.Validate order
      (objectOf (propertyFields order (valtorjsonschema.Required schema)
                   (valtorjsonschema.Properties schema)))
      (Go.toAny value) st /\
    (forall err st',
        Schema.Validate s value st = (Some err, st') ->
        exists key child childSchema inner st1,
          In (key, Some child) (valtorjsonschema.Properties schema) /\
          valtorjsonschema.parseJSONSchema order Go.any child
            (valtorjsonschema.Contains (valtorjsonschema.Required schema) key)
            = (Some childSchema, None) /\
          Schema.Validate childSchema
            match Go.toAny value with
            | Go.anyMap mapValue => Go.index mapValue key
            | _ => Go.toAny value
            end st1 = (Some inner, st') /\
          err = fieldError key inner).
Proof.
  intros Hp Htype Hnd Hs value st.
  destruct (objectNode_shape order T schema required s Htype Hs) as [Hall ->].
  rewrite Validate_Custom_New. split; [reflexivity|].
  intros err st' Hr. rewrite Validate_rangeFields in Hr.
  destruct (rangeFields_error_origin _ _ _ _ _ Hr) as (n & c & st1 & Hin & Hc).
  apply elem_of_order in Hin; [|exact Hp].
  apply lookup_objectOf in Hin as (fn & Hfn & ->).
  apply (lookup_propertyFields order _ _ n fn Hnd) in Hfn as (child & Hchild & ->).
  pose proof (Hall n child Hchild) as Hnone.
  destruct (parseJSONSchema_shape order Go.any child
              (valtorjsonschema.Contains (valtorjsonschema.Required schema) n))
    as [[cs Hcs]|[e He]]; [|rewrite He in Hnone; discriminate Hnone].
  unfold ObjectSchema.fieldClosure in Hc. fold (fieldInput (Go.toAny value) n) in Hc.
  rewrite Hcs, fieldInput_any in Hc. simpl in Hc.
  destruct (Schema.Validate cs _ st1) as [[inner|] sa] eqn:Hv; [|discriminate Hc].
  injection Hc as <- <-. exists n, child, cs, inner, st1.
  split; [exact Hchild|]. split; [exact Hcs|]. split; [exact Hv | reflexivity].
Qed.

(** An object node with the required string property ["name"], on the
    empty map. *)
Lemma object_node_verdict_witness :
  exists s,
    valtorjsonschema.parseJSONSchema (St := unit) (H := exampleLib) (fun l => l) Go.any
      (objectNodeWith [("name", Some (node "string"))] ["name"]) false = (Some s, None) /\
    Schema.Validate s (Go.anyMap (Some ∅)) tt =
    ObjectSchema.Validate (fun l => l)
      (objectOf (propertyFields (H := exampleLib) (fun l => l) ["name"]
                   [("name", Some (node "string"))]))
      (Go.anyMap (Some ∅)) tt.
Proof.
  eexists. split; [reflexivity|].
  refine (proj1 (object_node_verdict (St := unit) (H := exampleLib) (fun l => l) Go.any
                   (objectNodeWith [("name", Some (node "string"))] ["name"]) false _
                   _ eq_refl _ eq_refl (Go.anyMap (Some ∅)) tt)).
  - intros l. reflexivity.
  - apply NoDup_singleton.
Defined.

(** X19. A map that lacks a required property is rejected.  When a property
    of an object node is named in [required] and its schema is a boolean,
    string, integer or number node, the translated schema rejects every
    map that has no entry, or a nil entry, under the key of the property;
    if the translations of the other properties accept their entries, the
    error is [ErrValueRequired] wrapped with the key, so that [errors.Is]
    finds the sentinel. *)
Theorem object_node_missing_required {St : Type} `{Go.Lib}
    (order : ObjectSchema.MapOrder St Go.any) (T : Type) `{Go.Type_ T}
    (schema : valtorjsonschema.JSONSchema) (required : bool) (s : Schema.t St T)
    (key : string) (child : valtorjsonschema.JSONSchema)
    (value : T) (mapValue : option (gmap string Go.any)) (st : St) :
  ObjectSchema.permutes order ->
  valtorjsonschema.Type_ schema = "object" ->
  NoDup ((valtorjsonschema.Properties schema).*1) ->
  valtorjsonschema.parseJSONSchema order T schema required = (Some s, None) ->
  In (key, Some child) (valtorjsonschema.Properties schema) ->
  valtorjsonschema.Contains (valtorjsonschema.Required schema) key = true ->
  In (valtorjsonschema.Type_ child) ["boolean"; "string"; "integer"; "number"] ->
  Go.toAny value = Go.anyMap mapValue ->
  Go.index mapValue key = Go.anyNil ->
  (exists err st', Schema.Validate s value st = (Some err, st')) /\
  ((forall other otherChild otherSchema,
       other <> key ->
       In (other, Some otherChild) (valtorjsonschema.Properties schema) ->
       valtorjsonschema.parseJSONSchema order Go.any otherChild
         (valtorjsonschema.Contains (valtorjsonschema.Required schema) other)
         = (Some otherSchema, None) ->
       forall st1, exists st2,
         Schema.Validate otherSchema (Go.index mapValue other) st1 = (None, st2)) ->
   exists st',
     Schema.Validate s value st = (Some (fieldError key Go.ErrValueRequired), st') /\
     Go.Is (fieldError key Go.ErrValueRequired) Go.ErrValueRequired).
Proof.
  intros Hp Htype Hnd Hs Hchild Hreq Hkind Hmap Hmiss.
  destruct (objectNode_shape order T schema required s Htype Hs) as [Hall ->].
  rewrite Validate_Custom_New.
  pose proof (Hall key child Hchild) as Hnone. rewrite Hreq in Hnone.
  destruct (parseJSONSchema_shape order Go.any child true)
    as [[cs Hcs]|[e He]]; [|rewrite He in Hnone; discriminate Hnone].
  assert (Hfn : fieldsOf (propertyFields order (valtorjsonschema.Required schema)
                            (valtorjsonschema.Properties schema)) !! key =
                Some (valtorjsonschema.Validate (Some cs))).
  { apply (lookup_propertyFields order _ _ key _ Hnd). exists child.
    split; [exact Hchild|]. rewrite Hreq, Hcs. reflexivity. }
  assert (Hin : forall name, fieldInput (Go.toAny value) name = Go.index mapValue name)
    by (intros name; rewrite fieldInput_any, Hmap; reflexivity).
  assert (Hfail : forall st1, exists st2,
             valtorjsonschema.Validate (Some cs) (fieldInput (Go.toAny value) key) st1 =
             (Some Go.ErrValueRequired, st2)).
  { intros st1. exists st1. rewrite Hin, Hmiss. simpl.
    apply (required_node_rejects_nil order child cs st1 Hkind Hcs). }
  split.
  - rewrite Validate_rangeFields.
    apply rangeFields_some_failure
      with (a := key) (c := ObjectSchema.fieldClosure key (valtorjsonschema.Validate (Some cs))).
    + apply elem_of_order; [exact Hp|]. apply lookup_objectOf. eauto.
    + intros st1. unfold ObjectSchema.fieldClosure.
      fold (fieldInput (Go.toAny value) key). destruct (Hfail st1) as [st2 ->]. eauto.
  - intros Hothers.
    destruct (Object_one_failure _ order (Go.toAny value) key _ Go.ErrValueRequired
                Hp Hfn Hfail) with (st := st) as [st' Hr].
    + intros b fb Hb Hfb st1.
      apply (lookup_propertyFields order _ _ b fb Hnd) in Hfb as (c & Hc & ->).
      pose proof (Hall b c Hc) as Hcn.
      destruct (parseJSONSchema_shape order Go.any c
                  (valtorjsonschema.Contains (valtorjsonschema.Required schema) b))
        as [[os Hos]|[e He]]; [|rewrite He in Hcn; discriminate Hcn].
      rewrite Hos, Hin. simpl. apply (Hothers b c os Hb Hc Hos).
    + exists st'. split; [exact Hr|].
      apply Go.Is_unwrap with (inner := Go.ErrValueRequired); [reflexivity | constructor].
Qed.

(** The object node with the required string property ["name"] rejects the
    empty map with the wrapped sentinel. *)
Lemma object_node_missing_required_witness :
  exists s,
    valtorjsonschema.parseJSONSchema (St := unit) (H := exampleLib) (fun l => l) Go.any
      (objectNodeWith [("name", Some (node "string"))] ["name"]) false = (Some s, None) /\
    exists st',
      Schema.Validate s (Go.anyMap (Some ∅)) tt =
        (Some (fieldError "name" Go.ErrValueRequired), st') /\
      Go.Is (fieldError "name" Go.ErrValueRequired) Go.ErrValueRequired.
Proof.
  eexists. split; [reflexivity|].
  refine (proj2 (object_node_missing_required (St := unit) (H := exampleLib) (fun l => l)
                   Go.any (objectNodeWith [("name", Some (node "string"))] ["name"]) false _
                   "name" (node "string") (Go.anyMap (Some ∅)) (Some ∅) tt
                   _ eq_refl _ eq_refl _ eq_refl _ eq_refl eq_refl) _).
  - intros l. reflexivity.
  - apply NoDup_singleton.
  - left. reflexivity.
  - right. left. reflexivity.
  - intros other otherChild otherSchema Hne [E|[]]. injection E as E _. congruence.
Defined.
